(** * matcaffe bridge: handles, blob marshalling and multi-GPU fan-out

    A shallow embedding of [matlab/+caffe/private/caffe_.cpp]: the MEX
    gateway through which MATLAB drives Caffe solvers, nets and blobs.

    - MATLAB values ([mxArray]) are an inductive type; numeric elements are
      integers: the value of an integer class or of an integer-valued
      double, the bit pattern of a single.
    - The file-level statics ([solvers_], [nets_], [init_key], [sync_ptr])
      and the engine state the handlers touch (mode, current CUDA device,
      blob memory) form one [State]; every C++ function becomes a
      computation in a state-and-error monad.  [mexErrMsgTxt] leaves the
      computation at once and keeps every effect made so far.
    - Blobs live in a heap indexed by address, since handles, nets and
      replicas all refer to them by pointer.
    - The engine (solvers, nets, layers, files) is not part of the bridge
      file.  The handlers call it through the record [Engine], whose
      functions see and change the engine's part of the state only: the
      statics of the bridge file are out of their reach. *)

From Stdlib Require Import ZArith List String Bool Lia.
From stdpp Require Import gmap strings list.

Set Warnings "-register-all".
Open Scope Z_scope.

(* ================================================================== *)
(** ** MATLAB arrays *)

Inductive mxClassID : Type :=
| mxDOUBLE_CLASS
| mxSINGLE_CLASS
| mxUINT32_CLASS
| mxUINT64_CLASS.

(** A cell of a cell array and a field of a struct array are pointers that
    stay NULL until set ([mxCreateCellMatrix], [mxCreateStructMatrix]):
    [None] is NULL. *)
Inductive mxArray : Type :=
| mxNumeric (classid : mxClassID) (dims : list Z) (data : list Z)
| mxChar (str : string)
| mxCell (cells : list (option mxArray))
| mxStruct (elems : list (list (string * option mxArray))).

Definition mxClassID_eqb (a b : mxClassID) : bool :=
  match a, b with
  | mxDOUBLE_CLASS, mxDOUBLE_CLASS
  | mxSINGLE_CLASS, mxSINGLE_CLASS
  | mxUINT32_CLASS, mxUINT32_CLASS
  | mxUINT64_CLASS, mxUINT64_CLASS => true
  | _, _ => false
  end.

Definition mxIsClass (c : mxClassID) (pm : mxArray) : bool :=
  match pm with
  | mxNumeric c' _ _ => mxClassID_eqb c c'
  | _ => false
  end.

Definition mxIsDouble : mxArray -> bool := mxIsClass mxDOUBLE_CLASS.
Definition mxIsSingle : mxArray -> bool := mxIsClass mxSINGLE_CLASS.
Definition mxIsUint32 : mxArray -> bool := mxIsClass mxUINT32_CLASS.
Definition mxIsUint64 : mxArray -> bool := mxIsClass mxUINT64_CLASS.

Definition mxIsChar (pm : mxArray) : bool :=
  match pm with mxChar _ => true | _ => false end.
Definition mxIsCell (pm : mxArray) : bool :=
  match pm with mxCell _ => true | _ => false end.
Definition mxIsStruct (pm : mxArray) : bool :=
  match pm with mxStruct _ => true | _ => false end.

(** The product of a dimension vector: the element count of a numeric array
    and, on the engine side, of a blob. *)
Definition prod_dims (dims : list Z) : Z := fold_right Z.mul 1 dims.

Definition mxGetNumberOfElements (pm : mxArray) : Z :=
  match pm with
  | mxNumeric _ dims _ => prod_dims dims
  | mxChar str => Z.of_nat (String.length str)
  | mxCell cells => Z.of_nat (length cells)
  | mxStruct elems => Z.of_nat (length elems)
  end.

(** MATLAB keeps as many elements as the dimensions announce. *)
Definition mx_wf (pm : mxArray) : bool :=
  match pm with
  | mxNumeric _ dims data => Z.of_nat (length data) =? prod_dims dims
  | _ => true
  end.

Definition mxCreateNumericArray (dims : list Z) (c : mxClassID) : mxArray :=
  mxNumeric c dims (replicate (Z.to_nat (prod_dims dims)) 0).

Definition mxCreateDoubleScalar (v : Z) : mxArray :=
  mxNumeric mxDOUBLE_CLASS [1; 1] [v].

Fixpoint assoc (name : string) (fields : list (string * option mxArray))
  : option mxArray :=
  match fields with
  | [] => None
  | (k, v) :: rest => if String.eqb k name then v else assoc name rest
  end.

Fixpoint assoc_set (name : string) (v : mxArray)
  (fields : list (string * option mxArray)) : list (string * option mxArray) :=
  match fields with
  | [] => []
  | (k, old) :: rest =>
      if String.eqb k name then (k, Some v) :: rest
      else (k, old) :: assoc_set name v rest
  end.

(** [mxGetField] answers NULL for a non-struct, an index out of range, an
    unknown field name and a field never set. *)
Definition mxGetField (pm : mxArray) (index : nat) (name : string)
  : option mxArray :=
  match pm with
  | mxStruct elems =>
      match elems !! index with
      | Some fields => assoc name fields
      | None => None
      end
  | _ => None
  end.

Definition mxSetField (pm : mxArray) (index : nat) (name : string)
  (v : mxArray) : mxArray :=
  match pm with
  | mxStruct elems =>
      match elems !! index with
      | Some fields => mxStruct (<[index := assoc_set name v fields]> elems)
      | None => pm
      end
  | _ => pm
  end.

Definition mxCreateStructMatrix (m : nat) (names : list string) : mxArray :=
  mxStruct (replicate m (map (fun k => (k, None)) names)).

Definition mxCreateCellMatrix (m : nat) : mxArray :=
  mxCell (replicate m None).

Definition mxSetCell (pm : mxArray) (index : nat) (v : mxArray) : mxArray :=
  match pm with
  | mxCell cells => mxCell (<[index := Some v]> cells)
  | _ => pm
  end.

Definition mxGetCell (pm : mxArray) (index : nat) : option mxArray :=
  match pm with
  | mxCell cells => mjoin (cells !! index)
  | _ => None
  end.

(** First element of a numeric array, first character code of a char
    array; nothing to read from an empty array, a cell or a struct.  The
    value is the element's for the integer classes and for doubles, the
    classes the bridge itself writes handles and reads arguments in; of a
    single the model holds the bit pattern only. *)
Definition mxGetScalar (pm : mxArray) : option Z :=
  match pm with
  | mxNumeric _ _ (v :: _) => Some v
  | mxChar (String c _) => Some (Z.of_N (Ascii.N_of_ascii c))
  | _ => None
  end.

Definition mxArrayToString (pm : mxArray) : option string :=
  match pm with
  | mxChar str => Some str
  | _ => None
  end.

Definition mxCreateString (str : string) : mxArray := mxChar str.

(** [mxGetPr]: the elements of a numeric array, NULL for the rest. *)
Definition mxGetPr (pm : mxArray) : option (list Z) :=
  match pm with
  | mxNumeric _ _ data => Some data
  | _ => None
  end.

Definition mxGetDimensions (pm : mxArray) : list Z :=
  match pm with
  | mxNumeric _ dims _ => dims
  | mxChar str => [1; Z.of_nat (String.length str)]
  | mxCell cells => [Z.of_nat (length cells); 1]
  | mxStruct elems => [Z.of_nat (length elems); 1]
  end.

Definition mxGetNumberOfDimensions (pm : mxArray) : Z :=
  Z.of_nat (length (mxGetDimensions pm)).

(** The line feed that ends the lines the bridge prints. *)
Definition LF : string := String (Ascii.ascii_of_nat 10) EmptyString.

(** [boost::ends_with]. *)
Definition ends_with (input test : string) : bool :=
  let n := String.length input in
  let m := String.length test in
  (m <=? n)%nat && String.eqb (String.substring (n - m) m input) test.

(** [int(d)] and [static_cast<int>(d)] for a double [d]: the value itself
    when it fits an [int].  Outside that range C++ leaves the conversion
    undefined; the conversion instruction of the x86 targets the bridge is
    built for then yields the smallest [int]. *)
Definition int_of_double (d : Z) : Z :=
  if (- 2 ^ 31 <=? d) && (d <? 2 ^ 31) then d else - 2 ^ 31.

(** An [mwSize] narrowed to [int]: the low 32 bits, read as signed. *)
Definition int_of_mwSize (n : Z) : Z := (n + 2 ^ 31) mod 2 ^ 32 - 2 ^ 31.


(* ================================================================== *)
(** ** Engine objects *)

Inductive Brew : Type := CPU | GPU.

Inductive WhichMemory : Type := DATA | DIFF.

(** Modelled from the spec: [Blob] and its synced memory are declared in
    the engine's headers, which are not part of the bridge file.  A tensor
    is an ordered shape and two planes, value and gradient, each mirrored in
    host memory and device memory.  [head_] says which mirror holds the
    current contents; reading a mirror first brings it up to date, writing
    it makes it the current one.  The element count is the product of the
    shape, so a blob without axes counts one element. *)
Inductive SyncedHead : Type :=
| UNINITIALIZED
| HEAD_AT_CPU
| HEAD_AT_GPU
| SYNCED.

Record SyncedMemory : Type := mkSyncedMemory {
  cpu_ptr_ : list Z;
  gpu_ptr_ : list Z;
  head_ : SyncedHead
}.

Record Blob : Type := mkBlob {
  shape_ : list Z;
  data_ : SyncedMemory;
  diff_ : SyncedMemory
}.

Definition count (b : Blob) : Z := prod_dims (shape_ b).
Definition num_axes (b : Blob) : nat := length (shape_ b).

Definition to_cpu (m : SyncedMemory) : SyncedMemory :=
  match head_ m with
  | UNINITIALIZED =>
      mkSyncedMemory (replicate (length (cpu_ptr_ m)) 0) (gpu_ptr_ m) HEAD_AT_CPU
  | HEAD_AT_GPU => mkSyncedMemory (gpu_ptr_ m) (gpu_ptr_ m) SYNCED
  | HEAD_AT_CPU | SYNCED => m
  end.

Definition to_gpu (m : SyncedMemory) : SyncedMemory :=
  match head_ m with
  | UNINITIALIZED =>
      mkSyncedMemory (cpu_ptr_ m) (replicate (length (gpu_ptr_ m)) 0) HEAD_AT_GPU
  | HEAD_AT_CPU => mkSyncedMemory (cpu_ptr_ m) (cpu_ptr_ m) SYNCED
  | HEAD_AT_GPU | SYNCED => m
  end.

Definition mutable_cpu (m : SyncedMemory) : SyncedMemory :=
  let m' := to_cpu m in mkSyncedMemory (cpu_ptr_ m') (gpu_ptr_ m') HEAD_AT_CPU.

Definition mutable_gpu (m : SyncedMemory) : SyncedMemory :=
  let m' := to_gpu m in mkSyncedMemory (cpu_ptr_ m') (gpu_ptr_ m') HEAD_AT_GPU.

(** The mirror a raw [float*] taken from a blob points into. *)
Definition mirror (mode : Brew) (m : SyncedMemory) : list Z :=
  match mode with
  | CPU => cpu_ptr_ m
  | GPU => gpu_ptr_ m
  end.

Definition set_mirror (mode : Brew) (buf : list Z) (m : SyncedMemory)
  : SyncedMemory :=
  match mode with
  | CPU => mkSyncedMemory buf (gpu_ptr_ m) (head_ m)
  | GPU => mkSyncedMemory (cpu_ptr_ m) buf (head_ m)
  end.

Definition plane (w : WhichMemory) (b : Blob) : SyncedMemory :=
  match w with
  | DATA => data_ b
  | DIFF => diff_ b
  end.

Definition set_plane (w : WhichMemory) (m : SyncedMemory) (b : Blob) : Blob :=
  match w with
  | DATA => mkBlob (shape_ b) m (diff_ b)
  | DIFF => mkBlob (shape_ b) (data_ b) m
  end.

(** Both mirrors of both planes hold at least [count] elements. *)
Definition mem_ok (n : Z) (m : SyncedMemory) : bool :=
  (n <=? Z.of_nat (length (cpu_ptr_ m))) && (n <=? Z.of_nat (length (gpu_ptr_ m))).

Definition blob_ok (b : Blob) : bool :=
  (0 <=? count b) && mem_ok (count b) (data_ b) && mem_ok (count b) (diff_ b).

(** Modelled from the spec: [caffe_copy(N, X, Y)] is the engine's flat
    contiguous copy: the first [N] elements of [Y] become those of [X], in
    order.  [None] when either buffer is shorter than [N]. *)
Definition caffe_copy (N : Z) (X Y : list Z) : option (list Z) :=
  if (0 <=? N) && (N <=? Z.of_nat (length X)) && (N <=? Z.of_nat (length Y))
  then Some (take (Z.to_nat N) X ++ drop (Z.to_nat N) Y)
  else None.

(** Modelled from the spec: nets and solvers belong to the engine.  The
    bridge reads a net's blob vector and blob names and a solver's net and
    device id. *)
Record Net : Type := mkNet {
  blobs : list Z;
  blob_names : list string
}.

Record Solver : Type := mkSolver {
  param_device_id : Z;
  net : Net
}.

(** Modelled from the spec: a replica set is one root solver and, per
    configured device, one entry of [get_syncs()]; entry 0 stands for the
    root and is not dereferenced by the bridge.  [None] is a null entry. *)
Record P2PSync : Type := mkP2PSync {
  solver : Solver;
  get_syncs : list (option Solver)
}.

(* ================================================================== *)
(** ** The engine

    Solvers, nets, layers, the protobuf readers and writers and the file
    system are not part of the bridge file.  A handler reaches them with
    the raw pointer it took from a handle, so the engine's functions take
    addresses.  They are parameters of the model: [Engine] collects the
    functions the handlers call, and every statement about a handler that
    calls into the engine holds for every [Engine]. *)

(** How a call into the engine ends: it comes back with a value; or it
    throws a C++ exception; or one of its checks fails ([CHECK],
    [CUDA_CHECK], [...OrDie]), after which it does not come back. *)
Inductive engine_result (A : Type) : Type :=
| Done (a : A)
| Thrown
| Fatal.
Arguments Done {A} a.
Arguments Thrown {A}.
Arguments Fatal {A}.

(** What the engine sees and changes when it is called: blob memory, the
    mode, the current device and the position of its random source.  The
    statics of the bridge file have internal linkage and no engine
    function is handed their address. *)
Record Engine_state : Type := mkEngine_state {
  engine_heap : gmap Z Blob;
  engine_mode : Brew;
  engine_device : Z;
  engine_rng_calls : nat
}.

Definition EngineOp (A : Type) : Type :=
  Engine_state -> engine_result A * Engine_state.

Inductive Phase : Type := TRAIN | TEST.

(** The engine functions the handlers call.  An object created by the
    engine comes as its address together with what the bridge later reads
    of it ([Solver], [Net], [P2PSync]).  [SolverParameter] and [Proto] are
    the protobuf messages handed from one engine call to the next. *)
Record Engine : Type := mkEngine {
  SolverParameter : Type;
  Proto : Type;
  (* std::ifstream f(file); f.good() *)
  file_good : string -> bool;
  ReadSolverParamsFromTextFileOrDie : string -> EngineOp SolverParameter;
  set_device_id : Z -> SolverParameter -> SolverParameter;
  CreateSolver : SolverParameter -> EngineOp (Z * Solver);
  (* Solver<float>, by address *)
  Solver_net : Z -> EngineOp Z;
  Solver_test_nets : Z -> EngineOp (list Z);
  Solver_iter : Z -> EngineOp Z;
  Solver_Restore : Z -> string -> EngineOp unit;
  Solver_Solve : Z -> EngineOp unit;
  Solver_Step : Z -> Z -> EngineOp unit;
  Solver_Snapshot : Z -> EngineOp unit;
  Solver_snapshot_prefix : Z -> EngineOp string;
  Solver_set_snapshot_prefix : Z -> string -> EngineOp unit;
  (* P2PSync<float> *)
  P2PSync_new : Z -> Solver -> EngineOp P2PSync;
  P2PSync_init_syncs : P2PSync -> list Z -> EngineOp P2PSync;
  (* Net<float>, by address *)
  Net_new : string -> Phase -> EngineOp (Z * Net);
  Net_layers : Z -> EngineOp (list Z);
  Net_blobs : Z -> EngineOp (list Z);
  Net_input_blob_indices : Z -> EngineOp (list Z);
  Net_output_blob_indices : Z -> EngineOp (list Z);
  Net_layer_names : Z -> EngineOp (list string);
  Net_blob_names : Z -> EngineOp (list string);
  Net_ForwardPrefilled : Z -> EngineOp unit;
  Net_ForwardFrom : Z -> Z -> EngineOp unit;
  Net_ForwardFromTo : Z -> Z -> Z -> EngineOp unit;
  Net_Backward : Z -> EngineOp unit;
  Net_BackwardFrom : Z -> Z -> EngineOp unit;
  Net_BackwardFromTo : Z -> Z -> Z -> EngineOp unit;
  Net_CopyTrainedLayersFrom : Z -> string -> EngineOp unit;
  Net_Reshape : Z -> EngineOp unit;
  Net_ToProto : Z -> EngineOp Proto;
  (* the net of a replica, which the bridge holds by value *)
  Replica_ForwardPrefilled : Net -> EngineOp unit;
  (* Layer<float>, by address *)
  Layer_blobs : Z -> EngineOp (list Z);
  Layer_type : Z -> EngineOp string;
  (* Blob<float> *)
  Blob_Reshape : list Z -> Blob -> option Blob;
  Blob_default : EngineOp Z;
  Blob_4d : Z -> Z -> Z -> Z -> EngineOp Z;
  Blob_FromProto : Z -> Proto -> EngineOp unit;
  Blob_ToProto : Z -> EngineOp Proto;
  (* protobuf files; reading answers false when it fails *)
  ReadProtoFromBinaryFile : string -> EngineOp (option Proto);
  WriteProtoToBinaryFile : Proto -> string -> EngineOp unit
}.

(* ================================================================== *)
(** ** Process state

    The statics of the bridge file and the engine state its handlers read
    and write.  The vector [syncs_] of the source is never pushed to and
    stays empty, so it has no field here.  [rng_draws] is the sequence the
    random source yields, [rng_calls] how many draws were made; [console]
    collects what [mexPrintf] wrote, as format and arguments.  The flag
    [is_log_inited] only says whether the logging library was set up,
    which the model does not follow. *)

Record State : Type := mkState {
  solvers_ : list Solver;
  nets_ : list Net;
  init_key : Z;
  sync_ptr : option P2PSync;
  Caffe_mode : Brew;
  cuda_device : Z;
  cuda_device_count : Z;
  heap : gmap Z Blob;
  rng_draws : nat -> Z;
  rng_calls : nat;
  console : list (string * list Z)
}.

Definition set_init_key (k : Z) (s : State) : State :=
  mkState (solvers_ s) (nets_ s) k (sync_ptr s) (Caffe_mode s) (cuda_device s)
    (cuda_device_count s) (heap s) (rng_draws s) (rng_calls s) (console s).

Definition clear_objects (s : State) : State :=
  mkState [] [] (init_key s) None (Caffe_mode s) (cuda_device s)
    (cuda_device_count s) (heap s) (rng_draws s) (rng_calls s) (console s).

Definition set_solvers_ (l : list Solver) (s : State) : State :=
  mkState l (nets_ s) (init_key s) (sync_ptr s) (Caffe_mode s) (cuda_device s)
    (cuda_device_count s) (heap s) (rng_draws s) (rng_calls s) (console s).

Definition set_nets_ (l : list Net) (s : State) : State :=
  mkState (solvers_ s) l (init_key s) (sync_ptr s) (Caffe_mode s)
    (cuda_device s) (cuda_device_count s) (heap s) (rng_draws s) (rng_calls s)
    (console s).

Definition set_sync_ptr (p : option P2PSync) (s : State) : State :=
  mkState (solvers_ s) (nets_ s) (init_key s) p (Caffe_mode s) (cuda_device s)
    (cuda_device_count s) (heap s) (rng_draws s) (rng_calls s) (console s).

Definition set_Caffe_mode (m : Brew) (s : State) : State :=
  mkState (solvers_ s) (nets_ s) (init_key s) (sync_ptr s) m (cuda_device s)
    (cuda_device_count s) (heap s) (rng_draws s) (rng_calls s) (console s).

Definition set_cuda_device (d : Z) (s : State) : State :=
  mkState (solvers_ s) (nets_ s) (init_key s) (sync_ptr s) (Caffe_mode s) d
    (cuda_device_count s) (heap s) (rng_draws s) (rng_calls s) (console s).

Definition set_heap (h : gmap Z Blob) (s : State) : State :=
  mkState (solvers_ s) (nets_ s) (init_key s) (sync_ptr s) (Caffe_mode s)
    (cuda_device s) (cuda_device_count s) h (rng_draws s) (rng_calls s)
    (console s).

Definition tick_rng (s : State) : State :=
  mkState (solvers_ s) (nets_ s) (init_key s) (sync_ptr s) (Caffe_mode s)
    (cuda_device s) (cuda_device_count s) (heap s) (rng_draws s)
    (S (rng_calls s)) (console s).

Definition log_console (line : string * list Z) (s : State) : State :=
  mkState (solvers_ s) (nets_ s) (init_key s) (sync_ptr s) (Caffe_mode s)
    (cuda_device s) (cuda_device_count s) (heap s) (rng_draws s) (rng_calls s)
    (console s ++ [line]).

(** The engine's part of the state, and the state after the engine
    changed its part. *)
Definition engine_view (s : State) : Engine_state :=
  mkEngine_state (heap s) (Caffe_mode s) (cuda_device s) (rng_calls s).

Definition engine_update (e : Engine_state) (s : State) : State :=
  mkState (solvers_ s) (nets_ s) (init_key s) (sync_ptr s) (engine_mode e)
    (engine_device e) (cuda_device_count s) (engine_heap e) (rng_draws s)
    (engine_rng_calls e) (console s).


(* ================================================================== *)
(** ** The state-and-error monad of a MEX call *)

(** How a computation ends: it returns; or [mexErrMsgTxt] hands an error
    message to MATLAB; or the process is lost (a null, dangling or
    out-of-bounds access, a fatal check inside the engine, or an exception
    that no [catch] of the bridge takes). *)
Inductive outcome (A : Type) : Type :=
| Returned (a : A)
| MexError (msg : string)
| Crashed.
Arguments Returned {A} a.
Arguments MexError {A} msg.
Arguments Crashed {A}.

Definition M (A : Type) : Type := State -> outcome A * State.

Definition ret {A} (a : A) : M A := fun s => (Returned a, s).

Definition bind {A B} (m : M A) (k : A -> M B) : M B :=
  fun s =>
    match m s with
    | (Returned a, s') => k a s'
    | (MexError msg, s') => (MexError msg, s')
    | (Crashed, s') => (Crashed, s')
    end.

Notation "'let*' x ':=' m 'in' k" := (bind m (fun x => k))
  (at level 10, x name, m at level 100, k at level 200).
Notation "m1 ;;; m2" := (bind m1 (fun _ => m2))
  (at level 100, m2 at level 200, right associativity).

Definition mexErrMsgTxt {A} (msg : string) : M A := fun s => (MexError msg, s).
Definition crash {A} : M A := fun s => (Crashed, s).
Definition gets {A} (f : State -> A) : M A := fun s => (Returned (f s), s).
Definition modify (f : State -> State) : M unit := fun s => (Returned tt, f s).

(** Dereferencing a pointer that may be NULL. *)
Definition deref {A} (p : option A) : M A :=
  match p with
  | Some a => ret a
  | None => crash
  end.

Definition not_null {A} (p : option A) : bool :=
  match p with
  | Some _ => true
  | None => false
  end.

Definition mxCHECK (expr : bool) (msg : string) : M unit :=
  if expr then ret tt else mexErrMsgTxt msg.

Definition mxERROR {A} (msg : string) : M A := mexErrMsgTxt msg.

Definition mexPrintf (fmt : string) (args : list Z) : M unit :=
  modify (log_console (fmt, args)).

(** A call into the engine outside any [try] block. *)
Definition engine {A} (op : EngineOp A) : M A :=
  fun s =>
    match op (engine_view s) with
    | (Done a, e) => (Returned a, engine_update e s)
    | (Thrown, e) => (Crashed, engine_update e s)
    | (Fatal, e) => (Crashed, engine_update e s)
    end.

(** A call into the engine inside [try { ... } catch (...) { mxERROR(msg);
    }]. *)
Definition engine_try {A} (msg : string) (op : EngineOp A) : M A :=
  fun s =>
    match op (engine_view s) with
    | (Done a, e) => (Returned a, engine_update e s)
    | (Thrown, e) => (MexError msg, engine_update e s)
    | (Fatal, e) => (Crashed, engine_update e s)
    end.

(** Modelled from the spec: [caffe_rng_rand] is the engine's process-local
    random source; each call yields the next draw, an unsigned 32-bit
    value. *)
Definition caffe_rng_rand : M Z :=
  fun s => (Returned (rng_draws s (rng_calls s) mod 2 ^ 32), tick_rng s).

(** Reading and writing a blob through its address. *)
Definition load_blob (p : Z) : M Blob :=
  let* h := gets heap in deref (h !! p).

Definition store_blob (p : Z) (b : Blob) : M unit :=
  modify (fun s => set_heap (<[p := b]> (heap s)) s).

(** A local [Blob<float>] goes out of scope. *)
Definition free_blob (p : Z) : M unit :=
  modify (fun s => set_heap (delete p (heap s)) s).


(* ================================================================== *)
(** ** Handles *)

Definition stale_handle_msg : string :=
  "Could not convert handle to pointer due to invalid init_key. The object might have been cleared.".

Definition handle_to_ptr (mx_handle : mxArray) : M Z :=
  let mx_ptr := mxGetField mx_handle 0 "ptr" in
  let mx_init_key := mxGetField mx_handle 0 "init_key" in
  let* ptr_arr := deref mx_ptr in
  mxCHECK (mxIsUint64 ptr_arr) "pointer type must be uint64" ;;;
  let* key_arr := deref mx_init_key in
  let* key := deref (mxGetScalar key_arr) in
  let* k := gets init_key in
  mxCHECK (key =? k) stale_handle_msg ;;;
  deref (mxGetScalar ptr_arr).

Definition create_handle_vec (ptr_num : nat) : mxArray :=
  mxCreateStructMatrix ptr_num ["ptr"; "init_key"].

Definition setup_handle (ptr : Z) (index : nat) (mx_handle_vec : mxArray)
  : M mxArray :=
  let mx_ptr := mxNumeric mxUINT64_CLASS [1; 1] [ptr mod 2 ^ 64] in
  let v1 := mxSetField mx_handle_vec index "ptr" mx_ptr in
  let* k := gets init_key in
  ret (mxSetField v1 index "init_key" (mxCreateDoubleScalar k)).

Definition ptr_to_handle (ptr : Z) : M mxArray :=
  setup_handle ptr 0 (create_handle_vec 1).

Fixpoint setup_handles (ptrs : list Z) (i : nat) (vec : mxArray) : M mxArray :=
  match ptrs with
  | [] => ret vec
  | p :: rest =>
      let* vec' := setup_handle p i vec in setup_handles rest (S i) vec'
  end.

Definition ptr_vec_to_handle_vec (ptr_vec : list Z) : M mxArray :=
  setup_handles ptr_vec 0 (create_handle_vec (length ptr_vec)).

(* ================================================================== *)
(** ** Data conversion *)

Definition size_mismatch_msg : string :=
  "number of elements in target blob doesn't match that in input mxArray".

(** [mxGetData] read as [float*]: the elements of a single array.  Every
    caller checks [mxIsSingle] first. *)
Definition mxGetData_float (pm : mxArray) : option (list Z) :=
  match pm with
  | mxNumeric mxSINGLE_CLASS _ data => Some data
  | _ => None
  end.

(** Copy matlab array to Blob data or diff.  [Brew] has the two values
    [CPU] and [GPU], so the [default:] branch of the switch on
    [Caffe::mode()] has no counterpart. *)
Definition mx_mat_to_blob (mx_mat : mxArray) (blob : Z)
  (data_or_diff : WhichMemory) : M unit :=
  let* b := load_blob blob in
  mxCHECK (count b =? mxGetNumberOfElements mx_mat) size_mismatch_msg ;;;
  let* mat_mem := deref (mxGetData_float mx_mat) in
  let* mode := gets Caffe_mode in
  let m := match mode with
           | CPU => mutable_cpu (plane data_or_diff b)
           | GPU => mutable_gpu (plane data_or_diff b)
           end in
  store_blob blob (set_plane data_or_diff m b) ;;;
  let* buf := deref (caffe_copy (count b) mat_mem (mirror mode m)) in
  store_blob blob (set_plane data_or_diff (set_mirror mode buf m) b).

(** The axis loop shared by [blob_to_mx_mat] and [blob_get_shape]:
    [dims[mat_axis] = shape(blob_axis)] with [blob_axis] counting up from 0
    and [mat_axis] counting down from [num_axes - 1]. *)
Fixpoint axes_loop (shape : list Z) (todo blob_axis : nat) (mat_axis : Z)
  (dims : list Z) : list Z :=
  match todo with
  | O => dims
  | S todo' =>
      axes_loop shape todo' (S blob_axis) (mat_axis - 1)
        (<[Z.to_nat mat_axis := default 0 (shape !! blob_axis)]> dims)
  end.

Definition mat_dims (b : Blob) : list Z :=
  let n := num_axes b in
  let dims := axes_loop (shape_ b) n 0 (Z.of_nat n - 1) (replicate n 0) in
  (* matlab array needs to have at least one dimension *)
  if Nat.eqb n 0 then dims ++ [1] else dims.

(** Copy Blob data or diff to matlab array. *)
Definition blob_to_mx_mat (blob : Z) (data_or_diff : WhichMemory)
  : M mxArray :=
  let* b := load_blob blob in
  let dims := mat_dims b in
  let mx_mat := mxCreateNumericArray dims mxSINGLE_CLASS in
  let* mat_mem := deref (mxGetData_float mx_mat) in
  let* mode := gets Caffe_mode in
  let m := match mode with
           | CPU => to_cpu (plane data_or_diff b)
           | GPU => to_gpu (plane data_or_diff b)
           end in
  store_blob blob (set_plane data_or_diff m b) ;;;
  let* buf := deref (caffe_copy (count b) (mirror mode m) mat_mem) in
  (* mx_mat, its elements now those the copy left *)
  ret (mxNumeric mxSINGLE_CLASS dims buf).

(** Convert vector<int> to matlab row vector: an [n]-by-1 double matrix
    whose element [i] is written from [int_vec[i]]. *)
Fixpoint fill_doubles (int_vec : list Z) (i : nat) (vec_mem : list Z)
  : list Z :=
  match int_vec with
  | [] => vec_mem
  | v :: rest => fill_doubles rest (S i) (<[i := v]> vec_mem)
  end.

Definition int_vec_to_mx_vec (int_vec : list Z) : mxArray :=
  let n := length int_vec in
  mxNumeric mxDOUBLE_CLASS [Z.of_nat n; 1]
    (fill_doubles int_vec 0 (replicate n 0)).

(** Convert vector<string> to matlab cell vector of strings. *)
Fixpoint fill_strcell (str_vec : list string) (i : nat) (mx_strcell : mxArray)
  : mxArray :=
  match str_vec with
  | [] => mx_strcell
  | str :: rest => fill_strcell rest (S i) (mxSetCell mx_strcell i (mxChar str))
  end.

Definition str_vec_to_mx_strcell (str_vec : list string) : mxArray :=
  fill_strcell str_vec 0 (mxCreateCellMatrix (length str_vec)).

(* ================================================================== *)
(** ** Command handlers *)

Definition handler : Type := list mxArray -> M (list mxArray).

Definition nrhs (prhs : list mxArray) : Z := Z.of_nat (length prhs).

(** [prhs[i]]; reading past [nrhs] is out of bounds. *)
Definition arg (prhs : list mxArray) (i : nat) : M mxArray := deref (prhs !! i).

(** [cudaSetDevice] under [CUDA_CHECK]: an id that names no device fails
    the check, which is fatal. *)
Definition cudaSetDevice (d : Z) : M unit :=
  let* n := gets cuda_device_count in
  if (0 <=? d) && (d <? n) then modify (set_cuda_device d) else crash.

Definition cudaGetDevice : M Z := gets cuda_device.

(** Check if a file exists and can be opened. *)
Definition mxCHECK_FILE_EXIST (E : Engine) (file : string) : M unit :=
  if file_good E file then ret tt
  else mxERROR ("Could not open file " +:+ file).

Definition get_solver_exploded_msg : string :=
  "CAFFE_mex: get_solver exploded...".

Definition get_solver (E : Engine) (prhs : list mxArray) : M (list mxArray) :=
  mxCHECK (match prhs with [f] => mxIsChar f | _ => false end)
    "Usage: caffe_('get_solver', solver_file)" ;;;
  let* a0 := arg prhs 0 in
  let* solver_file := deref (mxArrayToString a0) in
  mxCHECK_FILE_EXIST E solver_file ;;;
  (* try *)
  let* solver_param :=
    engine_try get_solver_exploded_msg
      (ReadSolverParamsFromTextFileOrDie E solver_file) in
  let* created :=
    engine_try get_solver_exploded_msg (CreateSolver E solver_param) in
  modify (fun s => set_solvers_ (solvers_ s ++ [snd created]) s) ;;;
  let* h := ptr_to_handle (fst created) in
  ret [h].

Definition bad_device_msg : string :=
  "get_solver_multigpu: device_id should in [0, gpuDeviceCount-1]".

Definition no_gpu_msg : string := "No GPU found!!!" +:+ LF.

(** The device loop of [get_solver_multigpu] over the ids the host passed. *)
Fixpoint gpus_loop (count : Z) (ids : list Z) (gpus : list Z) : M (list Z) :=
  match ids with
  | [] => ret gpus
  | d :: rest =>
      let device_id := int_of_double d in
      (if count <=? device_id then mexErrMsgTxt bad_device_msg else ret tt) ;;;
      gpus_loop count rest (gpus ++ [device_id])
  end.

(** The section SET UP GPUs of [get_solver_multigpu]: what happens between
    reading the solver file and creating the root solver.  It yields the
    device list the replicas are then built on.  [set_device_id] and
    [set_solver_count] only prepare the engine's parameters. *)
Definition get_solver_multigpu_gpus (ids : list Z) : M (list Z) :=
  let* count := gets cuda_device_count in
  let* gpus := gpus_loop count ids [] in
  match gpus with
  | [] => mxERROR no_gpu_msg
  | g0 :: _ =>
      mexPrintf ("Using GPUs %s" +:+ LF) gpus ;;;
      (* Caffe::SetDevice(gpus[0]); Caffe::set_mode(Caffe::GPU) *)
      cudaSetDevice g0 ;;;
      modify (set_Caffe_mode GPU) ;;;
      ret gpus
  end.

Definition get_solver_multigpu_usage_msg : string :=
  "Usage: caffe_('get_solver_multigpu', solver_file, [snapshot file], [gpus to use])".

Definition unrecognized_parameter_msg : string :=
  "get_solver_multigpu: Unrecognized parameter!!!".

Definition get_solver_multigpu_exploded_msg : string :=
  "CAFFE_mex: get_solver_multigpu exploded...".

(** The branches on [nrhs]: the snapshot file, NULL when none is given,
    and the array of device ids.  When no such array is given, [data_ptr]
    and [ele_num] stay uninitialised. *)
Definition get_solver_multigpu_args (E : Engine) (prhs : list mxArray)
  : M (option string * option mxArray) :=
  match prhs with
  | [_] => ret (None, None)
  | [_; a1] =>
      if mxIsChar a1 then
        let* snapshot_file := deref (mxArrayToString a1) in
        mxCHECK_FILE_EXIST E snapshot_file ;;;
        ret (Some snapshot_file, None)
      else if mxIsDouble a1 then ret (None, Some a1)
      else mxERROR unrecognized_parameter_msg
  | [_; a1; a2] =>
      (if mxIsChar a1 && mxIsDouble a2 then ret tt
       else mxERROR unrecognized_parameter_msg) ;;;
      let* snapshot_file := deref (mxArrayToString a1) in
      mxCHECK_FILE_EXIST E snapshot_file ;;;
      ret (Some snapshot_file, Some a2)
  | _ => mxERROR "get_solver_multigpu: Wrong input parameter number!!!"
  end.

(** [data_ptr[0 .. ele_num - 1]]: the elements of the id array.  Reading
    through the uninitialised pointer, or past the elements, has no
    result. *)
Definition device_ids (ids : option mxArray) : option (list Z) :=
  match ids with
  | Some pm =>
      match mxGetPr pm with
      | Some data =>
          let ele_num := Z.to_nat (mxGetNumberOfElements pm) in
          if (ele_num <=? length data)%nat then Some (take ele_num data)
          else None
      | None => None
      end
  | None => None
  end.

(** The snapshot a multi-GPU solver resumes from. *)
Definition resume_from (E : Engine) (solver : Z) (snapshot_file : string)
  : M unit :=
  mexPrintf ("Resuming from " +:+ snapshot_file +:+ LF) [] ;;;
  if ends_with snapshot_file ".solverstate" then
    mexPrintf ("It is a SolverState file......" +:+ LF) [] ;;;
    engine_try get_solver_multigpu_exploded_msg
      (Solver_Restore E solver snapshot_file)
  else if ends_with snapshot_file ".caffemodel" then
    mexPrintf ("It is a CaffeModel file......" +:+ LF) [] ;;;
    let* n :=
      engine_try get_solver_multigpu_exploded_msg (Solver_net E solver) in
    engine_try get_solver_multigpu_exploded_msg
      (Net_CopyTrainedLayersFrom E n snapshot_file)
  else
    mxERROR "Only support *.solverstate *.caffemodel, please rename your input binary file".

Definition get_solver_multigpu (E : Engine) (prhs : list mxArray)
  : M (list mxArray) :=
  mexPrintf ("======== USING MULTI-GPU SOLVER ========" +:+ LF) [] ;;;
  let* a0 := arg prhs 0 in
  mxCHECK (mxIsChar a0) get_solver_multigpu_usage_msg ;;;
  let* solver_file := deref (mxArrayToString a0) in
  mxCHECK_FILE_EXIST E solver_file ;;;
  let* parsed := get_solver_multigpu_args E prhs in
  let snapshot_file := fst parsed in
  let* solver_param :=
    engine (ReadSolverParamsFromTextFileOrDie E solver_file) in
  (* ====== SET UP GPUs ====== *)
  let* ids := deref (device_ids (snd parsed)) in
  let* gpus := get_solver_multigpu_gpus ids in
  let solver_param :=
    match gpus with
    | g0 :: _ => set_device_id E g0 solver_param
    | [] => solver_param
    end in
  (* try *)
  let* created :=
    engine_try get_solver_multigpu_exploded_msg
      (CreateSolver E solver_param) in
  let solver := fst created in
  match snapshot_file with
  | Some file => resume_from E solver file
  | None => ret tt
  end ;;;
  let* sync :=
    engine_try get_solver_multigpu_exploded_msg
      (P2PSync_new E solver (snd created)) in
  modify (set_sync_ptr (Some sync)) ;;;
  modify (fun s => set_solvers_ (solvers_ s ++ [snd created]) s) ;;;
  let* h := ptr_to_handle solver in
  mexPrintf ("Building GPU tree......" +:+ LF) [] ;;;
  let* sync' :=
    engine_try get_solver_multigpu_exploded_msg
      (P2PSync_init_syncs E sync gpus) in
  modify (set_sync_ptr (Some sync')) ;;;
  ret [h].

Definition solver_get_attr (E : Engine) (prhs : list mxArray)
  : M (list mxArray) :=
  mxCHECK (match prhs with [h] => mxIsStruct h | _ => false end)
    "Usage: caffe_('solver_get_attr', hSolver)" ;;;
  let* h := arg prhs 0 in
  let* solver := handle_to_ptr h in
  let mx_solver_attr := mxCreateStructMatrix 1 ["hNet_net"; "hNet_test_nets"] in
  let* n := engine (Solver_net E solver) in
  let* hn := ptr_to_handle n in
  let mx_solver_attr := mxSetField mx_solver_attr 0 "hNet_net" hn in
  let* test_nets := engine (Solver_test_nets E solver) in
  let* hv := ptr_vec_to_handle_vec test_nets in
  ret [mxSetField mx_solver_attr 0 "hNet_test_nets" hv].

Definition solver_get_iter (E : Engine) (prhs : list mxArray)
  : M (list mxArray) :=
  mxCHECK (match prhs with [h] => mxIsStruct h | _ => false end)
    "Usage: caffe_('solver_get_iter', hSolver)" ;;;
  let* h := arg prhs 0 in
  let* solver := handle_to_ptr h in
  let* iter := engine (Solver_iter E solver) in
  ret [mxCreateDoubleScalar iter].

Definition solver_restore (E : Engine) (prhs : list mxArray)
  : M (list mxArray) :=
  mxCHECK (match prhs with
           | [h; f] => mxIsStruct h && mxIsChar f
           | _ => false
           end)
    "Usage: caffe_('solver_restore', hSolver, snapshot_file)" ;;;
  let* h := arg prhs 0 in
  let* solver := handle_to_ptr h in
  let* a1 := arg prhs 1 in
  let* snapshot_file := deref (mxArrayToString a1) in
  mxCHECK_FILE_EXIST E snapshot_file ;;;
  engine (Solver_Restore E solver snapshot_file) ;;;
  ret [].

Definition solver_solve (E : Engine) (prhs : list mxArray)
  : M (list mxArray) :=
  mxCHECK (match prhs with [h] => mxIsStruct h | _ => false end)
    "Usage: caffe_('solver_solve', hSolver)" ;;;
  let* h := arg prhs 0 in
  let* solver := handle_to_ptr h in
  engine (Solver_Solve E solver) ;;;
  ret [].

Definition solver_step (E : Engine) (prhs : list mxArray)
  : M (list mxArray) :=
  mxCHECK (match prhs with
           | [h; n] => mxIsStruct h && mxIsDouble n
           | _ => false
           end)
    "Usage: caffe_('solver_step', hSolver, iters)" ;;;
  let* h := arg prhs 0 in
  let* solver := handle_to_ptr h in
  let* a1 := arg prhs 1 in
  let* v := deref (mxGetScalar a1) in
  let iters := int_of_double v in
  (* try *)
  engine_try "CAFFE_mex: solver_step exploded..." (Solver_Step E solver iters) ;;;
  ret [].

(** [solver_snapshot]: with an empty file name the solver snapshots under
    its own prefix; otherwise the prefix is overwritten in place with "@"
    and the file name for the time of the snapshot. *)
Definition solver_snapshot (E : Engine) (prhs : list mxArray)
  : M (list mxArray) :=
  mxCHECK (match prhs with
           | [h; f] => mxIsStruct h && mxIsChar f
           | _ => false
           end)
    "Usage: caffe_('solver_snapshot', hSolver, save_file)" ;;;
  let* h := arg prhs 0 in
  let* solver := handle_to_ptr h in
  let* a1 := arg prhs 1 in
  let* snapshot_file := deref (mxArrayToString a1) in
  match snapshot_file with
  | EmptyString => engine (Solver_Snapshot E solver)
  | String _ _ =>
      let* ori_prefix := engine (Solver_snapshot_prefix E solver) in
      engine (Solver_set_snapshot_prefix E solver ("@" +:+ snapshot_file)) ;;;
      engine (Solver_Snapshot E solver) ;;;
      engine (Solver_set_snapshot_prefix E solver ori_prefix)
  end ;;;
  ret [].

Definition get_net (E : Engine) (prhs : list mxArray) : M (list mxArray) :=
  mxCHECK (match prhs with
           | [f; p] => mxIsChar f && mxIsChar p
           | _ => false
           end)
    "Usage: caffe_('get_net', model_file, phase_name)" ;;;
  let* a0 := arg prhs 0 in
  let* a1 := arg prhs 1 in
  let* model_file := deref (mxArrayToString a0) in
  let* phase_name := deref (mxArrayToString a1) in
  mxCHECK_FILE_EXIST E model_file ;;;
  let* phase :=
    (if String.eqb phase_name "train" then ret TRAIN
     else if String.eqb phase_name "test" then ret TEST
     else mxERROR "Unknown phase") in
  let* created := engine (Net_new E model_file phase) in
  modify (fun s => set_nets_ (nets_ s ++ [snd created]) s) ;;;
  let* h := ptr_to_handle (fst created) in
  ret [h].

Definition net_attrs : list string :=
  ["hLayer_layers"; "hBlob_blobs"; "input_blob_indices";
   "output_blob_indices"; "layer_names"; "blob_names"].

Definition net_get_attr (E : Engine) (prhs : list mxArray)
  : M (list mxArray) :=
  mxCHECK (match prhs with [h] => mxIsStruct h | _ => false end)
    "Usage: caffe_('net_get_attr', hNet)" ;;;
  let* h := arg prhs 0 in
  let* n := handle_to_ptr h in
  let mx_net_attr := mxCreateStructMatrix 1 net_attrs in
  let* layers := engine (Net_layers E n) in
  let* hl := ptr_vec_to_handle_vec layers in
  let mx_net_attr := mxSetField mx_net_attr 0 "hLayer_layers" hl in
  let* bs := engine (Net_blobs E n) in
  let* hb := ptr_vec_to_handle_vec bs in
  let mx_net_attr := mxSetField mx_net_attr 0 "hBlob_blobs" hb in
  let* inputs := engine (Net_input_blob_indices E n) in
  let mx_net_attr :=
    mxSetField mx_net_attr 0 "input_blob_indices" (int_vec_to_mx_vec inputs) in
  let* outputs := engine (Net_output_blob_indices E n) in
  let mx_net_attr :=
    mxSetField mx_net_attr 0 "output_blob_indices"
      (int_vec_to_mx_vec outputs) in
  let* lnames := engine (Net_layer_names E n) in
  let mx_net_attr :=
    mxSetField mx_net_attr 0 "layer_names" (str_vec_to_mx_strcell lnames) in
  let* bnames := engine (Net_blob_names E n) in
  ret [mxSetField mx_net_attr 0 "blob_names" (str_vec_to_mx_strcell bnames)].

Definition net_forward_usage_msg : string :=
  "Usage: caffe_('net_forward', hNet, from_layer=0, to_layer=end)".

Definition net_forward_exploded_msg : string :=
  "CAFFE_mex: net_forward exploded...".

(** [nrhs <= 3 && mxIsStruct(prhs[0])]: with no argument at all the test
    reads [prhs[0]] all the same. *)
Definition net_usage_check (prhs : list mxArray) (msg : string) : M unit :=
  if nrhs prhs <=? 3
  then let* a0 := arg prhs 0 in mxCHECK (mxIsStruct a0) msg
  else mxCHECK false msg.

Definition net_forward (E : Engine) (prhs : list mxArray)
  : M (list mxArray) :=
  net_usage_check prhs net_forward_usage_msg ;;;
  (* try *)
  let* h := arg prhs 0 in
  let* n := handle_to_ptr h in
  match prhs with
  | [_] => engine_try net_forward_exploded_msg (Net_ForwardPrefilled E n)
  | [_; a1] =>
      mxCHECK (mxIsDouble a1) net_forward_usage_msg ;;;
      let* from_layer := deref (mxGetScalar a1) in
      engine_try net_forward_exploded_msg
        (Net_ForwardFrom E n (int_of_double from_layer))
  | [_; a1; a2] =>
      mxCHECK (mxIsDouble a1 && mxIsDouble a2) net_forward_usage_msg ;;;
      let* from_layer := deref (mxGetScalar a1) in
      let* to_layer := deref (mxGetScalar a2) in
      engine_try net_forward_exploded_msg
        (Net_ForwardFromTo E n (int_of_double from_layer)
           (int_of_double to_layer))
  | _ => ret tt
  end ;;;
  ret [].

Definition net_backward_usage_msg : string :=
  "Usage: caffe_('net_backward', hNet, from_layer=end, to_layer=0)".

Definition net_backward (E : Engine) (prhs : list mxArray)
  : M (list mxArray) :=
  net_usage_check prhs net_backward_usage_msg ;;;
  let* h := arg prhs 0 in
  let* n := handle_to_ptr h in
  match prhs with
  | [_] => engine (Net_Backward E n)
  | [_; a1] =>
      mxCHECK (mxIsDouble a1) net_backward_usage_msg ;;;
      let* from_layer := deref (mxGetScalar a1) in
      engine (Net_BackwardFrom E n (int_of_double from_layer))
  | [_; a1; a2] =>
      mxCHECK (mxIsDouble a1 && mxIsDouble a2) net_backward_usage_msg ;;;
      let* from_layer := deref (mxGetScalar a1) in
      let* to_layer := deref (mxGetScalar a2) in
      engine (Net_BackwardFromTo E n (int_of_double from_layer)
                (int_of_double to_layer))
  | _ => ret tt
  end ;;;
  ret [].

Definition net_copy_from (E : Engine) (prhs : list mxArray)
  : M (list mxArray) :=
  mxCHECK (match prhs with
           | [h; f] => mxIsStruct h && mxIsChar f
           | _ => false
           end)
    "Usage: caffe_('net_copy_from', hNet, weights_file)" ;;;
  let* h := arg prhs 0 in
  let* n := handle_to_ptr h in
  let* a1 := arg prhs 1 in
  let* weights_file := deref (mxArrayToString a1) in
  mxCHECK_FILE_EXIST E weights_file ;;;
  engine (Net_CopyTrainedLayersFrom E n weights_file) ;;;
  ret [].

Definition net_reshape (E : Engine) (prhs : list mxArray)
  : M (list mxArray) :=
  mxCHECK (match prhs with [h] => mxIsStruct h | _ => false end)
    "Usage: caffe_('net_reshape', hNet)" ;;;
  let* h := arg prhs 0 in
  let* n := handle_to_ptr h in
  engine (Net_Reshape E n) ;;;
  ret [].

Definition net_save (E : Engine) (prhs : list mxArray) : M (list mxArray) :=
  mxCHECK (match prhs with
           | [h; f] => mxIsStruct h && mxIsChar f
           | _ => false
           end)
    "Usage: caffe_('net_save', hNet, save_file)" ;;;
  let* h := arg prhs 0 in
  let* n := handle_to_ptr h in
  let* a1 := arg prhs 1 in
  let* weights_file := deref (mxArrayToString a1) in
  let* net_param := engine (Net_ToProto E n) in
  engine (WriteProtoToBinaryFile E net_param weights_file) ;;;
  ret [].

Definition layer_get_attr (E : Engine) (prhs : list mxArray)
  : M (list mxArray) :=
  mxCHECK (match prhs with [h] => mxIsStruct h | _ => false end)
    "Usage: caffe_('layer_get_attr', hLayer)" ;;;
  let* h := arg prhs 0 in
  let* layer := handle_to_ptr h in
  let mx_layer_attr := mxCreateStructMatrix 1 ["hBlob_blobs"] in
  let* bs := engine (Layer_blobs E layer) in
  let* hb := ptr_vec_to_handle_vec bs in
  ret [mxSetField mx_layer_attr 0 "hBlob_blobs" hb].

Definition layer_get_type (E : Engine) (prhs : list mxArray)
  : M (list mxArray) :=
  mxCHECK (match prhs with [h] => mxIsStruct h | _ => false end)
    "Usage: caffe_('layer_get_type', hLayer)" ;;;
  let* h := arg prhs 0 in
  let* layer := handle_to_ptr h in
  let* layer_type := engine (Layer_type E layer) in
  ret [mxCreateString layer_type].

Definition blob_get_shape (prhs : list mxArray) : M (list mxArray) :=
  mxCHECK (match prhs with [h] => mxIsStruct h | _ => false end)
    "Usage: caffe_('blob_get_shape', hBlob)" ;;;
  let* h := arg prhs 0 in
  let* blob := handle_to_ptr h in
  let* b := load_blob blob in
  let n := num_axes b in
  let shape_mem :=
    axes_loop (shape_ b) n 0 (Z.of_nat n - 1) (replicate n 0) in
  ret [mxNumeric mxDOUBLE_CLASS [1; Z.of_nat n] shape_mem].

(** The axis loop of [blob_reshape]: [blob_shape[blob_axis] =
    shape_mem[mat_axis]], [blob_axis] counting up and [mat_axis] down.
    Reading [shape_mem] outside its elements has no result. *)
Fixpoint reshape_loop (shape_mem : list Z) (todo blob_axis : nat)
  (mat_axis : Z) (blob_shape : list Z) : option (list Z) :=
  match todo with
  | O => Some blob_shape
  | S todo' =>
      match shape_mem !! Z.to_nat mat_axis with
      | Some d =>
          reshape_loop shape_mem todo' (S blob_axis) (mat_axis - 1)
            (<[blob_axis := d]> blob_shape)
      | None => None
      end
  end.

Definition blob_reshape_usage_msg : string :=
  "Usage: caffe_('blob_reshape', hBlob, new_shape)".

(** [blob_reshape].  [Reshape] stands for the engine's [Blob::Reshape],
    which is not part of the bridge file: it yields the reshaped blob, or
    nothing when one of its checks fails, which is fatal. *)
Definition blob_reshape (Reshape : list Z -> Blob -> option Blob)
  (prhs : list mxArray) : M (list mxArray) :=
  mxCHECK (match prhs with
           | [h; sh] => mxIsStruct h && mxIsDouble sh
           | _ => false
           end)
    blob_reshape_usage_msg ;;;
  let* h := arg prhs 0 in
  let* blob := handle_to_ptr h in
  let* mx_shape := arg prhs 1 in
  let* shape_mem := deref (mxGetPr mx_shape) in
  let num_axes := Z.to_nat (mxGetNumberOfElements mx_shape) in
  let* blob_shape :=
    deref (reshape_loop shape_mem num_axes 0 (Z.of_nat num_axes - 1)
             (replicate num_axes 0)) in
  let* b := load_blob blob in
  let* b' := deref (Reshape blob_shape b) in
  store_blob blob b' ;;;
  ret [].

Definition blob_get_data (prhs : list mxArray) : M (list mxArray) :=
  mxCHECK (match prhs with [h] => mxIsStruct h | _ => false end)
    "Usage: caffe_('blob_get_data', hBlob)" ;;;
  let* h := arg prhs 0 in
  let* blob := handle_to_ptr h in
  let* r := blob_to_mx_mat blob DATA in
  ret [r].

Definition blob_set_data (prhs : list mxArray) : M (list mxArray) :=
  mxCHECK (match prhs with
           | [h; d] => mxIsStruct h && mxIsSingle d
           | _ => false
           end)
    "Usage: caffe_('blob_set_data', hBlob, new_data)" ;;;
  let* h := arg prhs 0 in
  let* d := arg prhs 1 in
  let* blob := handle_to_ptr h in
  mx_mat_to_blob d blob DATA ;;;
  ret [].

Definition no_multigpu_msg : string :=
  "blob_set_data_multigpu only work on multi-GPU solver".

Definition scatter_usage_msg : string :=
  "Usage: caffe_('blob_set_data_multigpu', hBlob, new_multi_gpu_data_cell)".

Definition scatter_count_msg : string :=
  "blob_set_data_multigpu: input size should be equal to selected gpu number."
  +:+ LF.

Definition not_single_msg : string :=
  "Input data should be single-precision float!!!" +:+ LF.

(** The replicas after the root, [i = 1 .. size - 1]. *)
Fixpoint scatter_loop (entries : list (option Solver)) (i : nat)
  (cells : mxArray) (blob_index : Z) (initial_device : Z) : M unit :=
  match entries with
  | [] => ret tt
  | entry :: rest =>
      let* solver := deref entry in
      let* blob := deref (blobs (net solver) !! Z.to_nat blob_index) in
      let* elem := deref (mxGetCell cells i) in
      mxCHECK (mxIsSingle elem) not_single_msg ;;;
      cudaSetDevice (param_device_id solver) ;;;
      mx_mat_to_blob elem blob DATA ;;;
      cudaSetDevice initial_device ;;;
      scatter_loop rest (S i) cells blob_index initial_device
  end.

Definition blob_set_data_multigpu (prhs : list mxArray) : M (list mxArray) :=
  mxCHECK (match prhs with
           | [i; c] => mxIsUint32 i && mxIsCell c
           | _ => false
           end)
    scatter_usage_msg ;;;
  let* sp := gets sync_ptr in
  mxCHECK (not_null sp) no_multigpu_msg ;;;
  let* sync := deref sp in
  let* a0 := arg prhs 0 in
  let* a1 := arg prhs 1 in
  let* raw := deref (mxGetScalar a0) in
  (* unsigned int blob_index; blob_index = blob_index - 1 *)
  let blob_index := (raw - 1) mod 2 ^ 32 in
  let sync_vec := get_syncs sync in
  (if mxGetNumberOfElements a1 =? Z.of_nat (length sync_vec) then ret tt
   else mexErrMsgTxt scatter_count_msg) ;;;
  (* set root solver *)
  let* elem := deref (mxGetCell a1 0) in
  mxCHECK (mxIsSingle elem) not_single_msg ;;;
  let* blob := deref (blobs (net (solver sync)) !! Z.to_nat blob_index) in
  mx_mat_to_blob elem blob DATA ;;;
  let* initial_device := cudaGetDevice in
  scatter_loop (drop 1 sync_vec) 1 a1 blob_index initial_device ;;;
  ret [].

Definition blob_get_diff (prhs : list mxArray) : M (list mxArray) :=
  mxCHECK (match prhs with [h] => mxIsStruct h | _ => false end)
    "Usage: caffe_('blob_get_diff', hBlob)" ;;;
  let* h := arg prhs 0 in
  let* blob := handle_to_ptr h in
  let* r := blob_to_mx_mat blob DIFF in
  ret [r].

Definition blob_set_diff (prhs : list mxArray) : M (list mxArray) :=
  mxCHECK (match prhs with
           | [h; d] => mxIsStruct h && mxIsSingle d
           | _ => false
           end)
    "Usage: caffe_('blob_set_diff', hBlob, new_diff)" ;;;
  let* h := arg prhs 0 in
  let* d := arg prhs 1 in
  let* blob := handle_to_ptr h in
  mx_mat_to_blob d blob DIFF ;;;
  ret [].

Definition set_mode_cpu (prhs : list mxArray) : M (list mxArray) :=
  mxCHECK (nrhs prhs =? 0) "Usage: caffe_('set_mode_cpu')" ;;;
  modify (set_Caffe_mode CPU) ;;;
  ret [].

Definition set_mode_gpu (prhs : list mxArray) : M (list mxArray) :=
  mxCHECK (nrhs prhs =? 0) "Usage: caffe_('set_mode_gpu')" ;;;
  modify (set_Caffe_mode GPU) ;;;
  ret [].

(** [set_device]; [Caffe::SetDevice] selects the device as the multi-GPU
    set-up does. *)
Definition set_device (prhs : list mxArray) : M (list mxArray) :=
  mxCHECK (match prhs with [d] => mxIsDouble d | _ => false end)
    "Usage: caffe_('set_device', device_id)" ;;;
  let* a0 := arg prhs 0 in
  let* v := deref (mxGetScalar a0) in
  let device_id := int_of_double v in
  cudaSetDevice device_id ;;;
  ret [].

Definition get_init_key (prhs : list mxArray) : M (list mxArray) :=
  mxCHECK (nrhs prhs =? 0) "Usage: caffe_('get_init_key')" ;;;
  let* k := gets init_key in
  ret [mxCreateDoubleScalar k].

(** Clearing the vectors and deleting the sync releases the solvers and
    nets, and with them the blobs of their nets. *)
Definition owned_blobs (s : State) : list Z :=
  concat (map (fun sv => blobs (net sv)) (solvers_ s))
  ++ concat (map blobs (nets_ s))
  ++ match sync_ptr s with
     | Some sync =>
         blobs (net (solver sync))
         ++ concat (map (fun e => match e with
                                  | Some sv => blobs (net sv)
                                  | None => []
                                  end) (get_syncs sync))
     | None => []
     end.

Definition release_objects (s : State) : State :=
  set_heap (fold_right delete (heap s) (owned_blobs s)) (clear_objects s).

Definition reset (prhs : list mxArray) : M (list mxArray) :=
  mxCHECK (nrhs prhs =? 0) "Usage: caffe_('reset')" ;;;
  (* Clear solvers and stand-alone nets *)
  let* ns := gets (fun s => Z.of_nat (length (solvers_ s))) in
  let* nn := gets (fun s => Z.of_nat (length (nets_ s))) in
  mexPrintf ("Cleared %d solvers and %d stand-alone nets" +:+ LF) [ns; nn] ;;;
  modify release_objects ;;;
  (* Generate new init_key, so that handles created before becomes invalid *)
  let* r := caffe_rng_rand in
  modify (set_init_key r) ;;;
  ret [].

(** [read_mean].  The local [Blob<float> data_mean] lives at an address
    of its own for the time of the call. *)
Definition read_mean (E : Engine) (prhs : list mxArray) : M (list mxArray) :=
  mxCHECK (match prhs with [f] => mxIsChar f | _ => false end)
    "Usage: caffe_('read_mean', mean_proto_file)" ;;;
  let* a0 := arg prhs 0 in
  let* mean_proto_file := deref (mxArrayToString a0) in
  mxCHECK_FILE_EXIST E mean_proto_file ;;;
  let* data_mean := engine (Blob_default E) in
  let* result := engine (ReadProtoFromBinaryFile E mean_proto_file) in
  mxCHECK (not_null result) "Could not read your mean file" ;;;
  let* blob_proto := deref result in
  engine (Blob_FromProto E data_mean blob_proto) ;;;
  let* r := blob_to_mx_mat data_mean DATA in
  free_blob data_mean ;;;
  ret [r].

(** [init_log] hands the file name to the logging library and installs
    the bridge's two log handlers there; none of it shows in the state the
    model follows. *)
Definition init_log (prhs : list mxArray) : M (list mxArray) :=
  mxCHECK (match prhs with [f] => mxIsChar f | _ => false end)
    "Usage: caffe_('init_log', log_dir)" ;;;
  ret [].

Definition write_mean (E : Engine) (prhs : list mxArray) : M (list mxArray) :=
  mxCHECK (match prhs with
           | [d; f] => mxIsSingle d && mxIsChar f
           | _ => false
           end)
    "Usage: caffe_('write_mean', mean_data, mean_proto_file)" ;;;
  let* a0 := arg prhs 0 in
  let* a1 := arg prhs 1 in
  let* mean_proto_file := deref (mxArrayToString a1) in
  let ndims := mxGetNumberOfDimensions a0 in
  mxCHECK ((2 <=? ndims) && (ndims <=? 3))
    "mean_data must have at 2 or 3 dimensions" ;;;
  let dims := mxGetDimensions a0 in
  let* width := deref (int_of_mwSize <$> dims !! 0%nat) in
  let* height := deref (int_of_mwSize <$> dims !! 1%nat) in
  let* channels :=
    (if ndims =? 3 then deref (int_of_mwSize <$> dims !! 2%nat) else ret 1) in
  let* data_mean := engine (Blob_4d E 1 channels height width) in
  mx_mat_to_blob a0 data_mean DATA ;;;
  let* blob_proto := engine (Blob_ToProto E data_mean) in
  engine (WriteProtoToBinaryFile E blob_proto mean_proto_file) ;;;
  free_blob data_mean ;;;
  ret [].

(** Position of the first occurrence of a name. *)
Fixpoint index_of (name : string) (names : list string) : option nat :=
  match names with
  | [] => None
  | n :: rest =>
      if String.eqb n name then Some O else S <$> index_of name rest
  end.

Definition unknown_blob_msg (name : string) : string :=
  String.append "Unknown blob name " name.

(** Modelled from the spec: [Net::blob_by_name] is the engine's lookup of a
    named tensor in a replica's model; it fails with the unknown-tensor-name
    error when the model has no tensor of that name. *)
Definition blob_by_name (n : Net) (name : string) : M Z :=
  match index_of name (blob_names n) with
  | Some i => deref (blobs n !! i)
  | None => mexErrMsgTxt (unknown_blob_msg name)
  end.

(** One replica per entry of [sync_vec]; entry 0 is read through the root. *)
Fixpoint gather_loop (sync : P2PSync) (entries : list (option Solver))
  (i : nat) (blob_name : option string) (top : mxArray) : M mxArray :=
  match entries with
  | [] => ret top
  | entry :: rest =>
      let* sv := (if Nat.eqb i 0 then ret (solver sync) else deref entry) in
      let* name := deref blob_name in
      let* blob := blob_by_name (net sv) name in
      let* response := blob_to_mx_mat blob DATA in
      gather_loop sync rest (S i) blob_name (mxSetCell top i response)
  end.

Definition gather_usage_msg : string :=
  "caffe_mex : Wrong number of arguments".

Definition blob_get_data_byname_multigpu (prhs : list mxArray)
  : M (list mxArray) :=
  (if nrhs prhs =? 1 then ret tt
   else mexErrMsgTxt gather_usage_msg) ;;;
  let* svs := gets solvers_ in
  match svs with
  | [] =>
      mexPrintf ("No solver inited!" +:+ LF) [] ;;;
      ret [mxCreateDoubleScalar (-1)]
  | _ :: _ =>
      let* sp := gets sync_ptr in
      mxCHECK (not_null sp) no_multigpu_msg ;;;
      let* sync := deref sp in
      let sync_vec := get_syncs sync in
      let* a0 := arg prhs 0 in
      let blob_name := mxArrayToString a0 in
      let top := mxCreateCellMatrix (length sync_vec) in
      let* top' := gather_loop sync sync_vec 0 blob_name top in
      ret [top']
  end.

(** [solver_teststep_multigpu].  [ForwardPrefilled] stands for the
    engine's forward pass over a net.  The handler reads
    [sync_ptr->get_syncs()] without testing [sync_ptr]. *)
Fixpoint teststep_loop (ForwardPrefilled : Net -> M unit) (sync : P2PSync)
  (entries : list (option Solver)) (i : nat) (initial_device : Z) : M unit :=
  match entries with
  | [] => ret tt
  | entry :: rest =>
      let* sv := (if Nat.eqb i 0 then ret (solver sync) else deref entry) in
      cudaSetDevice (param_device_id sv) ;;;
      ForwardPrefilled (net sv) ;;;
      cudaSetDevice initial_device ;;;
      teststep_loop ForwardPrefilled sync rest (S i) initial_device
  end.

Definition solver_teststep_multigpu (ForwardPrefilled : Net -> M unit)
  (prhs : list mxArray) : M (list mxArray) :=
  mxCHECK (nrhs prhs =? 0) "Usage: caffe_('solver_teststep_multigpu')" ;;;
  let* sp := gets sync_ptr in
  let* sync := deref sp in
  let sync_vec := get_syncs sync in
  let* initial_device := cudaGetDevice in
  teststep_loop ForwardPrefilled sync sync_vec 0 initial_device ;;;
  ret [].

(* ================================================================== *)
(** ** Command table and entry point *)

(** Available commands, in the order of the table; the entry [END] with
    its null function only stops the search. *)
Definition handlers (E : Engine) : list (string * handler) :=
  [ ("get_solver", get_solver E);
    ("solver_get_attr", solver_get_attr E);
    ("solver_get_iter", solver_get_iter E);
    ("solver_restore", solver_restore E);
    ("solver_solve", solver_solve E);
    ("solver_step", solver_step E);
    ("solver_snapshot", solver_snapshot E);
    ("solver_teststep_multigpu",
     solver_teststep_multigpu
       (fun n => engine (Replica_ForwardPrefilled E n)));
    ("get_solver_multigpu", get_solver_multigpu E);
    ("get_net", get_net E);
    ("net_get_attr", net_get_attr E);
    ("net_forward", net_forward E);
    ("net_backward", net_backward E);
    ("net_copy_from", net_copy_from E);
    ("net_reshape", net_reshape E);
    ("net_save", net_save E);
    ("layer_get_attr", layer_get_attr E);
    ("layer_get_type", layer_get_type E);
    ("blob_get_shape", blob_get_shape);
    ("blob_reshape", blob_reshape (Blob_Reshape E));
    ("blob_get_data", blob_get_data);
    ("blob_get_data_byname_multigpu", blob_get_data_byname_multigpu);
    ("blob_set_data", blob_set_data);
    ("blob_set_data_multigpu", blob_set_data_multigpu);
    ("blob_get_diff", blob_get_diff);
    ("blob_set_diff", blob_set_diff);
    ("set_mode_cpu", set_mode_cpu);
    ("set_mode_gpu", set_mode_gpu);
    ("set_device", set_device);
    ("get_init_key", get_init_key);
    ("reset", reset);
    ("read_mean", read_mean E);
    ("write_mean", write_mean E);
    ("init_log", init_log) ].

Definition unknown_command_msg (cmd : string) : string :=
  String.append "Unknown command '" (String.append cmd "'").

Fixpoint dispatch (table : list (string * handler)) (cmd : string)
  (args : list mxArray) : M (list mxArray) :=
  match table with
  | [] => mxERROR (unknown_command_msg cmd)
  | (name, func) :: rest =>
      if String.eqb name cmd then func args else dispatch rest cmd args
  end.

(** [mexFunction] without [initGlog] and [mexLock], which set up logging
    and pin the MEX file. *)
Definition mexFunction (E : Engine) (prhs : list mxArray)
  : M (list mxArray) :=
  let* k := gets init_key in
  (if k =? -2
   then let* r := caffe_rng_rand in modify (set_init_key r)
   else ret tt) ;;;
  mxCHECK (0 <? nrhs prhs) "Usage: caffe_(api_command, arg1, arg2, ...)" ;;;
  let* a0 := arg prhs 0 in
  let* cmd := deref (mxArrayToString a0) in
  dispatch (handlers E) cmd (tail prhs).

(* ================================================================== *)
(** * Vocabulary of the properties

    Predicates on computations, the soundness conditions the statements
    assume of blobs and replica sets, and the concrete states and calls the
    statements are run on. *)

(** [keeps f m]: the observation [f] of the state is the same after [m] as
    before, however [m] ends. *)
Definition keeps {X A} (f : State -> X) (m : M A) : Prop :=
  forall s, f (snd (m s)) = f s.

(** Every command of a table keeps the key, [reset] apart. *)
Definition table_keeps_key (table : list (string * handler)) : Prop :=
  Forall (fun entry => fst entry <> "reset"%string ->
                       forall args, keeps init_key (snd entry args)) table.

(** The call is [caffe_('reset')]: the command [reset] without
    arguments, the only form in which it resets. *)
Definition is_reset (prhs : list mxArray) : bool :=
  match prhs with
  | [mxChar cmd] => String.eqb cmd "reset"
  | _ => false
  end.

(** States reached from a state by calls of [mexFunction] none of which
    is [caffe_('reset')].  Every call meets the engine as it is at that
    time. *)
Inductive calls_without_reset : State -> State -> Prop :=
| no_call s : calls_without_reset s s
| next_call (E : Engine) prhs s s' :
    is_reset prhs = false ->
    calls_without_reset (snd (mexFunction E prhs s)) s' ->
    calls_without_reset s s'.

(** The handle [setup_handle] builds for address [p] under key [k]. *)
Definition handle_of (p k : Z) : mxArray :=
  mxStruct [[("ptr"%string, Some (mxNumeric mxUINT64_CLASS [1; 1] [p]));
             ("init_key"%string, Some (mxCreateDoubleScalar k))]].

(** The two fields of the handle for address [p] under key [k]. *)
Definition handle_fields (p k : Z) : list (string * option mxArray) :=
  [("ptr"%string, Some (mxNumeric mxUINT64_CLASS [1; 1] [p]));
   ("init_key"%string, Some (mxCreateDoubleScalar k))].

(** An engine on which every call fails, to run the commands that do not
    call it on an example. *)
Definition idle_engine : Engine :=
  {| SolverParameter := unit;
     Proto := unit;
     file_good := fun _ => false;
     ReadSolverParamsFromTextFileOrDie := fun _ e => (Fatal, e);
     set_device_id := fun _ p => p;
     CreateSolver := fun _ e => (Fatal, e);
     Solver_net := fun _ e => (Fatal, e);
     Solver_test_nets := fun _ e => (Fatal, e);
     Solver_iter := fun _ e => (Fatal, e);
     Solver_Restore := fun _ _ e => (Fatal, e);
     Solver_Solve := fun _ e => (Fatal, e);
     Solver_Step := fun _ _ e => (Fatal, e);
     Solver_Snapshot := fun _ e => (Fatal, e);
     Solver_snapshot_prefix := fun _ e => (Fatal, e);
     Solver_set_snapshot_prefix := fun _ _ e => (Fatal, e);
     P2PSync_new := fun _ _ e => (Fatal, e);
     P2PSync_init_syncs := fun _ _ e => (Fatal, e);
     Net_new := fun _ _ e => (Fatal, e);
     Net_layers := fun _ e => (Fatal, e);
     Net_blobs := fun _ e => (Fatal, e);
     Net_input_blob_indices := fun _ e => (Fatal, e);
     Net_output_blob_indices := fun _ e => (Fatal, e);
     Net_layer_names := fun _ e => (Fatal, e);
     Net_blob_names := fun _ e => (Fatal, e);
     Net_ForwardPrefilled := fun _ e => (Fatal, e);
     Net_ForwardFrom := fun _ _ e => (Fatal, e);
     Net_ForwardFromTo := fun _ _ _ e => (Fatal, e);
     Net_Backward := fun _ e => (Fatal, e);
     Net_BackwardFrom := fun _ _ e => (Fatal, e);
     Net_BackwardFromTo := fun _ _ _ e => (Fatal, e);
     Net_CopyTrainedLayersFrom := fun _ _ e => (Fatal, e);
     Net_Reshape := fun _ e => (Fatal, e);
     Net_ToProto := fun _ e => (Fatal, e);
     Replica_ForwardPrefilled := fun _ e => (Fatal, e);
     Layer_blobs := fun _ e => (Fatal, e);
     Layer_type := fun _ e => (Fatal, e);
     Blob_Reshape := fun _ _ => None;
     Blob_default := fun e => (Fatal, e);
     Blob_4d := fun _ _ _ _ e => (Fatal, e);
     Blob_FromProto := fun _ _ e => (Fatal, e);
     Blob_ToProto := fun _ e => (Fatal, e);
     ReadProtoFromBinaryFile := fun _ e => (Fatal, e);
     WriteProtoToBinaryFile := fun _ _ e => (Fatal, e) |}.

(** A state to run examples on: no object yet, one device, key 7; the
    random source then draws 11, 12, ... *)
Definition fresh_state : State :=
  mkState [] [] 7 None CPU 0 1 ∅ (fun n => 11 + Z.of_nat n) 0 [].

(** What [reset] does to the state. *)
Definition after_reset (s : State) : State :=
  let s1 :=
    log_console ("Cleared %d solvers and %d stand-alone nets" +:+ LF,
                 [Z.of_nat (length (solvers_ s)); Z.of_nat (length (nets_ s))])
      s in
  let s2 := release_objects s1 in
  set_init_key (rng_draws s2 (rng_calls s2) mod 2 ^ 32) (tick_rng s2).

(** The random source repeats the key in force: every draw is 7. *)
Definition colliding_state : State :=
  mkState [] [] 7 None CPU 0 1 ∅ (fun _ => 7) 0 [].

(** The declared dimensions of the array [blob_to_mx_mat] returns. *)
Definition host_shape (shape : list Z) : list Z :=
  match shape with
  | [] => [1]
  | _ :: _ => rev shape
  end.

(** The plane as the two conversion functions leave it when they take the
    raw pointer for the active mode. *)
Definition for_write (mode : Brew) (m : SyncedMemory) : SyncedMemory :=
  match mode with
  | CPU => mutable_cpu m
  | GPU => mutable_gpu m
  end.

Definition for_read (mode : Brew) (m : SyncedMemory) : SyncedMemory :=
  match mode with
  | CPU => to_cpu m
  | GPU => to_gpu m
  end.

(** The blob after [mx_mat_to_blob] wrote [data] to plane [w]. *)
Definition written (mode : Brew) (w : WhichMemory) (data : list Z) (b : Blob)
  : Blob :=
  let m := for_write mode (plane w b) in
  set_plane w
    (set_mirror mode (data ++ drop (length data) (mirror mode m)) m) b.

(** A blob without axes, at address 16, holding one element. *)
Definition scalar_blob : Blob :=
  mkBlob [] (mkSyncedMemory [0] [0] HEAD_AT_CPU)
            (mkSyncedMemory [0] [0] HEAD_AT_CPU).

Definition scalar_state : State :=
  mkState [] [] 7 None CPU 0 1 {[ 16 := scalar_blob ]} (fun _ => 11) 0 [].

(** A 4x3x2x2 blob (native order) at address 32. *)
Definition nchw_blob : Blob :=
  mkBlob [4; 3; 2; 2]
    (mkSyncedMemory (replicate 48 0) (replicate 48 0) HEAD_AT_CPU)
    (mkSyncedMemory (replicate 48 0) (replicate 48 0) HEAD_AT_CPU).

Definition nchw_state : State :=
  mkState [] [] 7 None GPU 0 1 {[ 32 := nchw_blob ]} (fun _ => 11) 0 [].

(** Two replicas: the root on device 0 with its blob at address 100, one
    peer on device 1 with its blob at address 200; both blobs have shape
    [2].  Device 0 is current. *)
Definition pair_blob : Blob :=
  mkBlob [2] (mkSyncedMemory [0; 0] [0; 0] HEAD_AT_GPU)
             (mkSyncedMemory [0; 0] [0; 0] HEAD_AT_GPU).

Definition root_solver : Solver := mkSolver 0 (mkNet [100] ["fc"%string]).
Definition peer_solver : Solver := mkSolver 1 (mkNet [200] ["fc"%string]).

Definition pair_state : State :=
  mkState [root_solver] [] 7
    (Some (mkP2PSync root_solver [None; Some peer_solver]))
    GPU 0 2 (<[100 := pair_blob]> {[ 200 := pair_blob ]})
    (fun _ => 11) 0 [].

(** The second array has three elements, the peer's blob counts two. *)
Definition uneven_scatter : list mxArray :=
  [ mxChar "blob_set_data_multigpu";
    mxNumeric mxUINT32_CLASS [1; 1] [1];
    mxCell [ Some (mxNumeric mxSINGLE_CLASS [2] [1; 2]);
             Some (mxNumeric mxSINGLE_CLASS [3] [1; 2; 3]) ] ].

(** The argument check of [blob_set_data_multigpu]. *)
Definition scatter_usage_ok (prhs : list mxArray) : bool :=
  match prhs with
  | [i; c] => mxIsUint32 i && mxIsCell c
  | _ => false
  end.

(** The blob behind an address is there and sound. *)
Definition blob_live_ok (h : gmap Z Blob) (p : Z) : bool :=
  match h !! p with
  | Some b => blob_ok b
  | None => false
  end.

(** Every blob of the net is there and sound, and every name has a blob. *)
Definition net_ok (h : gmap Z Blob) (n : Net) : bool :=
  forallb (blob_live_ok h) (blobs n)
  && (length (blob_names n) <=? length (blobs n))%nat.

Definition replica_ok (h : gmap Z Blob) (e : option Solver) : bool :=
  match e with
  | Some sv => net_ok h (net sv)
  | None => false
  end.

(** The solver the gather loop reads at each index: the root at index 0,
    the entry of [get_syncs()] elsewhere. *)
Fixpoint replicas_from (sync : P2PSync) (i : nat)
  (entries : list (option Solver)) : list (option Solver) :=
  match entries with
  | [] => []
  | e :: rest =>
      (if Nat.eqb i 0 then Some (solver sync) else e)
      :: replicas_from sync (S i) rest
  end.

Definition replicas (sync : P2PSync) : list (option Solver) :=
  replicas_from sync 0 (get_syncs sync).

(** The replica's net has no blob of that name. *)
Definition lacks (name : string) (e : option Solver) : bool :=
  match e with
  | Some sv =>
      match index_of name (blob_names (net sv)) with
      | Some _ => false
      | None => true
      end
  | None => false
  end.

(** As [pair_state], but the peer's net names its blob differently. *)
Definition odd_peer_state : State :=
  mkState [root_solver] [] 7
    (Some (mkP2PSync root_solver
             [None; Some (mkSolver 1 (mkNet [200] ["ip"%string]))]))
    GPU 0 2 (<[100 := pair_blob]> {[ 200 := pair_blob ]})
    (fun _ => 11) 0 [].

(** [good Q m]: when [m] returns, its result satisfies [Q]; when it raises
    an error, the message is not empty. *)
Definition good {A} (Q : A -> Prop) (m : M A) : Prop :=
  forall s,
    match fst (m s) with
    | Returned a => Q a
    | MexError msg => msg <> ""%string
    | Crashed => True
    end.

(** [sure Q m]: as [good Q m], and [m] is never lost. *)
Definition sure {A} (Q : A -> Prop) (m : M A) : Prop :=
  forall s,
    match fst (m s) with
    | Returned a => Q a
    | MexError msg => msg <> ""%string
    | Crashed => False
    end.

(** No condition on the result. *)
Definition any {A} : A -> Prop := fun _ => True.

(** The classes of array the reading commands return. *)
Definition is_single_array (r : mxArray) : Prop :=
  exists dims data, r = mxNumeric mxSINGLE_CLASS dims data.


(** The results the commands announce.  A handle carries an address in
    the range of [uint64_t]; a handle vector is a struct vector of
    handles. *)
Definition is_handle (r : mxArray) : Prop :=
  exists p k, 0 <= p < 2 ^ 64 /\ r = handle_of p k.

Definition is_handle_vec (r : mxArray) : Prop :=
  exists hs : list (Z * Z),
    Forall (fun h => 0 <= fst h < 2 ^ 64) hs /\
    r = mxStruct (map (fun h => handle_fields (fst h) (snd h)) hs).

Definition is_double_scalar (r : mxArray) : Prop :=
  exists v, r = mxCreateDoubleScalar v.

Definition is_string (r : mxArray) : Prop := exists str, r = mxChar str.

(** A single array of at least one dimension that holds as many elements
    as its dimensions announce: what [blob_to_mx_mat] hands out. *)
Definition is_marshalled (r : mxArray) : Prop :=
  exists dims data,
    r = mxNumeric mxSINGLE_CLASS dims data /\ dims <> [] /\ mx_wf r = true.

(** A 1-by-n row of doubles with its n elements. *)
Definition is_shape_row (r : mxArray) : Prop :=
  exists data,
    r = mxNumeric mxDOUBLE_CLASS [1; Z.of_nat (length data)] data.

(** A cell vector with every cell set to a marshalled array. *)
Definition is_gathered (r : mxArray) : Prop :=
  exists arrays,
    Forall is_marshalled arrays /\ r = mxCell (map Some arrays).

Definition is_solver_attr (r : mxArray) : Prop :=
  exists hn hv,
    is_handle hn /\ is_handle_vec hv /\
    r = mxStruct [[("hNet_net"%string, Some hn);
                   ("hNet_test_nets"%string, Some hv)]].

Definition is_net_attr (r : mxArray) : Prop :=
  exists hl hb inputs outputs lnames bnames,
    is_handle_vec hl /\ is_handle_vec hb /\
    r = mxStruct
          [[("hLayer_layers"%string, Some hl);
            ("hBlob_blobs"%string, Some hb);
            ("input_blob_indices"%string, Some (int_vec_to_mx_vec inputs));
            ("output_blob_indices"%string, Some (int_vec_to_mx_vec outputs));
            ("layer_names"%string, Some (str_vec_to_mx_strcell lnames));
            ("blob_names"%string, Some (str_vec_to_mx_strcell bnames))]].

Definition is_layer_attr (r : mxArray) : Prop :=
  exists hb,
    is_handle_vec hb /\ r = mxStruct [[("hBlob_blobs"%string, Some hb)]].

Definition nothing (plhs : list mxArray) : Prop := plhs = [].

Definition one (P : mxArray -> Prop) (plhs : list mxArray) : Prop :=
  exists r, plhs = [r] /\ P r.

(** What each command of the table announces as its results. *)
Definition announced : list (string * (list mxArray -> Prop)) :=
  [ ("get_solver", one is_handle);
    ("solver_get_attr", one is_solver_attr);
    ("solver_get_iter", one is_double_scalar);
    ("solver_restore", nothing);
    ("solver_solve", nothing);
    ("solver_step", nothing);
    ("solver_snapshot", nothing);
    ("solver_teststep_multigpu", nothing);
    ("get_solver_multigpu", one is_handle);
    ("get_net", one is_handle);
    ("net_get_attr", one is_net_attr);
    ("net_forward", nothing);
    ("net_backward", nothing);
    ("net_copy_from", nothing);
    ("net_reshape", nothing);
    ("net_save", nothing);
    ("layer_get_attr", one is_layer_attr);
    ("layer_get_type", one is_string);
    ("blob_get_shape", one is_shape_row);
    ("blob_reshape", nothing);
    ("blob_get_data", one is_marshalled);
    ("blob_get_data_byname_multigpu", one is_gathered);
    ("blob_set_data", nothing);
    ("blob_set_data_multigpu", nothing);
    ("blob_get_diff", one is_marshalled);
    ("blob_set_diff", nothing);
    ("set_mode_cpu", nothing);
    ("set_mode_gpu", nothing);
    ("set_device", nothing);
    ("get_init_key", one is_double_scalar);
    ("reset", nothing);
    ("read_mean", one is_marshalled);
    ("write_mean", nothing);
    ("init_log", nothing) ]%string.

Fixpoint announced_by (table : list (string * (list mxArray -> Prop)))
  (cmd : string) : option (list mxArray -> Prop) :=
  match table with
  | [] => None
  | (name, P) :: rest =>
      if String.eqb name cmd then Some P else announced_by rest cmd
  end.

Definition declared (cmd : string) (plhs : list mxArray) : Prop :=
  match announced_by announced cmd with
  | Some P => P plhs
  | None => False
  end.

(** The name of the gather command in the table. *)
Definition gather_cmd : string := "blob_get_data_byname_multigpu".

(** What a call may return: the results its command announces, or, for
    the gather command in a process without solvers, the scalar -1. *)
Definition returned_ok (s : State) (cmd : string) (plhs : list mxArray)
  : Prop :=
  (cmd = gather_cmd /\ solvers_ s = [] /\ plhs = [mxCreateDoubleScalar (-1)])
  \/ declared cmd plhs.

Definition outcome_ok (s : State) (cmd : string)
  (o : outcome (list mxArray)) : Prop :=
  match o with
  | Returned plhs => returned_ok s cmd plhs
  | MexError msg => msg <> ""%string
  | Crashed => True
  end.

(** The test step asked for in a process that has built no replica
    set. *)
Definition teststep_too_early : list mxArray :=
  [mxChar "solver_teststep_multigpu"].

(** The gather command in a process that has created no solver. *)
Definition gather_too_early : list mxArray :=
  [mxChar "blob_get_data_byname_multigpu"; mxChar "fc"].


(** Element [i] of a struct vector, as the 1-by-1 struct a MATLAB caller
    passes on when it indexes the vector. *)
Definition struct_elem (pm : mxArray) (i : nat) : option mxArray :=
  match pm with
  | mxStruct elems => (fun fields => mxStruct [fields]) <$> elems !! i
  | _ => None
  end.

(** The plane a write to plane [w] does not address. *)
Definition other_plane (w : WhichMemory) : WhichMemory :=
  match w with
  | DATA => DIFF
  | DIFF => DATA
  end.

(** The command that reads, and the one that writes, plane [w]. *)
Definition blob_get (w : WhichMemory) : handler :=
  match w with
  | DATA => blob_get_data
  | DIFF => blob_get_diff
  end.

Definition blob_set (w : WhichMemory) : handler :=
  match w with
  | DATA => blob_set_data
  | DIFF => blob_set_diff
  end.

(** An engine [Reshape] that takes the new shape and keeps the buffers;
    it serves to run [blob_reshape] on an example. *)
Definition reshape_keeping_buffers (shape : list Z) (b : Blob) : option Blob :=
  Some (mkBlob shape (data_ b) (diff_ b)).

(** The object store and the replica set: what [reset] clears. *)
Definition object_store (s : State)
  : list Solver * list Net * option P2PSync :=
  (solvers_ s, nets_ s, sync_ptr s).

(** Every command of a table keeps observation [f], those named in
    [except] apart. *)
Definition table_keeps_except {X} (f : State -> X) (except : list string)
  (table : list (string * handler)) : Prop :=
  Forall (fun entry => ~ In (fst entry) except ->
                       forall args, keeps f (snd entry args)) table.

(** The commands that work on blob memory, the mode and the key without
    calling into the engine, as the table has them. *)
Definition memory_commands : list (string * handler) :=
  [ ("blob_get_shape", blob_get_shape);
    ("blob_get_data", blob_get_data);
    ("blob_get_data_byname_multigpu", blob_get_data_byname_multigpu);
    ("blob_set_data", blob_set_data);
    ("blob_set_data_multigpu", blob_set_data_multigpu);
    ("blob_get_diff", blob_get_diff);
    ("blob_set_diff", blob_set_diff);
    ("set_mode_cpu", set_mode_cpu);
    ("set_mode_gpu", set_mode_gpu);
    ("get_init_key", get_init_key);
    ("reset", reset) ].

(** What the fan-out commands have no business changing. *)
Definition session (s : State)
  : list Solver * list Net * option P2PSync * Z * Brew :=
  (solvers_ s, nets_ s, sync_ptr s, init_key s, Caffe_mode s).

(** An engine forward pass that does nothing, to run the test step on an
    example. *)
Definition forward_nothing (n : Net) : M unit := ret tt.

(** A scatter over the two replicas of [pair_state] with arrays that fit. *)
Definition even_scatter : list mxArray :=
  [ mxNumeric mxUINT32_CLASS [1; 1] [1];
    mxCell [ Some (mxNumeric mxSINGLE_CLASS [2] [1; 2]);
             Some (mxNumeric mxSINGLE_CLASS [2] [3; 4]) ] ].

(** One replica's part in a scatter followed by a gather: its solver, the
    address and contents of the blob addressed, and the array the host
    supplies for it. *)
Record lane : Type := mkLane {
  lane_solver : Solver;
  lane_ptr : Z;
  lane_blob : Blob;
  lane_dims : list Z;
  lane_data : list Z
}.

Definition lane_array (l : lane) : mxArray :=
  mxNumeric mxSINGLE_CLASS (lane_dims l) (lane_data l).

(** The array the gather returns for the replica: the elements supplied,
    under the reversed shape of the blob. *)
Definition lane_result (l : lane) : mxArray :=
  mxNumeric mxSINGLE_CLASS (host_shape (shape_ (lane_blob l))) (lane_data l).

(** In state [s] the replica's net has the blob at position [j], under the
    name [name]; the blob is live and sound, the array fits it, and the
    replica's device exists. *)
Definition lane_ok (s : State) (j : nat) (name : string) (l : lane) : Prop :=
  blobs (net (lane_solver l)) !! j = Some (lane_ptr l) /\
  index_of name (blob_names (net (lane_solver l))) = Some j /\
  heap s !! lane_ptr l = Some (lane_blob l) /\
  blob_ok (lane_blob l) = true /\
  mx_wf (lane_array l) = true /\
  mxGetNumberOfElements (lane_array l) = count (lane_blob l) /\
  0 <= param_device_id (lane_solver l) < cuda_device_count s.

(** The two replicas of [pair_state] with the arrays of [even_scatter]. *)
Definition pair_lanes : list lane :=
  [ mkLane root_solver 100 pair_blob [2] [1; 2];
    mkLane peer_solver 200 pair_blob [2] [3; 4] ].

(* ================================================================== *)
(** ** Sound calls

    What the bridge takes for granted of a call and does not test: that
    a handle is a handle as the bridge issues them and, under the key in
    force, the address of a live object; that an array holds as many
    elements as it announces; that the replica set the fan-out commands
    read has been built; that a device id names a device; and that the
    engine's calls come back. *)

(** [safe m s]: run from [s], [m] is not lost. *)
Definition safe {A} (m : M A) (s : State) : Prop := fst (m s) <> Crashed.

(** The call into the engine comes back with a value. *)
Definition returns {A} (op : EngineOp A) : Prop :=
  forall e, exists a, fst (op e) = Done a.

(** The call comes back with a value or throws: no check inside it
    fails. *)
Definition returns_or_throws {A} (op : EngineOp A) : Prop :=
  forall e, fst (op e) <> Fatal.

(** When the call comes back, the blob at the address it answers for is
    live and sound. *)
Definition leaves_blob {A} (addr : A -> Z) (op : EngineOp A) : Prop :=
  forall e a e',
    op e = (Done a, e') -> blob_live_ok (engine_heap e') (addr a) = true.

(** An engine whose calls come back: with a value where the bridge calls
    it outside any [try] block, with a value or an exception where every
    call is inside one.  The blob the engine allocates or fills for
    [read_mean] and [write_mean] is live and sound. *)
Record tame (E : Engine) : Prop := mkTame {
  tame_ReadSolverParams :
    forall f, returns (ReadSolverParamsFromTextFileOrDie E f);
  tame_CreateSolver : forall p, returns_or_throws (CreateSolver E p);
  tame_Solver_net : forall p, returns (Solver_net E p);
  tame_Solver_test_nets : forall p, returns (Solver_test_nets E p);
  tame_Solver_iter : forall p, returns (Solver_iter E p);
  tame_Solver_Restore : forall p f, returns (Solver_Restore E p f);
  tame_Solver_Solve : forall p, returns (Solver_Solve E p);
  tame_Solver_Step : forall p n, returns_or_throws (Solver_Step E p n);
  tame_Solver_Snapshot : forall p, returns (Solver_Snapshot E p);
  tame_Solver_snapshot_prefix :
    forall p, returns (Solver_snapshot_prefix E p);
  tame_Solver_set_snapshot_prefix :
    forall p f, returns (Solver_set_snapshot_prefix E p f);
  tame_P2PSync_new : forall p sv, returns_or_throws (P2PSync_new E p sv);
  tame_P2PSync_init_syncs :
    forall sync gpus, returns_or_throws (P2PSync_init_syncs E sync gpus);
  tame_Net_new : forall f ph, returns (Net_new E f ph);
  tame_Net_layers : forall p, returns (Net_layers E p);
  tame_Net_blobs : forall p, returns (Net_blobs E p);
  tame_Net_input_blob_indices :
    forall p, returns (Net_input_blob_indices E p);
  tame_Net_output_blob_indices :
    forall p, returns (Net_output_blob_indices E p);
  tame_Net_layer_names : forall p, returns (Net_layer_names E p);
  tame_Net_blob_names : forall p, returns (Net_blob_names E p);
  tame_Net_ForwardPrefilled :
    forall p, returns_or_throws (Net_ForwardPrefilled E p);
  tame_Net_ForwardFrom : forall p a, returns_or_throws (Net_ForwardFrom E p a);
  tame_Net_ForwardFromTo :
    forall p a b, returns_or_throws (Net_ForwardFromTo E p a b);
  tame_Net_Backward : forall p, returns (Net_Backward E p);
  tame_Net_BackwardFrom : forall p a, returns (Net_BackwardFrom E p a);
  tame_Net_BackwardFromTo : forall p a b, returns (Net_BackwardFromTo E p a b);
  tame_Net_CopyTrainedLayersFrom :
    forall p f, returns (Net_CopyTrainedLayersFrom E p f);
  tame_Net_Reshape : forall p, returns (Net_Reshape E p);
  tame_Net_ToProto : forall p, returns (Net_ToProto E p);
  tame_Replica_ForwardPrefilled :
    forall n, returns (Replica_ForwardPrefilled E n);
  tame_Layer_blobs : forall p, returns (Layer_blobs E p);
  tame_Layer_type : forall p, returns (Layer_type E p);
  tame_Blob_default : returns (Blob_default E);
  tame_Blob_4d : forall n c h w, returns (Blob_4d E n c h w);
  tame_Blob_4d_blob :
    forall n c h w, leaves_blob (fun p => p) (Blob_4d E n c h w);
  tame_Blob_FromProto : forall p proto, returns (Blob_FromProto E p proto);
  tame_Blob_FromProto_blob :
    forall p proto, leaves_blob (fun _ => p) (Blob_FromProto E p proto);
  tame_Blob_ToProto : forall p, returns (Blob_ToProto E p);
  tame_ReadProtoFromBinaryFile :
    forall f, returns (ReadProtoFromBinaryFile E f);
  tame_WriteProtoToBinaryFile :
    forall proto f, returns (WriteProtoToBinaryFile E proto f)
}.

(** The struct that comes first is a handle as the bridge issues them:
    one element with the fields [ptr] and [init_key]. *)
Definition handle_first (args : list mxArray) : Prop :=
  match args with
  | h :: _ => mxIsStruct h = true -> exists p k, h = handle_of p k
  | [] => True
  end.

(** When the handle that comes first carries the key in force, its
    address satisfies [P]. *)
Definition address_first (P : Z -> Prop) (s : State) (args : list mxArray)
  : Prop :=
  match args with
  | h :: _ => forall p, h = handle_of p (init_key s) -> P p
  | [] => True
  end.

(** The handle that comes first is that of a live blob, and of a live
    and sound one. *)
Definition live_blob_first (s : State) (args : list mxArray) : Prop :=
  handle_first args /\ address_first (fun p => heap s !! p <> None) s args.

Definition blob_first (s : State) (args : list mxArray) : Prop :=
  handle_first args /\
  address_first (fun p => blob_live_ok (heap s) p = true) s args.

(** Every double array among the arguments has an element to read. *)
Definition scalars_present (args : list mxArray) : Prop :=
  Forall (fun a => mxIsDouble a = true -> mxGetScalar a <> None) args.

(** Every array among the arguments holds as many elements as its
    dimensions announce. *)
Definition arrays_sound (args : list mxArray) : Prop :=
  Forall (fun a => mx_wf a = true) args.

Definition device_exists (s : State) (d : Z) : Prop :=
  0 <= d < cuda_device_count s.

(** The id [set_device] is given names a device. *)
Definition device_sound (s : State) (args : list mxArray) : Prop :=
  match args with
  | [a] =>
      mxIsDouble a = true ->
      exists v, mxGetScalar a = Some v /\ device_exists s (int_of_double v)
  | _ => True
  end.

(** [get_solver_multigpu] is given the array of device ids, last and
    after the solver file; the first id is not negative. *)
Definition ids_sound (args : list mxArray) : Prop :=
  exists pre dims data,
    args = pre ++ [mxNumeric mxDOUBLE_CLASS dims data] /\
    pre <> [] /\
    Z.of_nat (length data) = prod_dims dims /\
    match data with
    | d :: _ => 0 <= int_of_double d
    | [] => True
    end.

(** Every replica the fan-out loops read is there and satisfies [P]. *)
Definition each_replica (P : Solver -> Prop) (entries : list (option Solver))
  : Prop :=
  Forall (fun e => exists sv, e = Some sv /\ P sv) entries.

(** The net has a blob at position [j], live and sound. *)
Definition blob_at (s : State) (j : nat) (n : Net) : Prop :=
  exists p, blobs n !! j = Some p /\ blob_live_ok (heap s) p = true.

(** A scatter finds, when a replica set exists: an index to read; at
    least one entry in [get_syncs()]; in the root a sound blob at the
    index; every entry after the first there, with a sound blob at the
    index and a device that exists; in every cell a sound array; and,
    when there is an entry after the first, a current device to return
    to. *)
Definition scatter_sound (s : State) (args : list mxArray) : Prop :=
  match args with
  | [idx; mxCell cells] =>
      mxIsUint32 idx = true ->
      forall sync, sync_ptr s = Some sync ->
        exists raw,
          mxGetScalar idx = Some raw /\
          get_syncs sync <> [] /\
          blob_at s (Z.to_nat ((raw - 1) mod 2 ^ 32)) (net (solver sync)) /\
          each_replica
            (fun sv =>
               blob_at s (Z.to_nat ((raw - 1) mod 2 ^ 32)) (net sv) /\
               device_exists s (param_device_id sv))
            (drop 1 (get_syncs sync)) /\
          Forall (fun c => exists a, c = Some a /\ mx_wf a = true) cells /\
          (drop 1 (get_syncs sync) <> [] -> device_exists s (cuda_device s))
  | _ => True
  end.

(** The net has a sound blob where it has the name. *)
Definition named_blob_at (s : State) (name : string) (n : Net) : Prop :=
  forall j, index_of name (blob_names n) = Some j -> blob_at s j n.

(** A gather finds, when a solver and a replica set exist: a name, and
    every replica there, with a sound blob under the name if it has the
    name. *)
Definition gather_sound (s : State) (args : list mxArray) : Prop :=
  match args with
  | [a] =>
      solvers_ s <> [] ->
      forall sync, sync_ptr s = Some sync ->
        exists name,
          a = mxChar name /\
          each_replica (fun sv => named_blob_at s name (net sv))
            (replicas sync)
  | _ => True
  end.

(** The test step finds a replica set, every replica there and on a
    device that exists, and a current device to return to. *)
Definition teststep_sound (s : State) (args : list mxArray) : Prop :=
  match args with
  | [] =>
      exists sync,
        sync_ptr s = Some sync /\
        each_replica (fun sv => device_exists s (param_device_id sv))
          (replicas sync) /\
        (get_syncs sync <> [] -> device_exists s (cuda_device s))
  | _ :: _ => True
  end.

(** What each command takes for granted of its arguments, the process
    and the engine.  [set_mode_cpu], [set_mode_gpu], [get_init_key],
    [reset] and [init_log] take nothing for granted, nor does the
    dispatch of a name the table does not have. *)
Definition demands (E : Engine) (s : State)
  : list (string * (list mxArray -> Prop)) :=
  [ ("get_solver", fun _ => tame E);
    ("solver_get_attr", fun args => tame E /\ handle_first args);
    ("solver_get_iter", fun args => tame E /\ handle_first args);
    ("solver_restore", fun args => tame E /\ handle_first args);
    ("solver_solve", fun args => tame E /\ handle_first args);
    ("solver_step",
     fun args => tame E /\ handle_first args /\ scalars_present args);
    ("solver_snapshot", fun args => tame E /\ handle_first args);
    ("solver_teststep_multigpu", fun args => tame E /\ teststep_sound s args);
    ("get_solver_multigpu", fun args => tame E /\ ids_sound args);
    ("get_net", fun _ => tame E);
    ("net_get_attr", fun args => tame E /\ handle_first args);
    ("net_forward",
     fun args =>
       tame E /\ args <> [] /\ handle_first args /\ scalars_present args);
    ("net_backward",
     fun args =>
       tame E /\ args <> [] /\ handle_first args /\ scalars_present args);
    ("net_copy_from", fun args => tame E /\ handle_first args);
    ("net_reshape", fun args => tame E /\ handle_first args);
    ("net_save", fun args => tame E /\ handle_first args);
    ("layer_get_attr", fun args => tame E /\ handle_first args);
    ("layer_get_type", fun args => tame E /\ handle_first args);
    ("blob_get_shape", live_blob_first s);
    ("blob_reshape",
     fun args =>
       (forall shape b, Blob_Reshape E shape b <> None) /\
       live_blob_first s args /\ arrays_sound args);
    ("blob_get_data", blob_first s);
    ("blob_get_data_byname_multigpu", gather_sound s);
    ("blob_set_data", fun args => blob_first s args /\ arrays_sound args);
    ("blob_set_data_multigpu", scatter_sound s);
    ("blob_get_diff", blob_first s);
    ("blob_set_diff", fun args => blob_first s args /\ arrays_sound args);
    ("set_device", device_sound s);
    ("read_mean", fun _ => tame E);
    ("write_mean", fun args => tame E /\ arrays_sound args) ]%string.

(** The state a command runs in: [mexFunction] first draws the key when
    none was drawn yet. *)
Definition entered (s : State) : State :=
  if init_key s =? -2
  then set_init_key (rng_draws s (rng_calls s) mod 2 ^ 32) (tick_rng s)
  else s.

(** A sound call: no call at all, or a command name followed by what the
    command takes for granted. *)
Definition sound_call (E : Engine) (prhs : list mxArray) (s : State) : Prop :=
  match prhs with
  | [] => True
  | mxChar cmd :: args =>
      match announced_by (demands E (entered s)) cmd with
      | Some P => P args
      | None => True
      end
  | _ :: _ => False
  end.

(** An engine on which every call comes back at once, to run a command
    that calls it on an example.  The blob it allocates is
    [scalar_blob]. *)
Definition put_blob (p : Z) (e : Engine_state) : Engine_state :=
  mkEngine_state (<[p := scalar_blob]> (engine_heap e)) (engine_mode e)
    (engine_device e) (engine_rng_calls e).

Definition quiet_engine : Engine :=
  {| SolverParameter := unit;
     Proto := unit;
     file_good := fun _ => true;
     ReadSolverParamsFromTextFileOrDie := fun _ e => (Done tt, e);
     set_device_id := fun _ p => p;
     CreateSolver := fun _ e => (Done (4096, mkSolver 0 (mkNet [] [])), e);
     Solver_net := fun _ e => (Done 8192, e);
     Solver_test_nets := fun _ e => (Done [], e);
     Solver_iter := fun _ e => (Done 0, e);
     Solver_Restore := fun _ _ e => (Done tt, e);
     Solver_Solve := fun _ e => (Done tt, e);
     Solver_Step := fun _ _ e => (Done tt, e);
     Solver_Snapshot := fun _ e => (Done tt, e);
     Solver_snapshot_prefix := fun _ e => (Done ""%string, e);
     Solver_set_snapshot_prefix := fun _ _ e => (Done tt, e);
     P2PSync_new := fun _ sv e => (Done (mkP2PSync sv []), e);
     P2PSync_init_syncs :=
       fun sync gpus e =>
         (Done (mkP2PSync (solver sync) (map (fun _ => None) gpus)), e);
     Net_new := fun _ _ e => (Done (8192, mkNet [] []), e);
     Net_layers := fun _ e => (Done [], e);
     Net_blobs := fun _ e => (Done [], e);
     Net_input_blob_indices := fun _ e => (Done [], e);
     Net_output_blob_indices := fun _ e => (Done [], e);
     Net_layer_names := fun _ e => (Done [], e);
     Net_blob_names := fun _ e => (Done [], e);
     Net_ForwardPrefilled := fun _ e => (Done tt, e);
     Net_ForwardFrom := fun _ _ e => (Done tt, e);
     Net_ForwardFromTo := fun _ _ _ e => (Done tt, e);
     Net_Backward := fun _ e => (Done tt, e);
     Net_BackwardFrom := fun _ _ e => (Done tt, e);
     Net_BackwardFromTo := fun _ _ _ e => (Done tt, e);
     Net_CopyTrainedLayersFrom := fun _ _ e => (Done tt, e);
     Net_Reshape := fun _ e => (Done tt, e);
     Net_ToProto := fun _ e => (Done tt, e);
     Replica_ForwardPrefilled := fun _ e => (Done tt, e);
     Layer_blobs := fun _ e => (Done [], e);
     Layer_type := fun _ e => (Done ""%string, e);
     Blob_Reshape := fun shape b => Some b;
     Blob_default := fun e => (Done 64, e);
     Blob_4d := fun _ _ _ _ e => (Done 64, put_blob 64 e);
     Blob_FromProto := fun p _ e => (Done tt, put_blob p e);
     Blob_ToProto := fun _ e => (Done tt, e);
     ReadProtoFromBinaryFile := fun _ e => (Done (Some tt), e);
     WriteProtoToBinaryFile := fun _ _ e => (Done tt, e) |}.

(* ================================================================== *)
(** * Properties *)

Lemma bind_ret_l {A B} (a : A) (k : A -> M B) : bind (ret a) k = k a.
Proof. reflexivity. Qed.

(** ** What a computation leaves alone *)

Create HintDb keeps.

Section Keeps.
Context {X : Type} (f : State -> X).

Lemma keeps_ret {A} (a : A) : keeps f (ret a).
Proof. intros s. reflexivity. Qed.

Lemma keeps_err {A} msg : keeps f (@mexErrMsgTxt A msg).
Proof. intros s. reflexivity. Qed.

Lemma keeps_crash {A} : keeps f (@crash A).
Proof. intros s. reflexivity. Qed.

Lemma keeps_gets {A} (g : State -> A) : keeps f (gets g).
Proof. intros s. reflexivity. Qed.

Lemma keeps_deref {A} (p : option A) : keeps f (deref p).
Proof. destruct p; intros s; reflexivity. Qed.

Lemma keeps_mxCHECK expr msg : keeps f (mxCHECK expr msg).
Proof. destruct expr; intros s; reflexivity. Qed.

Lemma keeps_arg prhs i : keeps f (arg prhs i).
Proof. apply keeps_deref. Qed.

Lemma keeps_modify (g : State -> State) :
  (forall s, f (g s) = f s) -> keeps f (modify g).
Proof. intros Hg s. apply Hg. Qed.

Lemma keeps_bind {A B} (m : M A) (k : A -> M B) :
  keeps f m -> (forall a, keeps f (k a)) -> keeps f (bind m k).
Proof.
  intros Hm Hk s. unfold bind.
  specialize (Hm s). destruct (m s) as [[a | msg |] s1]; simpl in *.
  - rewrite Hk. exact Hm.
  - exact Hm.
  - exact Hm.
Qed.
End Keeps.

#[local] Hint Resolve keeps_ret keeps_err keeps_crash keeps_gets keeps_deref
  keeps_mxCHECK keeps_arg : keeps.

(** One structural step of a [keeps] goal. *)
Ltac keeps_step :=
  lazymatch goal with
  | |- keeps _ (bind _ _) => apply keeps_bind; [ | intros ? ]
  | |- keeps _ (modify _) => apply keeps_modify; intros; reflexivity
  | |- keeps _ (mxERROR _) => apply keeps_err
  | |- keeps _ (if ?c then _ else _) => destruct c
  | |- keeps _ (match ?x with _ => _ end) => destruct x
  | |- keeps _ (let _ := _ in _) => cbv zeta
  end.

Ltac keeps_tac := repeat (first [ solve [ auto with keeps ] | keeps_step ]).

(** Observations that do not see blob memory nor the console. *)
Section KeepsMemory.
Context {X : Type} (f : State -> X).
Hypothesis f_heap : forall h s, f (set_heap h s) = f s.
Hypothesis f_console : forall l s, f (log_console l s) = f s.

Lemma keeps_load_blob p : keeps f (load_blob p).
Proof. unfold load_blob. keeps_tac. Qed.

Lemma keeps_store_blob p b : keeps f (store_blob p b).
Proof. unfold store_blob. apply keeps_modify. intros s. apply f_heap. Qed.

Lemma keeps_mexPrintf fmt args : keeps f (mexPrintf fmt args).
Proof. unfold mexPrintf. apply keeps_modify. intros s. apply f_console. Qed.

Hint Resolve keeps_load_blob keeps_store_blob keeps_mexPrintf : keeps.

Lemma keeps_handle_to_ptr h : keeps f (handle_to_ptr h).
Proof. unfold handle_to_ptr. keeps_tac. Qed.

Lemma keeps_mx_mat_to_blob a p w : keeps f (mx_mat_to_blob a p w).
Proof. unfold mx_mat_to_blob. keeps_tac. Qed.

Lemma keeps_blob_to_mx_mat p w : keeps f (blob_to_mx_mat p w).
Proof. unfold blob_to_mx_mat. keeps_tac. Qed.

Lemma keeps_blob_by_name n name : keeps f (blob_by_name n name).
Proof. unfold blob_by_name. keeps_tac. Qed.

Hint Resolve keeps_handle_to_ptr keeps_mx_mat_to_blob keeps_blob_to_mx_mat
  keeps_blob_by_name : keeps.

Lemma keeps_gather_loop sync entries :
  forall i name top, keeps f (gather_loop sync entries i name top).
Proof.
  induction entries as [| e rest IH]; intros i name top; simpl.
  - auto with keeps.
  - keeps_tac.
Qed.

Hint Resolve keeps_gather_loop : keeps.

Lemma keeps_blob_get_data_byname_multigpu prhs :
  keeps f (blob_get_data_byname_multigpu prhs).
Proof. unfold blob_get_data_byname_multigpu. keeps_tac. Qed.

Lemma keeps_blob_get_shape prhs : keeps f (blob_get_shape prhs).
Proof. unfold blob_get_shape. keeps_tac. Qed.

Lemma keeps_blob_get_data prhs : keeps f (blob_get_data prhs).
Proof. unfold blob_get_data. keeps_tac. Qed.

Lemma keeps_blob_get_diff prhs : keeps f (blob_get_diff prhs).
Proof. unfold blob_get_diff. keeps_tac. Qed.

Lemma keeps_blob_set_data prhs : keeps f (blob_set_data prhs).
Proof. unfold blob_set_data. keeps_tac. Qed.

Lemma keeps_blob_set_diff prhs : keeps f (blob_set_diff prhs).
Proof. unfold blob_set_diff. keeps_tac. Qed.
End KeepsMemory.

(** Issuing handles and testing files change nothing; calls into the
    engine change the engine's part of the state only. *)
Section KeepsBridge.
Context {X : Type} (f : State -> X).

Lemma keeps_setup_handle p i vec : keeps f (setup_handle p i vec).
Proof. unfold setup_handle. keeps_tac. Qed.

Lemma keeps_ptr_to_handle p : keeps f (ptr_to_handle p).
Proof. apply keeps_setup_handle. Qed.

Lemma keeps_setup_handles ptrs : forall i vec, keeps f (setup_handles ptrs i vec).
Proof.
  induction ptrs as [| p rest IH]; intros i vec; cbn [setup_handles].
  - apply keeps_ret.
  - apply keeps_bind; [ apply keeps_setup_handle | intros vec' ]. apply IH.
Qed.

Lemma keeps_ptr_vec_to_handle_vec ptrs : keeps f (ptr_vec_to_handle_vec ptrs).
Proof. apply keeps_setup_handles. Qed.

Lemma keeps_mxCHECK_FILE_EXIST E file : keeps f (mxCHECK_FILE_EXIST E file).
Proof. unfold mxCHECK_FILE_EXIST. keeps_tac. Qed.

Lemma keeps_gpus_loop count ids : forall gpus, keeps f (gpus_loop count ids gpus).
Proof.
  induction ids as [| d rest IH]; intros gpus; cbn [gpus_loop].
  - apply keeps_ret.
  - cbv zeta. apply keeps_bind; [ | intros _; apply IH ].
    destruct (count <=? int_of_double d); [ apply keeps_err | apply keeps_ret ].
Qed.

Hypothesis f_engine : forall e s, f (engine_update e s) = f s.

Lemma keeps_engine {A} (op : EngineOp A) : keeps f (engine op).
Proof.
  intros s. unfold engine.
  destruct (op (engine_view s)) as [[a | |] e]; apply f_engine.
Qed.

Lemma keeps_engine_try {A} msg (op : EngineOp A) : keeps f (engine_try msg op).
Proof.
  intros s. unfold engine_try.
  destruct (op (engine_view s)) as [[a | |] e]; apply f_engine.
Qed.
End KeepsBridge.

#[local] Hint Resolve keeps_setup_handle keeps_ptr_to_handle keeps_setup_handles
  keeps_ptr_vec_to_handle_vec keeps_mxCHECK_FILE_EXIST keeps_gpus_loop : keeps.


(** ** The generation key *)

Lemma keeps_key_cudaSetDevice d : keeps init_key (cudaSetDevice d).
Proof. unfold cudaSetDevice. keeps_tac. Qed.

#[local] Hint Resolve keeps_key_cudaSetDevice : keeps.
#[local] Hint Extern 1 (keeps init_key (mx_mat_to_blob _ _ _)) =>
  apply keeps_mx_mat_to_blob; reflexivity : keeps.
#[local] Hint Extern 1 (keeps init_key (blob_to_mx_mat _ _)) =>
  apply keeps_blob_to_mx_mat; reflexivity : keeps.
#[local] Hint Extern 1 (keeps init_key (handle_to_ptr _)) =>
  apply keeps_handle_to_ptr : keeps.
#[local] Hint Extern 1 (keeps init_key (load_blob _)) =>
  apply keeps_load_blob : keeps.
#[local] Hint Extern 1 (keeps init_key (store_blob _ _)) =>
  apply keeps_store_blob; reflexivity : keeps.
#[local] Hint Extern 1 (keeps init_key (free_blob _)) =>
  apply keeps_modify; reflexivity : keeps.
#[local] Hint Extern 1 (keeps init_key (mexPrintf _ _)) =>
  apply keeps_mexPrintf; reflexivity : keeps.
#[local] Hint Extern 1 (keeps init_key (engine _)) =>
  apply keeps_engine; reflexivity : keeps.
#[local] Hint Extern 1 (keeps init_key (engine_try _ _)) =>
  apply keeps_engine_try; reflexivity : keeps.

Lemma keeps_key_scatter_loop entries :
  forall i cells blob_index d,
    keeps init_key (scatter_loop entries i cells blob_index d).
Proof.
  induction entries as [| e rest IH]; intros i cells blob_index d; simpl.
  - auto with keeps.
  - keeps_tac.
Qed.

#[local] Hint Resolve keeps_key_scatter_loop : keeps.

Lemma keeps_key_blob_set_data_multigpu prhs :
  keeps init_key (blob_set_data_multigpu prhs).
Proof. unfold blob_set_data_multigpu, cudaGetDevice. keeps_tac. Qed.

Lemma keeps_key_teststep_loop (FP : Net -> M unit) sync entries :
  (forall n, keeps init_key (FP n)) ->
  forall i d, keeps init_key (teststep_loop FP sync entries i d).
Proof.
  intros HFP. induction entries as [| e rest IH]; intros i d;
    cbn [teststep_loop].
  - auto with keeps.
  - keeps_tac.
Qed.

Lemma keeps_key_solver_teststep_multigpu (FP : Net -> M unit) prhs :
  (forall n, keeps init_key (FP n)) ->
  keeps init_key (solver_teststep_multigpu FP prhs).
Proof.
  intros HFP. unfold solver_teststep_multigpu, cudaGetDevice. keeps_tac.
  apply keeps_key_teststep_loop. exact HFP.
Qed.

Lemma keeps_key_get_solver_multigpu_gpus ids :
  keeps init_key (get_solver_multigpu_gpus ids).
Proof. unfold get_solver_multigpu_gpus. keeps_tac. Qed.

#[local] Hint Resolve keeps_key_get_solver_multigpu_gpus : keeps.

(** Unfolds the handlers of the table and settles what they keep. *)
Ltac keeps_handler :=
  unfold get_solver, get_solver_multigpu, get_solver_multigpu_args,
    resume_from, solver_get_attr, solver_get_iter, solver_restore,
    solver_solve, solver_step, solver_snapshot, get_net, net_get_attr,
    net_forward, net_backward, net_usage_check, net_copy_from, net_reshape,
    net_save, layer_get_attr, layer_get_type, blob_get_shape, blob_reshape,
    blob_get_data, blob_get_data_byname_multigpu, blob_set_data,
    blob_get_diff, blob_set_diff, set_mode_cpu, set_mode_gpu, set_device,
    get_init_key, read_mean, write_mean, init_log, cudaGetDevice;
  keeps_tac.

Lemma keeps_key_dispatch table cmd args :
  table_keeps_key table -> cmd <> "reset"%string ->
  keeps init_key (dispatch table cmd args).
Proof.
  intros Htable Hcmd. induction Htable as [| [name func] rest Hhd _ IH].
  - apply keeps_err.
  - cbn [dispatch]. destruct (String.eqb name cmd) eqn:E.
    + apply String.eqb_eq in E. subst name. apply Hhd. exact Hcmd.
    + exact IH.
Qed.

(** No handler of the table assigns the key, [reset] apart, whatever the
    engine does when it is called. *)
Lemma handlers_keep_key E : table_keeps_key (handlers E).
Proof.
  unfold table_keeps_key, handlers.
  repeat (apply Forall_cons; split; [ cbn [fst snd]; intros Hname args | ]);
    try (apply Forall_nil; exact I);
    try (contradiction Hname; reflexivity);
    first
      [ apply keeps_key_blob_set_data_multigpu
      | apply keeps_key_solver_teststep_multigpu; intros n;
        apply keeps_engine; reflexivity
      | apply keeps_blob_get_data_byname_multigpu; reflexivity
      | solve [ keeps_handler ] ].
Qed.

(** Given an argument, [reset] stops at its usage check. *)
Lemma reset_with_argument_run a args s :
  reset (a :: args) s = (MexError "Usage: caffe_('reset')", s).
Proof. reflexivity. Qed.

(** A key that is a draw of the random source is never the [-2] that
    [mexFunction] tests for, so only [caffe_('reset')] assigns it. *)
Lemma mexFunction_keeps_key E prhs s :
  init_key s <> -2 -> is_reset prhs = false ->
  init_key (snd (mexFunction E prhs s)) = init_key s.
Proof.
  intros Hkey Hreset.
  assert (Hdisp : forall cmd rest, prhs = mxChar cmd :: rest ->
            keeps init_key (dispatch (handlers E) cmd rest)).
  { intros cmd rest ->. destruct (String.eqb cmd "reset") eqn:Ecmd.
    - apply String.eqb_eq in Ecmd. subst cmd.
      destruct rest as [| a rest]; [ discriminate Hreset | ].
      change (dispatch (handlers E) "reset" (a :: rest))
        with (reset (a :: rest)).
      intros s0. rewrite reset_with_argument_run. reflexivity.
    - apply keeps_key_dispatch.
      + apply handlers_keep_key.
      + intros ->. discriminate Ecmd. }
  assert (Hrest : keeps init_key
            (mxCHECK (0 <? nrhs prhs)
               "Usage: caffe_(api_command, arg1, arg2, ...)" ;;;
             let* a0 := arg prhs 0 in
             let* cmd := deref (mxArrayToString a0) in
             dispatch (handlers E) cmd (tail prhs))).
  { destruct prhs as [| a rest].
    - keeps_tac.
    - apply keeps_bind; [ auto with keeps | intros _ ].
      change (arg (a :: rest) 0) with (@ret mxArray a). rewrite bind_ret_l.
      destruct a; cbn [mxArrayToString deref tail]; try solve [ keeps_tac ].
      rewrite bind_ret_l. apply (Hdisp _ _ eq_refl). }
  unfold mexFunction, bind at 1, gets at 1.
  destruct (init_key s =? -2) eqn:E0; [ lia | ].
  unfold bind at 1, ret at 1. apply Hrest.
Qed.

Lemma key_stable s s' :
  calls_without_reset s s' -> init_key s <> -2 -> init_key s' = init_key s.
Proof.
  induction 1 as [s | E prhs s s' Hreset _ IH]; intros Hkey.
  - reflexivity.
  - pose proof (mexFunction_keeps_key E prhs s Hkey Hreset) as Hstep.
    rewrite IH; [ exact Hstep | rewrite Hstep; exact Hkey ].
Qed.

Lemma ptr_to_handle_run p s :
  ptr_to_handle p s = (Returned (handle_of (p mod 2 ^ 64) (init_key s)), s).
Proof. reflexivity. Qed.

Lemma handle_to_ptr_run p k s :
  handle_to_ptr (handle_of p k) s =
  if k =? init_key s then (Returned p, s) else (MexError stale_handle_msg, s).
Proof.
  unfold handle_to_ptr, handle_of. cbn [mxGetField lookup list_lookup].
  replace (assoc "ptr" _) with
    (Some (mxNumeric mxUINT64_CLASS [1; 1] [p])) by reflexivity.
  replace (assoc "init_key" _) with (Some (mxCreateDoubleScalar k))
    by reflexivity.
  unfold bind, gets, deref, mxCHECK, ret, mexErrMsgTxt.
  cbn [mxIsUint64 mxIsClass mxClassID_eqb mxGetScalar mxCreateDoubleScalar].
  destruct (k =? init_key s); reflexivity.
Qed.

(** C8. Resolving the handle issued for an object returns the object's
    address: issuing succeeds, and in every state reached by calls of
    [mexFunction] other than [caffe_('reset')], whatever the command, its
    arguments and the engine behind it, the handle resolves to exactly
    that address. *)
Theorem resolve_issue_until_reset (s : State) (p : Z) :
  0 <= p < 2 ^ 64 -> init_key s <> -2 ->
  exists h,
    ptr_to_handle p s = (Returned h, s) /\
    forall s', calls_without_reset s s' ->
               handle_to_ptr h s' = (Returned p, s').
Proof.
  intros Hp Hkey. exists (handle_of (p mod 2 ^ 64) (init_key s)). split.
  - apply ptr_to_handle_run.
  - intros s' Hcalls. rewrite handle_to_ptr_run.
    rewrite (key_stable s s' Hcalls Hkey), Z.eqb_refl.
    rewrite Z.mod_small by exact Hp. reflexivity.
Qed.

Lemma resolve_issue_until_reset_witness :
  let s1 := snd (mexFunction idle_engine [mxChar "set_mode_gpu"] fresh_state) in
  let s2 :=
    snd (mexFunction idle_engine
           [mxChar "set_device"; mxNumeric mxDOUBLE_CLASS [1; 1] [0]] s1) in
  let s3 :=
    snd (mexFunction idle_engine
           [mxChar "get_net"; mxChar "deploy.prototxt"; mxChar "test"] s2) in
  let s4 := snd (mexFunction idle_engine [mxChar "reset"; mxChar "all"] s3) in
  handle_to_ptr (handle_of 4096 7) s4 = (Returned 4096, s4).
Proof.
  intros s1 s2 s3 s4.
  destruct (resolve_issue_until_reset fresh_state 4096) as [h [Hissue Hres]].
  - lia.
  - simpl. lia.
  - rewrite ptr_to_handle_run in Hissue. injection Hissue as <-.
    apply Hres.
    apply (next_call idle_engine [mxChar "set_mode_gpu"]);
      [ reflexivity | ].
    apply (next_call idle_engine
             [mxChar "set_device"; mxNumeric mxDOUBLE_CLASS [1; 1] [0]]);
      [ reflexivity | ].
    apply (next_call idle_engine
             [mxChar "get_net"; mxChar "deploy.prototxt"; mxChar "test"]);
      [ reflexivity | ].
    apply (next_call idle_engine [mxChar "reset"; mxChar "all"]);
      [ reflexivity | apply no_call ].
Defined.

Lemma reset_run s : reset [] s = (Returned [], after_reset s).
Proof. reflexivity. Qed.

Lemma mexFunction_reset E s :
  init_key s <> -2 ->
  mexFunction E [mxChar "reset"] s = (Returned [], after_reset s).
Proof.
  intros Hkey. unfold mexFunction, bind at 1, gets at 1.
  destruct (init_key s =? -2) eqn:E0; [ lia | ].
  rewrite bind_ret_l. rewrite <- reset_run. reflexivity.
Qed.

Lemma after_reset_key s :
  init_key (after_reset s) = rng_draws s (rng_calls s) mod 2 ^ 32.
Proof. reflexivity. Qed.

(** C1. The code at the failing input: the key in force is 7 and the
    random source draws 7 again.  [reset] goes through and assigns the
    draw as the new key, and the handle issued before the reset still
    resolves to its address afterwards: the new key has not made it
    invalid, against the comment at the assignment ("Generate new
    init_key, so that handles created before becomes invalid"). *)
Theorem reset_key_collision (E : Engine) :
  ptr_to_handle 4096 colliding_state
    = (Returned (handle_of 4096 7), colliding_state) /\
  fst (mexFunction E [mxChar "reset"] colliding_state) = Returned [] /\
  init_key (snd (mexFunction E [mxChar "reset"] colliding_state))
    = init_key colliding_state /\
  fst (handle_to_ptr (handle_of 4096 7)
         (snd (mexFunction E [mxChar "reset"] colliding_state)))
    = Returned 4096.
Proof. repeat split. Qed.

(** Whenever the draw differs from the key in force, [reset] does what
    its comment says: the new key is the draw, and a handle issued before
    the reset fails to resolve with the stale-handle error in every state
    between that reset and the next one, whatever the address it carries
    points to. *)
Lemma reset_orphans_handles (E : Engine) (s s1 : State) (p : Z) (h : mxArray) :
  init_key s <> -2 ->
  ptr_to_handle p s = (Returned h, s) ->
  calls_without_reset s s1 ->
  let s2 := snd (mexFunction E [mxChar "reset"] s1) in
  init_key s2 = rng_draws s1 (rng_calls s1) mod 2 ^ 32 /\
  (init_key s2 <> init_key s ->
   forall s3, calls_without_reset s2 s3 ->
              handle_to_ptr h s3 = (MexError stale_handle_msg, s3)).
Proof.
  intros Hkey Hissue Hcalls s2.
  assert (Hkey1 : init_key s1 <> -2)
    by (rewrite (key_stable s s1 Hcalls Hkey); exact Hkey).
  assert (Hs2 : s2 = after_reset s1)
    by (unfold s2; rewrite (mexFunction_reset E s1 Hkey1); reflexivity).
  assert (Hdraw : init_key s2 = rng_draws s1 (rng_calls s1) mod 2 ^ 32)
    by (rewrite Hs2; apply after_reset_key).
  split; [ exact Hdraw | ].
  intros Hfresh s3 Hlater.
  rewrite ptr_to_handle_run in Hissue. injection Hissue as <-.
  rewrite handle_to_ptr_run.
  assert (Hkey2 : init_key s2 <> -2).
  { rewrite Hdraw.
    pose proof (Z.mod_pos_bound (rng_draws s1 (rng_calls s1)) (2 ^ 32)). lia. }
  rewrite (key_stable s2 s3 Hlater Hkey2).
  destruct (init_key s =? init_key s2) eqn:E0; [ lia | reflexivity ].
Qed.

Example reset_orphans_handles_fresh :
  handle_to_ptr (handle_of 4096 7)
    (snd (mexFunction idle_engine [mxChar "reset"] fresh_state))
  = (MexError stale_handle_msg,
     snd (mexFunction idle_engine [mxChar "reset"] fresh_state)).
Proof.
  refine (proj2 (reset_orphans_handles idle_engine fresh_state fresh_state
                   4096 (handle_of 4096 7) _ _ _) _ _ _).
  - simpl. lia.
  - reflexivity.
  - apply no_call.
  - vm_compute. discriminate.
  - apply no_call.
Qed.

(** ** Marshalling *)

Lemma bind_run {A B} (m : M A) (k : A -> M B) s a s' :
  m s = (Returned a, s') -> bind m k s = k a s'.
Proof. intros H. unfold bind. rewrite H. reflexivity. Qed.

Lemma bind_err {A B} (m : M A) (k : A -> M B) s msg s' :
  m s = (MexError msg, s') -> bind m k s = (MexError msg, s').
Proof. intros H. unfold bind. rewrite H. reflexivity. Qed.

Lemma load_blob_run p b s :
  heap s !! p = Some b -> load_blob p s = (Returned b, s).
Proof.
  intros H. unfold load_blob, bind, gets. rewrite H. reflexivity.
Qed.

Lemma prod_dims_app l1 l2 : prod_dims (l1 ++ l2) = prod_dims l1 * prod_dims l2.
Proof.
  unfold prod_dims. induction l1 as [| d l1 IH]; simpl.
  - destruct (fold_right Z.mul 1 l2); reflexivity.
  - rewrite IH. ring.
Qed.

Lemma prod_dims_rev l : prod_dims (rev l) = prod_dims l.
Proof.
  induction l as [| d l IH]; simpl.
  - reflexivity.
  - rewrite prod_dims_app, IH. unfold prod_dims. simpl. ring.
Qed.

(** The axis loop writes the shape back to front. *)
Lemma axes_loop_rev shape :
  forall todo k,
    (todo + k = length shape)%nat ->
    axes_loop shape todo k (Z.of_nat (length shape) - 1 - Z.of_nat k)
      (replicate todo 0 ++ rev (take k shape)) = rev shape.
Proof.
  induction todo as [| t IH]; intros k Hlen.
  - simpl in *. subst k. rewrite firstn_all. reflexivity.
  - cbn [axes_loop].
    assert (Hk : (k < length shape)%nat) by lia.
    destruct (lookup_lt_is_Some_2 shape k Hk) as [x Hx].
    rewrite Hx. cbn [default].
    replace (Z.to_nat (Z.of_nat (length shape) - 1 - Z.of_nat k)) with t by lia.
    replace (Z.of_nat (length shape) - 1 - Z.of_nat k - 1)
      with (Z.of_nat (length shape) - 1 - Z.of_nat (S k)) by lia.
    rewrite replicate_S_end, <- app_assoc. cbn [app].
    replace (<[t:=x]> (replicate t 0 ++ 0 :: rev (take k shape)))
      with (replicate t 0 ++ rev (take (S k) shape)).
    + apply IH. lia.
    + rewrite (take_S_r shape k x Hx), rev_unit.
      pose proof (insert_app_r (replicate t 0) (0 :: rev (take k shape)) 0 x)
        as Hins.
      rewrite length_replicate, Nat.add_0_r in Hins. rewrite Hins. reflexivity.
Qed.

Lemma mat_dims_host_shape b : mat_dims b = host_shape (shape_ b).
Proof.
  unfold mat_dims, num_axes.
  pose proof (axes_loop_rev (shape_ b) (length (shape_ b)) 0) as H.
  rewrite take_0, app_nil_r, Z.sub_0_r in H.
  rewrite H by lia.
  destruct (shape_ b); reflexivity.
Qed.

Lemma prod_host_shape shape : prod_dims (host_shape shape) = prod_dims shape.
Proof.
  destruct shape as [| d l]; [ reflexivity | ].
  unfold host_shape. apply prod_dims_rev.
Qed.

Lemma bind_gets {A B} (g : State -> A) (k : A -> M B) s :
  bind (gets g) k s = k (g s) s.
Proof. reflexivity. Qed.

Lemma bind_modify {B} (g : State -> State) (k : unit -> M B) s :
  bind (modify g) k s = k tt (g s).
Proof. reflexivity. Qed.

Lemma caffe_copy_all N X Y :
  Z.of_nat (length X) = N -> N <= Z.of_nat (length Y) ->
  caffe_copy N X Y = Some (X ++ drop (length X) Y).
Proof.
  intros HX HY. unfold caffe_copy.
  replace (0 <=? N) with true by (symmetry; apply Z.leb_le; lia).
  replace (N <=? Z.of_nat (length X)) with true
    by (symmetry; apply Z.leb_le; lia).
  replace (N <=? Z.of_nat (length Y)) with true
    by (symmetry; apply Z.leb_le; lia).
  cbn [andb]. replace (Z.to_nat N) with (length X) by lia.
  rewrite firstn_all. reflexivity.
Qed.

Lemma mem_ok_for_write n mode m :
  mem_ok n m = true -> n <= Z.of_nat (length (mirror mode (for_write mode m))).
Proof.
  unfold mem_ok. intros H. apply andb_prop in H as [Hc Hg].
  apply Z.leb_le in Hc, Hg.
  destruct mode, m as [c g []]; cbn in *;
    rewrite ?length_replicate; lia.
Qed.

Lemma mem_ok_for_read n mode m :
  mem_ok n m = true -> n <= Z.of_nat (length (mirror mode (for_read mode m))).
Proof.
  unfold mem_ok. intros H. apply andb_prop in H as [Hc Hg].
  apply Z.leb_le in Hc, Hg.
  destruct mode, m as [c g []]; cbn in *;
    rewrite ?length_replicate; lia.
Qed.

Lemma for_read_written mode buf m :
  for_read mode (set_mirror mode buf (for_write mode m))
  = set_mirror mode buf (for_write mode m).
Proof. destruct mode, m as [c g []]; reflexivity. Qed.

Lemma mirror_set_mirror mode buf m : mirror mode (set_mirror mode buf m) = buf.
Proof. destruct mode; reflexivity. Qed.

Lemma plane_set_plane w m b : plane w (set_plane w m b) = m.
Proof. destruct w; reflexivity. Qed.

Lemma shape_set_plane w m b : shape_ (set_plane w m b) = shape_ b.
Proof. destruct w; reflexivity. Qed.

Lemma blob_ok_planes w b :
  blob_ok b = true -> 0 <= count b /\ mem_ok (count b) (plane w b) = true.
Proof.
  unfold blob_ok. intros H.
  apply andb_prop in H as [H Hdiff]. apply andb_prop in H as [Hpos Hdata].
  apply Z.leb_le in Hpos. destruct w; auto.
Qed.

Lemma mx_mat_to_blob_run s T b dims data w :
  heap s !! T = Some b ->
  blob_ok b = true ->
  mx_wf (mxNumeric mxSINGLE_CLASS dims data) = true ->
  mxGetNumberOfElements (mxNumeric mxSINGLE_CLASS dims data) = count b ->
  mx_mat_to_blob (mxNumeric mxSINGLE_CLASS dims data) T w s
  = (Returned tt,
     set_heap (<[T := written (Caffe_mode s) w data b]> (heap s)) s).
Proof.
  intros Hlive Hok Hwf Hcount.
  cbn [mx_wf mxGetNumberOfElements] in Hwf, Hcount. apply Z.eqb_eq in Hwf.
  destruct (blob_ok_planes w b Hok) as [_ Hmem].
  unfold mx_mat_to_blob.
  rewrite (bind_run _ _ _ _ _ (load_blob_run T b s Hlive)).
  cbn [mxGetNumberOfElements]. rewrite Hcount, Z.eqb_refl.
  cbn [mxCHECK]. rewrite bind_ret_l.
  cbn [mxGetData_float deref]. rewrite bind_ret_l, bind_gets.
  change (match Caffe_mode s with
          | CPU => mutable_cpu (plane w b)
          | GPU => mutable_gpu (plane w b)
          end) with (for_write (Caffe_mode s) (plane w b)).
  cbv zeta. unfold store_blob at 1. rewrite bind_modify.
  rewrite (caffe_copy_all (count b) data
             (mirror (Caffe_mode s) (for_write (Caffe_mode s) (plane w b))))
    by (try apply mem_ok_for_write; congruence).
  cbn [deref]. rewrite bind_ret_l. unfold store_blob, modify.
  cbn [heap set_heap]. rewrite insert_insert_eq. reflexivity.
Qed.

Lemma blob_to_mx_mat_run s T b w :
  heap s !! T = Some b ->
  blob_ok b = true ->
  let m := for_read (Caffe_mode s) (plane w b) in
  blob_to_mx_mat T w s
  = (Returned (mxNumeric mxSINGLE_CLASS (host_shape (shape_ b))
                 (take (Z.to_nat (count b)) (mirror (Caffe_mode s) m))),
     set_heap (<[T := set_plane w m b]> (heap s)) s).
Proof.
  intros Hlive Hok m.
  destruct (blob_ok_planes w b Hok) as [Hpos Hmem].
  pose proof (mem_ok_for_read _ (Caffe_mode s) _ Hmem) as Hlen.
  unfold blob_to_mx_mat.
  rewrite (bind_run _ _ _ _ _ (load_blob_run T b s Hlive)).
  cbv zeta. cbn [mxCreateNumericArray mxGetData_float deref].
  rewrite bind_ret_l, bind_gets.
  change (match Caffe_mode s with
          | CPU => to_cpu (plane w b)
          | GPU => to_gpu (plane w b)
          end) with m.
  unfold store_blob at 1. rewrite bind_modify.
  rewrite mat_dims_host_shape, prod_host_shape. fold (count b).
  unfold caffe_copy.
  replace (0 <=? count b) with true by (symmetry; apply Z.leb_le; lia).
  replace (count b <=? Z.of_nat (length (mirror (Caffe_mode s) m)))
    with true by (symmetry; apply Z.leb_le; exact Hlen).
  rewrite length_replicate.
  replace (count b <=? Z.of_nat (Z.to_nat (count b))) with true
    by (symmetry; apply Z.leb_le; lia).
  cbn [andb deref]. rewrite bind_ret_l.
  rewrite drop_replicate, Nat.sub_diag. cbn [replicate].
  rewrite app_nil_r. reflexivity.
Qed.

Lemma mem_ok_written n mode buf m :
  mem_ok n m = true -> n <= Z.of_nat (length buf) ->
  mem_ok n (set_mirror mode buf (for_write mode m)) = true.
Proof.
  unfold mem_ok. intros H Hbuf. apply andb_prop in H as [Hc Hg].
  apply Z.leb_le in Hc, Hg. apply andb_true_intro.
  destruct mode, m as [c g []]; cbn in *; rewrite ?length_replicate;
    split; apply Z.leb_le; lia.
Qed.

Lemma blob_ok_written mode w data b :
  blob_ok b = true -> Z.of_nat (length data) = count b ->
  blob_ok (written mode w data b) = true.
Proof.
  intros Hok Hlen.
  destruct (blob_ok_planes w b Hok) as [Hpos Hmem].
  assert (Hw : mem_ok (count b)
                 (set_mirror mode
                    (data ++ drop (length data)
                               (mirror mode (for_write mode (plane w b))))
                    (for_write mode (plane w b))) = true).
  { apply mem_ok_written; [ exact Hmem | ].
    rewrite length_app. lia. }
  unfold blob_ok in *. apply andb_prop in Hok as [Hok Hdiff].
  apply andb_prop in Hok as [Hp Hdata].
  unfold written, count in *.
  destruct w; cbn [set_plane shape_ data_ diff_ plane] in *;
    rewrite Hp, ?Hw, ?Hdata, ?Hdiff; reflexivity.
Qed.

(** C2, as stated, fails on a blob without axes: the array read back has
    the declared shape [1], which is not the reverse of the empty shape. *)
Lemma roundtrip_shape_of_scalar :
  mxGetNumberOfElements (mxNumeric mxSINGLE_CLASS [1] [5]) = count scalar_blob /\
  fst (blob_to_mx_mat 16 DATA
         (snd (mx_mat_to_blob (mxNumeric mxSINGLE_CLASS [1] [5]) 16 DATA
                 scalar_state)))
    = Returned (mxNumeric mxSINGLE_CLASS [1] [5]) /\
  [1] <> rev (shape_ scalar_blob).
Proof. split; [ reflexivity | split; [ reflexivity | discriminate ] ]. Qed.

(** C2, amended. Writing a single array with as many elements as the blob
    counts and reading the plane back returns the same elements in the same
    order; the blob then holds them as its leading elements in that order (a
    flat copy); the declared shape of the array read back is the reverse of
    the blob's shape when the blob has an axis, and [1] when it has none. *)
Theorem marshal_roundtrip (s : State) (T : Z) (b : Blob) (dims data : list Z)
  (w : WhichMemory) :
  heap s !! T = Some b ->
  blob_ok b = true ->
  mx_wf (mxNumeric mxSINGLE_CLASS dims data) = true ->
  mxGetNumberOfElements (mxNumeric mxSINGLE_CLASS dims data) = count b ->
  exists s1 s2 b1,
    mx_mat_to_blob (mxNumeric mxSINGLE_CLASS dims data) T w s
      = (Returned tt, s1) /\
    heap s1 !! T = Some b1 /\
    shape_ b1 = shape_ b /\
    take (length data) (mirror (Caffe_mode s1) (plane w b1)) = data /\
    blob_to_mx_mat T w s1
      = (Returned
           (mxNumeric mxSINGLE_CLASS
              (match shape_ b with
               | [] => [1]
               | _ :: _ => rev (shape_ b)
               end) data), s2).
Proof.
  intros Hlive Hok Hwf Hcount.
  pose proof (mx_mat_to_blob_run s T b dims data w Hlive Hok Hwf Hcount)
    as Hwrite.
  cbn [mx_wf mxGetNumberOfElements] in Hwf, Hcount. apply Z.eqb_eq in Hwf.
  assert (Hlen : Z.of_nat (length data) = count b) by congruence.
  set (b1 := written (Caffe_mode s) w data b) in *.
  set (s1 := set_heap (<[T:=b1]> (heap s)) s) in *.
  assert (Hlive1 : heap s1 !! T = Some b1) by apply lookup_insert_eq.
  assert (Hok1 : blob_ok b1 = true) by (apply blob_ok_written; assumption).
  assert (Hshape : shape_ b1 = shape_ b) by apply shape_set_plane.
  assert (Hmirror : mirror (Caffe_mode s) (plane w b1)
                    = data ++ drop (length data)
                        (mirror (Caffe_mode s)
                           (for_write (Caffe_mode s) (plane w b)))).
  { unfold b1, written. rewrite plane_set_plane, mirror_set_mirror.
    reflexivity. }
  pose proof (blob_to_mx_mat_run s1 T b1 w Hlive1 Hok1) as Hread.
  cbv zeta in Hread.
  change (Caffe_mode s1) with (Caffe_mode s) in *.
  assert (Hsync : for_read (Caffe_mode s) (plane w b1) = plane w b1).
  { unfold b1, written. rewrite plane_set_plane. apply for_read_written. }
  rewrite Hsync, Hmirror in Hread.
  replace (Z.to_nat (count b1)) with (length data) in Hread
    by (unfold count in *; rewrite Hshape; lia).
  rewrite take_app_length, Hshape in Hread.
  eexists s1, _, b1. split; [ exact Hwrite | ].
  split; [ exact Hlive1 | ]. split; [ exact Hshape | ].
  split.
  { change (Caffe_mode s1) with (Caffe_mode s). rewrite Hmirror.
    apply take_app_length. }
  exact Hread.
Qed.

Lemma marshal_roundtrip_witness :
  exists s1 s2 b1,
    mx_mat_to_blob (mxNumeric mxSINGLE_CLASS [2; 2; 3; 4] (seqZ 1 48)) 32 DIFF
      nchw_state = (Returned tt, s1) /\
    heap s1 !! 32 = Some b1 /\
    shape_ b1 = [4; 3; 2; 2] /\
    take 48 (mirror (Caffe_mode s1) (plane DIFF b1)) = seqZ 1 48 /\
    blob_to_mx_mat 32 DIFF s1
      = (Returned (mxNumeric mxSINGLE_CLASS [2; 2; 3; 4] (seqZ 1 48)), s2).
Proof.
  apply (marshal_roundtrip nchw_state 32 nchw_blob [2; 2; 3; 4] (seqZ 1 48)
           DIFF); reflexivity.
Defined.

(** C7. When the element counts differ, [mx_mat_to_blob] raises the
    size-mismatch error and the state, the blob's buffers included, is as
    it was. *)
Theorem size_mismatch_rejected (s : State) (T : Z) (b : Blob) (A : mxArray)
  (w : WhichMemory) :
  heap s !! T = Some b ->
  mxGetNumberOfElements A <> count b ->
  mx_mat_to_blob A T w s = (MexError size_mismatch_msg, s).
Proof.
  intros Hlive Hcount. unfold mx_mat_to_blob.
  rewrite (bind_run _ _ _ _ _ (load_blob_run T b s Hlive)).
  destruct (count b =? mxGetNumberOfElements A) eqn:E.
  - apply Z.eqb_eq in E. congruence.
  - reflexivity.
Qed.

Lemma size_mismatch_rejected_witness :
  mx_mat_to_blob (mxNumeric mxSINGLE_CLASS [5; 1] [1; 2; 3; 4; 5]) 32 DATA
    nchw_state = (MexError size_mismatch_msg, nchw_state).
Proof.
  apply (size_mismatch_rejected nchw_state 32 nchw_blob).
  - reflexivity.
  - vm_compute. discriminate.
Defined.

(** C9. Reading a blob without axes yields an array whose declared shape
    is the single dimension 1 and which holds exactly one element. *)
Theorem scalar_blob_to_host (s : State) (T : Z) (b : Blob) (w : WhichMemory) :
  heap s !! T = Some b ->
  blob_ok b = true ->
  shape_ b = [] ->
  exists v s',
    blob_to_mx_mat T w s = (Returned (mxNumeric mxSINGLE_CLASS [1] [v]), s').
Proof.
  intros Hlive Hok Hshape.
  pose proof (blob_to_mx_mat_run s T b w Hlive Hok) as Hread.
  cbv zeta in Hread.
  destruct (blob_ok_planes w b Hok) as [_ Hmem].
  pose proof (mem_ok_for_read _ (Caffe_mode s) _ Hmem) as Hlen.
  unfold count in *. rewrite Hshape in *. cbn in Hlen, Hread.
  destruct (mirror (Caffe_mode s) (for_read (Caffe_mode s) (plane w b)))
    as [| v rest]; [ cbn in Hlen; lia | ].
  exists v. eexists. exact Hread.
Qed.

Lemma scalar_blob_to_host_witness :
  exists v s',
    blob_to_mx_mat 16 DATA scalar_state
      = (Returned (mxNumeric mxSINGLE_CLASS [1] [v]), s').
Proof.
  apply (scalar_blob_to_host scalar_state 16 scalar_blob DATA); reflexivity.
Defined.


(** ** Fan-out over the replicas *)

Lemma bind_returned {A B} (m : M A) (k : A -> M B) s b s' :
  bind m k s = (Returned b, s') ->
  exists a s1, m s = (Returned a, s1) /\ k a s1 = (Returned b, s').
Proof.
  unfold bind. destruct (m s) as [[a | msg |] s1]; intros H;
    [ eauto | discriminate | discriminate ].
Qed.

Lemma cudaSetDevice_returned d s s' :
  cudaSetDevice d s = (Returned tt, s') -> cuda_device s' = d.
Proof.
  unfold cudaSetDevice. rewrite bind_gets.
  destruct ((0 <=? d) && (d <? cuda_device_count s)); intros H.
  - injection H as <-. reflexivity.
  - discriminate.
Qed.

(** When the loop over the further replicas returns, the device is the one
    that was current before. *)
Lemma scatter_loop_returned entries :
  forall i cells blob_index d s s',
    cuda_device s = d ->
    scatter_loop entries i cells blob_index d s = (Returned tt, s') ->
    cuda_device s' = d.
Proof.
  induction entries as [| e rest IH]; intros i cells blob_index d s s' Hd Hrun.
  - injection Hrun as <-. exact Hd.
  - cbn [scatter_loop] in Hrun.
    apply bind_returned in Hrun as (sv & s1 & _ & Hrun).
    apply bind_returned in Hrun as (blob & s2 & _ & Hrun).
    apply bind_returned in Hrun as (elem & s3 & _ & Hrun).
    apply bind_returned in Hrun as (_ & s4 & _ & Hrun).
    apply bind_returned in Hrun as (_ & s5 & _ & Hrun).
    apply bind_returned in Hrun as (_ & s6 & _ & Hrun).
    apply bind_returned in Hrun as ([] & s7 & Hback & Hrun).
    apply cudaSetDevice_returned in Hback.
    exact (IH _ _ _ _ _ _ Hback Hrun).
Qed.

(** On the path where it returns, [blob_set_data_multigpu] leaves the
    device current that was current at the call. *)
Lemma scatter_restores_on_return prhs s r s' :
  blob_set_data_multigpu prhs s = (Returned r, s') ->
  cuda_device s' = cuda_device s.
Proof.
  unfold blob_set_data_multigpu. intros Hrun.
  apply bind_returned in Hrun as (u1 & s1 & H1 & Hrun).
  apply bind_returned in Hrun as (sp & s2 & H2 & Hrun).
  apply bind_returned in Hrun as (u2 & s3 & H3 & Hrun).
  apply bind_returned in Hrun as (sync & s4 & H4 & Hrun).
  apply bind_returned in Hrun as (a0 & s5 & H5 & Hrun).
  apply bind_returned in Hrun as (a1 & s6 & H6 & Hrun).
  apply bind_returned in Hrun as (raw & s7 & H7 & Hrun).
  cbv zeta in Hrun.
  apply bind_returned in Hrun as (u3 & s8 & H8 & Hrun).
  apply bind_returned in Hrun as (elem & s9 & H9 & Hrun).
  apply bind_returned in Hrun as (u4 & s10 & H10 & Hrun).
  apply bind_returned in Hrun as (blob & s11 & H11 & Hrun).
  apply bind_returned in Hrun as (u5 & s12 & H12 & Hrun).
  apply bind_returned in Hrun as (d & s13 & H13 & Hrun).
  apply bind_returned in Hrun as ([] & s14 & H14 & Hrun).
  injection Hrun as _ <-.
  injection H13 as <- <-.
  rewrite (scatter_loop_returned _ _ _ _ _ _ _ eq_refl H14).
  assert (Hk : forall {A} (m : M A) a t t',
             keeps cuda_device m -> m t = (a, t') ->
             cuda_device t' = cuda_device t).
  { intros A m a t t' Hm E. specialize (Hm t). rewrite E in Hm. exact Hm. }
  rewrite (Hk _ _ _ _ _ (keeps_mx_mat_to_blob cuda_device
                           (fun _ _ => eq_refl) _ _ _) H12).
  rewrite (Hk _ _ _ _ _ (keeps_deref _ _) H11).
  rewrite (Hk _ _ _ _ _ (keeps_mxCHECK _ _ _) H10).
  rewrite (Hk _ _ _ _ _ (keeps_deref _ _) H9).
  assert (E8 : cuda_device s8 = cuda_device s7).
  { destruct (mxGetNumberOfElements a1 =? _); [ | discriminate ].
    injection H8 as _ <-. reflexivity. }
  rewrite E8.
  rewrite (Hk _ _ _ _ _ (keeps_deref _ _) H7).
  rewrite (Hk _ _ _ _ _ (keeps_arg _ _ _) H6).
  rewrite (Hk _ _ _ _ _ (keeps_arg _ _ _) H5).
  rewrite (Hk _ _ _ _ _ (keeps_deref _ _) H4).
  rewrite (Hk _ _ _ _ _ (keeps_mxCHECK _ _ _) H3).
  rewrite (Hk _ _ _ _ _ (keeps_gets _ _) H2).
  rewrite (Hk _ _ _ _ _ (keeps_mxCHECK _ _ _) H1).
  reflexivity.
Qed.

(** [blob_get_data_byname_multigpu] never selects a device. *)
Lemma gather_keeps_device prhs :
  keeps cuda_device (blob_get_data_byname_multigpu prhs).
Proof. apply keeps_blob_get_data_byname_multigpu; reflexivity. Qed.

(** C3. The code at the failing input: the write for the peer raises the
    size-mismatch error after the peer's device was selected and before
    the caller's device is selected again, so the call ends with device 1
    current although device 0 was current when it began. *)
Theorem scatter_error_leaves_peer_device (E : Engine) :
  cuda_device pair_state = 0 /\
  fst (mexFunction E uneven_scatter pair_state) = MexError size_mismatch_msg /\
  cuda_device (snd (mexFunction E uneven_scatter pair_state)) = 1.
Proof. split; [ reflexivity | split; reflexivity ]. Qed.

(** C10. Without a replica set ([sync_ptr] null) the scatter command ends
    with an error message, the usage message or the multi-GPU one, and with
    the state untouched: the null pointer is never dereferenced.  With a
    replica set, a host index [k] from 1 up selects position [k - 1] of
    each replica's blob vector, for the root and in the loop over the
    peers. *)
Theorem scatter_guard_and_index :
  (forall prhs s,
     sync_ptr s = None ->
     blob_set_data_multigpu prhs s
     = (MexError (if scatter_usage_ok prhs then no_multigpu_msg
                  else scatter_usage_msg), s)) /\
  (forall s sync k idims cells elem,
     sync_ptr s = Some sync ->
     1 <= k < 2 ^ 32 ->
     length cells = length (get_syncs sync) ->
     cells !! 0%nat = Some (Some elem) ->
     mxIsSingle elem = true ->
     blob_set_data_multigpu
       [mxNumeric mxUINT32_CLASS idims [k]; mxCell cells] s
     = (let* blob := deref (blobs (net (solver sync)) !! Z.to_nat (k - 1)) in
        mx_mat_to_blob elem blob DATA ;;;
        let* initial_device := cudaGetDevice in
        scatter_loop (drop 1 (get_syncs sync)) 1 (mxCell cells) (k - 1)
          initial_device ;;;
        ret []) s).
Proof.
  split.
  - intros prhs s Hnull. unfold blob_set_data_multigpu.
    fold (scatter_usage_ok prhs).
    destruct (scatter_usage_ok prhs); cbn [mxCHECK].
    + rewrite bind_ret_l, bind_gets, Hnull. reflexivity.
    + reflexivity.
  - intros s sync k idims cells elem Hsync Hk Hlen Hcell Hsingle.
    unfold blob_set_data_multigpu.
    cbn [mxIsUint32 mxIsClass mxClassID_eqb mxIsCell andb mxCHECK].
    rewrite bind_ret_l, bind_gets, Hsync.
    cbn [not_null mxCHECK deref]. rewrite !bind_ret_l.
    change (arg [mxNumeric mxUINT32_CLASS idims [k]; mxCell cells] 0)
      with (@ret mxArray (mxNumeric mxUINT32_CLASS idims [k])).
    change (arg [mxNumeric mxUINT32_CLASS idims [k]; mxCell cells] 1)
      with (@ret mxArray (mxCell cells)).
    rewrite !bind_ret_l. cbn [mxGetScalar deref]. rewrite bind_ret_l.
    cbv zeta. cbn [mxGetNumberOfElements].
    rewrite Hlen, Z.eqb_refl, bind_ret_l.
    unfold mxGetCell at 1. rewrite Hcell.
    change (deref (mjoin (Some (Some elem)))) with (@ret mxArray elem).
    rewrite bind_ret_l, Hsingle. cbn [mxCHECK]. rewrite bind_ret_l.
    rewrite (Z.mod_small (k - 1) (2 ^ 32)) by lia.
    reflexivity.
Qed.

Lemma scatter_guard_and_index_witness :
  blob_set_data_multigpu
    [mxNumeric mxUINT32_CLASS [1; 1] [1]; mxCell []] fresh_state
  = (MexError no_multigpu_msg, fresh_state) /\
  blob_set_data_multigpu
    [mxNumeric mxUINT32_CLASS [1; 1] [1];
     mxCell [ Some (mxNumeric mxSINGLE_CLASS [2] [1; 2]);
              Some (mxNumeric mxSINGLE_CLASS [2] [3; 4]) ]] pair_state
  = (let* blob := deref (blobs (net root_solver) !! 0%nat) in
     mx_mat_to_blob (mxNumeric mxSINGLE_CLASS [2] [1; 2]) blob DATA ;;;
     let* initial_device := cudaGetDevice in
     scatter_loop [Some peer_solver] 1
       (mxCell [ Some (mxNumeric mxSINGLE_CLASS [2] [1; 2]);
                 Some (mxNumeric mxSINGLE_CLASS [2] [3; 4]) ]) 0
       initial_device ;;;
     ret []) pair_state.
Proof.
  split.
  - apply (proj1 scatter_guard_and_index
             [mxNumeric mxUINT32_CLASS [1; 1] [1]; mxCell []] fresh_state).
    reflexivity.
  - apply (proj2 scatter_guard_and_index pair_state
             (mkP2PSync root_solver [None; Some peer_solver]) 1 [1; 1]
             [ Some (mxNumeric mxSINGLE_CLASS [2] [1; 2]);
               Some (mxNumeric mxSINGLE_CLASS [2] [3; 4]) ]
             (mxNumeric mxSINGLE_CLASS [2] [1; 2])).
    + reflexivity.
    + lia.
    + reflexivity.
    + reflexivity.
    + reflexivity.
Defined.

(** The host index 0 wraps to the largest unsigned value and falls outside
    every blob vector; after a successful scatter each replica's blob at
    position [k - 1] holds the array of its cell. *)
Example scatter_index_zero :
  fst (blob_set_data_multigpu
         [mxNumeric mxUINT32_CLASS [1; 1] [0];
          mxCell [ Some (mxNumeric mxSINGLE_CLASS [2] [1; 2]);
                   Some (mxNumeric mxSINGLE_CLASS [2] [3; 4]) ]] pair_state)
  = Crashed.
Proof. reflexivity. Qed.

Example scatter_pair :
  let s' := snd (blob_set_data_multigpu
                   [mxNumeric mxUINT32_CLASS [1; 1] [1];
                    mxCell [ Some (mxNumeric mxSINGLE_CLASS [2] [1; 2]);
                             Some (mxNumeric mxSINGLE_CLASS [2] [3; 4]) ]]
                   pair_state) in
  (gpu_ptr_ ∘ data_) <$> heap s' !! 100 = Some [1; 2] /\
  (gpu_ptr_ ∘ data_) <$> heap s' !! 200 = Some [3; 4] /\
  cuda_device s' = 0.
Proof. split; [ reflexivity | split; reflexivity ]. Qed.


(** ** Device selection of the multi-GPU build *)

Lemma int_of_double_id d : - 2 ^ 31 <= d < 2 ^ 31 -> int_of_double d = d.
Proof.
  intros [Hlo Hhi]. unfold int_of_double.
  replace (- 2 ^ 31 <=? d) with true by (symmetry; apply Z.leb_le; exact Hlo).
  replace (d <? 2 ^ 31) with true by (symmetry; apply Z.ltb_lt; exact Hhi).
  reflexivity.
Qed.

(** The conversion never takes a value from below the top of the [int]
    range to below itself. *)
Lemma int_of_double_above d : d < 2 ^ 31 -> d <= int_of_double d.
Proof.
  intros Hhi. unfold int_of_double.
  destruct (- 2 ^ 31 <=? d) eqn:Elo; cbn [andb].
  - replace (d <? 2 ^ 31) with true by (symmetry; apply Z.ltb_lt; exact Hhi).
    lia.
  - apply Z.leb_gt in Elo. lia.
Qed.

Lemma gpus_loop_above count ids :
  forall gpus s,
    Exists (fun d => count <= d < 2 ^ 31) ids ->
    gpus_loop count ids gpus s = (MexError bad_device_msg, s).
Proof.
  induction ids as [| d rest IH]; intros gpus s Hex.
  - inversion Hex.
  - cbn [gpus_loop]. cbv zeta. destruct (count <=? int_of_double d) eqn:E.
    + reflexivity.
    + rewrite bind_ret_l. apply IH.
      apply Exists_cons in Hex as [Hd | Hrest]; [ | exact Hrest ].
      apply Z.leb_gt in E.
      pose proof (int_of_double_above d (proj2 Hd)). lia.
Qed.

Lemma gpus_loop_below count ids :
  forall gpus s,
    Forall (fun d => - 2 ^ 31 <= d < 2 ^ 31 /\ d < count) ids ->
    gpus_loop count ids gpus s = (Returned (gpus ++ ids), s).
Proof.
  induction ids as [| d rest IH]; intros gpus s Hall.
  - cbn [gpus_loop]. rewrite app_nil_r. reflexivity.
  - apply Forall_cons in Hall as [[Hint Hd] Hrest].
    cbn [gpus_loop]. cbv zeta. rewrite (int_of_double_id d Hint).
    replace (count <=? d) with false
      by (symmetry; apply Z.leb_gt; exact Hd).
    rewrite bind_ret_l, (IH _ _ Hrest), <- app_assoc. reflexivity.
Qed.

(** An id at or above the device count, and within the range of [int],
    stops the build with the invalid-device message before anything else
    has happened. *)
Lemma device_above_count_rejected ids s :
  Exists (fun d => cuda_device_count s <= d < 2 ^ 31) ids ->
  get_solver_multigpu_gpus ids s = (MexError bad_device_msg, s).
Proof.
  intros Hex. unfold get_solver_multigpu_gpus. rewrite bind_gets.
  apply bind_err. apply gpus_loop_above. exact Hex.
Qed.

(** Ids below the device count pass the loop, negative ones included: the
    loop compares against the count only. *)
Lemma device_below_count_accepted ids s :
  Forall (fun d => - 2 ^ 31 <= d < 2 ^ 31 /\ d < cuda_device_count s) ids ->
  gpus_loop (cuda_device_count s) ids [] s = (Returned ids, s).
Proof. intros Hall. apply (gpus_loop_below _ _ [] s Hall). Qed.

(** C6. The code at the failing input: with one device, the list [0; -1]
    names a device below 0, yet the set-up raises no error; it selects
    device 0, switches to GPU mode and hands the list, -1 included, on to
    the construction of the replicas. *)
Theorem negative_device_accepted :
  cuda_device_count fresh_state = 1 /\
  fst (get_solver_multigpu_gpus [0; -1] fresh_state) = Returned [0; -1] /\
  Caffe_mode (snd (get_solver_multigpu_gpus [0; -1] fresh_state)) = GPU.
Proof. split; [ reflexivity | split; reflexivity ]. Qed.


(** ** Fan-in over the replicas *)

Lemma index_of_lt name names :
  forall j, index_of name names = Some j -> (j < length names)%nat.
Proof.
  induction names as [| n rest IH]; intros j H; cbn [index_of] in H.
  - discriminate.
  - destruct (String.eqb n name).
    + injection H as <-. cbn. lia.
    + destruct (index_of name rest) as [j' |]; [ | discriminate ].
      injection H as <-. specialize (IH j' eq_refl). cbn. lia.
Qed.

Lemma mem_ok_for_read_plane n mode m :
  mem_ok n m = true -> mem_ok n (for_read mode m) = true.
Proof.
  unfold mem_ok. intros H. apply andb_prop in H as [Hc Hg].
  apply Z.leb_le in Hc, Hg. apply andb_true_intro.
  destruct mode, m as [c g []]; cbn in *; rewrite ?length_replicate;
    split; apply Z.leb_le; lia.
Qed.

Lemma blob_ok_for_read mode w b :
  blob_ok b = true ->
  blob_ok (set_plane w (for_read mode (plane w b)) b) = true.
Proof.
  intros Hok.
  destruct (blob_ok_planes w b Hok) as [_ Hmem].
  pose proof (mem_ok_for_read_plane _ mode _ Hmem) as Hr.
  unfold blob_ok in *. apply andb_prop in Hok as [Hok Hdiff].
  apply andb_prop in Hok as [Hp Hdata]. unfold count in *.
  destruct w; cbn [set_plane shape_ data_ diff_ plane] in *;
    rewrite Hp, ?Hr, ?Hdata, ?Hdiff; reflexivity.
Qed.

Lemma blob_live_ok_insert h p b q :
  blob_ok b = true -> blob_live_ok h q = true ->
  blob_live_ok (<[p := b]> h) q = true.
Proof.
  intros Hb Hq. unfold blob_live_ok in *.
  destruct (decide (p = q)) as [-> | Hne].
  - rewrite lookup_insert_eq. exact Hb.
  - rewrite lookup_insert_ne by exact Hne. exact Hq.
Qed.

Lemma replica_ok_insert h p b e :
  blob_ok b = true -> replica_ok h e = true ->
  replica_ok (<[p := b]> h) e = true.
Proof.
  intros Hb. destruct e as [sv |]; [ | intros H; exact H ].
  unfold replica_ok, net_ok. intros H. apply andb_prop in H as [Hall Hlen].
  apply andb_true_intro. split; [ | exact Hlen ].
  rewrite forallb_forall in *. intros q Hq.
  apply blob_live_ok_insert; auto.
Qed.

Lemma replicas_ok_insert h p b es :
  blob_ok b = true -> forallb (replica_ok h) es = true ->
  forallb (replica_ok (<[p := b]> h)) es = true.
Proof.
  intros Hb. rewrite !forallb_forall. intros H e He.
  apply replica_ok_insert; auto.
Qed.

(** In a sound net a name that is known leads to a live, sound blob. *)
Lemma blob_by_name_found h n name j :
  net_ok h n = true -> index_of name (blob_names n) = Some j ->
  exists p b, blobs n !! j = Some p /\ h !! p = Some b /\ blob_ok b = true.
Proof.
  unfold net_ok. intros H Hj. apply andb_prop in H as [Hall Hlen].
  apply Nat.leb_le in Hlen. apply index_of_lt in Hj.
  destruct (lookup_lt_is_Some_2 (blobs n) j) as [p Hp]; [ lia | ].
  rewrite forallb_forall in Hall.
  assert (Hin : In p (blobs n)).
  { apply list_elem_of_In. apply list_elem_of_lookup. eauto. }
  specialize (Hall p Hin). unfold blob_live_ok in Hall.
  destruct (h !! p) as [b |] eqn:Hb; [ | discriminate ].
  eauto.
Qed.

Lemma gather_loop_unknown sync name entries :
  forall i top s,
    forallb (replica_ok (heap s)) (replicas_from sync i entries) = true ->
    existsb (lacks name) (replicas_from sync i entries) = true ->
    exists s',
      gather_loop sync entries i (Some name) top s
      = (MexError (unknown_blob_msg name), s').
Proof.
  induction entries as [| e rest IH]; intros i top s Hok Hlack.
  - discriminate Hlack.
  - cbn [replicas_from forallb existsb] in Hok, Hlack.
    apply andb_prop in Hok as [Hhd Hrest].
    set (e' := if Nat.eqb i 0 then Some (solver sync) else e) in *.
    destruct e' as [sv |] eqn:Ee'; [ | discriminate Hhd ].
    cbn [gather_loop].
    assert (Hsv : (if Nat.eqb i 0 then ret (solver sync) else deref e)
                  = @ret Solver sv).
    { unfold e' in Ee'. destruct (Nat.eqb i 0).
      - injection Ee' as ->. reflexivity.
      - rewrite Ee'. reflexivity. }
    rewrite Hsv, bind_ret_l. cbn [deref]. rewrite bind_ret_l.
    cbn [replica_ok lacks] in Hhd, Hlack.
    unfold blob_by_name.
    destruct (index_of name (blob_names (net sv))) as [j |] eqn:Ej.
    + destruct (blob_by_name_found _ _ _ _ Hhd Ej) as (p & b & Hp & Hb & Hbok).
      rewrite Hp. cbn [deref]. rewrite bind_ret_l.
      rewrite (bind_run _ _ _ _ _ (blob_to_mx_mat_run s p b DATA Hb Hbok)).
      apply IH.
      * cbn [heap set_heap]. apply replicas_ok_insert; [ | exact Hrest ].
        apply blob_ok_for_read. exact Hbok.
      * exact Hlack.
    + eexists. reflexivity.
Qed.

(** C4. With a replica set built and sound, if the named blob is absent
    from the net of some replica, the gather command ends with the
    unknown-name error: the call as a whole fails and no array, for any
    replica, comes back. *)
Theorem gather_unknown_name (s : State) (sync : P2PSync) (name : string) :
  solvers_ s <> [] ->
  sync_ptr s = Some sync ->
  forallb (replica_ok (heap s)) (replicas sync) = true ->
  existsb (lacks name) (replicas sync) = true ->
  exists s',
    blob_get_data_byname_multigpu [mxChar name] s
    = (MexError (unknown_blob_msg name), s').
Proof.
  intros Hsolvers Hsync Hok Hlack.
  unfold blob_get_data_byname_multigpu.
  change (nrhs [mxChar name] =? 1) with true. cbv iota.
  rewrite bind_ret_l, bind_gets.
  destruct (solvers_ s) as [| sv0 svs]; [ contradiction | ].
  rewrite bind_gets, Hsync. cbn [not_null mxCHECK deref].
  rewrite !bind_ret_l. cbv zeta.
  change (arg [mxChar name] 0) with (@ret mxArray (mxChar name)).
  rewrite bind_ret_l. cbn [mxArrayToString].
  destruct (gather_loop_unknown sync name (get_syncs sync) 0%nat
              (mxCreateCellMatrix (length (get_syncs sync))) s Hok Hlack)
    as [s' Hloop].
  exists s'. apply bind_err. exact Hloop.
Qed.

Lemma gather_unknown_name_witness :
  exists s',
    blob_get_data_byname_multigpu [mxChar "fc"] odd_peer_state
    = (MexError (unknown_blob_msg "fc"), s').
Proof.
  apply (gather_unknown_name odd_peer_state
           (mkP2PSync root_solver
              [None; Some (mkSolver 1 (mkNet [200] ["ip"%string]))]) "fc").
  - discriminate.
  - reflexivity.
  - reflexivity.
  - reflexivity.
Defined.

(** With the name known to every replica the command returns one array
    per replica, in replica order. *)
Example gather_pair :
  fst (blob_get_data_byname_multigpu [mxChar "fc"] pair_state)
  = Returned [mxCell [ Some (mxNumeric mxSINGLE_CLASS [2] [0; 0]);
                       Some (mxNumeric mxSINGLE_CLASS [2] [0; 0]) ]].
Proof. reflexivity. Qed.


(** ** Outcomes at the host boundary *)

Section Good.
Context {A : Type} (Q : A -> Prop).

Lemma good_ret a : Q a -> good Q (ret a).
Proof. intros H s. exact H. Qed.

Lemma good_err msg : msg <> ""%string -> good Q (mexErrMsgTxt msg).
Proof. intros H s. exact H. Qed.

Lemma good_crash : good Q crash.
Proof. intros s. exact I. Qed.

Lemma good_gets (g : State -> A) : (forall s, Q (g s)) -> good Q (gets g).
Proof. intros H s. apply H. Qed.

Lemma good_deref (p : option A) :
  (forall a, p = Some a -> Q a) -> good Q (deref p).
Proof. intros H. destruct p; intros s; cbn; auto. Qed.

Lemma good_bind {B} (R : B -> Prop) (m : M B) (k : B -> M A) :
  good R m -> (forall b, R b -> good Q (k b)) -> good Q (bind m k).
Proof.
  intros Hm Hk s. unfold bind. specialize (Hm s).
  destruct (m s) as [[b | msg |] s1]; cbn in *.
  - apply Hk. exact Hm.
  - exact Hm.
  - exact I.
Qed.

Lemma good_weaken (P : A -> Prop) m :
  good P m -> (forall a, P a -> Q a) -> good Q m.
Proof.
  intros Hm HPQ s. specialize (Hm s).
  destruct (fst (m s)); auto.
Qed.
End Good.

Lemma good_mxCHECK expr msg : msg <> ""%string -> good any (mxCHECK expr msg).
Proof. intros H. destruct expr; intros s; cbn; [ exact I | exact H ]. Qed.

Lemma good_modify g : good any (modify g).
Proof. intros s. exact I. Qed.

Lemma good_any_gets {A} (g : State -> A) : good any (gets g).
Proof. apply good_gets. intros s. exact I. Qed.

Lemma good_any_deref {A} (p : option A) : good any (deref p).
Proof. apply good_deref. intros a _. exact I. Qed.

Lemma good_any_ret {A} (a : A) : good any (ret a).
Proof. apply good_ret. exact I. Qed.

Lemma good_then {A B} (Q : A -> Prop) (m : M B) (k : B -> M A) :
  good any m -> (forall b, good Q (k b)) -> good Q (bind m k).
Proof. intros Hm Hk. apply (good_bind Q any); auto. Qed.

Create HintDb good.

#[local] Hint Resolve good_modify good_any_gets good_any_deref good_any_ret
  good_crash : good.
#[local] Hint Extern 1 (good any (mxCHECK _ _)) =>
  apply good_mxCHECK; discriminate : good.
#[local] Hint Extern 1 (good _ (mexErrMsgTxt _)) =>
  apply good_err; discriminate : good.
#[local] Hint Extern 1 (good any (arg _ _)) => apply good_any_deref : good.
#[local] Hint Extern 1 (good any (store_blob _ _)) => apply good_modify : good.
#[local] Hint Extern 1 (good any (mexPrintf _ _)) => apply good_modify : good.
#[local] Hint Extern 1 (good any (free_blob _)) => apply good_modify : good.

Ltac good_step :=
  lazymatch goal with
  | |- good _ (bind _ _) => apply good_then; [ | intros ? ]
  | |- good _ (mxERROR _) => apply good_err; discriminate
  | |- good _ (if ?c then _ else _) => destruct c
  | |- good _ (match ?x with _ => _ end) => destruct x
  | |- good _ (let _ := _ in _) => cbv zeta
  end.

Ltac good_tac := repeat (first [ solve [ auto with good ] | good_step ]).

Lemma good_load_blob p : good any (load_blob p).
Proof. unfold load_blob. good_tac. Qed.

#[local] Hint Resolve good_load_blob : good.

Lemma good_handle_to_ptr h : good any (handle_to_ptr h).
Proof. unfold handle_to_ptr. good_tac. Qed.

Lemma good_mx_mat_to_blob a p w : good any (mx_mat_to_blob a p w).
Proof. unfold mx_mat_to_blob. good_tac. Qed.

Lemma caffe_copy_length N X Y buf :
  caffe_copy N X Y = Some buf ->
  length buf = length Y /\ 0 <= N <= Z.of_nat (length Y).
Proof.
  unfold caffe_copy.
  destruct ((0 <=? N) && (N <=? Z.of_nat (length X))
            && (N <=? Z.of_nat (length Y))) eqn:E; [ | discriminate ].
  intros [= <-].
  apply andb_prop in E as [E HY]. apply andb_prop in E as [H0 HX].
  apply Z.leb_le in H0, HX, HY.
  rewrite length_app, length_take, length_drop. lia.
Qed.

Lemma host_shape_not_nil shape : host_shape shape <> [].
Proof.
  destruct shape as [| d l]; [ discriminate | ].
  cbn [host_shape]. intros H. apply (f_equal (@length Z)) in H.
  rewrite length_rev in H. discriminate H.
Qed.

(** What [blob_to_mx_mat] returns has at least one dimension and as many
    elements as its dimensions announce. *)
Lemma good_blob_to_mx_mat p w : good is_marshalled (blob_to_mx_mat p w).
Proof.
  unfold blob_to_mx_mat.
  apply good_then; [ auto with good | intros b ]. cbv zeta.
  cbn [mxCreateNumericArray mxGetData_float deref]. rewrite bind_ret_l.
  apply good_then; [ auto with good | intros mode ].
  apply good_then; [ auto with good | intros _ ].
  apply (good_bind _
           (fun buf => exists X,
              caffe_copy (count b) X
                (replicate (Z.to_nat (prod_dims (mat_dims b))) 0) = Some buf)).
  - apply good_deref. intros buf H. eauto.
  - intros buf [X Hcopy]. apply good_ret.
    apply caffe_copy_length in Hcopy as [Hlen Hrange].
    rewrite length_replicate in Hlen, Hrange.
    rewrite mat_dims_host_shape, prod_host_shape in Hlen, Hrange.
    fold (count b) in Hlen, Hrange.
    exists (mat_dims b), buf. split; [ reflexivity | ]. split.
    + rewrite mat_dims_host_shape. apply host_shape_not_nil.
    + cbn [mx_wf]. apply Z.eqb_eq.
      rewrite mat_dims_host_shape, prod_host_shape. fold (count b). lia.
Qed.

Lemma is_marshalled_single r : is_marshalled r -> is_single_array r.
Proof. intros (dims & data & -> & _). unfold is_single_array. eauto. Qed.

Lemma good_cudaSetDevice d : good any (cudaSetDevice d).
Proof. unfold cudaSetDevice. good_tac. Qed.

Lemma good_blob_by_name n name : good any (blob_by_name n name).
Proof.
  unfold blob_by_name. destruct (index_of name (blob_names n)).
  - auto with good.
  - apply good_err. unfold unknown_blob_msg. discriminate.
Qed.

Lemma good_engine {A} (op : EngineOp A) : good any (engine op).
Proof.
  intros s. unfold engine.
  destruct (op (engine_view s)) as [[a | |] e]; exact I.
Qed.

Lemma good_engine_try {A} msg (op : EngineOp A) :
  msg <> ""%string -> good any (engine_try msg op).
Proof.
  intros Hmsg s. unfold engine_try.
  destruct (op (engine_view s)) as [[a | |] e];
    [ exact I | exact Hmsg | exact I ].
Qed.

Lemma good_mxCHECK_FILE_EXIST E file : good any (mxCHECK_FILE_EXIST E file).
Proof.
  unfold mxCHECK_FILE_EXIST. destruct (file_good E file).
  - apply good_any_ret.
  - apply good_err. discriminate.
Qed.

Lemma good_caffe_rng_rand : good any caffe_rng_rand.
Proof. intros s. exact I. Qed.

#[local] Hint Resolve good_handle_to_ptr good_mx_mat_to_blob good_cudaSetDevice
  good_blob_by_name good_engine good_mxCHECK_FILE_EXIST good_caffe_rng_rand
  : good.
#[local] Hint Extern 1 (good any (engine_try _ _)) =>
  apply good_engine_try; discriminate : good.

Lemma good_scatter_loop entries :
  forall i cells blob_index d,
    good any (scatter_loop entries i cells blob_index d).
Proof.
  induction entries as [| e rest IH]; intros i cells blob_index d;
    cbn [scatter_loop]; good_tac.
Qed.

Lemma good_teststep_loop (FP : Net -> M unit) sync entries :
  (forall n, good any (FP n)) ->
  forall i d, good any (teststep_loop FP sync entries i d).
Proof.
  intros HFP. induction entries as [| e rest IH]; intros i d;
    cbn [teststep_loop]; good_tac.
Qed.

Lemma good_gpus_loop count ids :
  forall gpus, good any (gpus_loop count ids gpus).
Proof.
  induction ids as [| d rest IH]; intros gpus; cbn [gpus_loop]; good_tac.
Qed.

#[local] Hint Resolve good_scatter_loop good_gpus_loop : good.

Lemma good_get_solver_multigpu_gpus ids :
  good any (get_solver_multigpu_gpus ids).
Proof. unfold get_solver_multigpu_gpus. good_tac. Qed.

Lemma good_get_solver_multigpu_args E prhs :
  good any (get_solver_multigpu_args E prhs).
Proof. unfold get_solver_multigpu_args. good_tac. Qed.

Lemma good_resume_from E solver file : good any (resume_from E solver file).
Proof. unfold resume_from. good_tac. Qed.

Lemma good_net_usage_check prhs msg :
  msg <> ""%string -> good any (net_usage_check prhs msg).
Proof.
  intros Hmsg. unfold net_usage_check.
  destruct (nrhs prhs <=? 3).
  - apply good_then; [ auto with good | intros a0 ].
    apply good_mxCHECK. exact Hmsg.
  - apply good_mxCHECK. exact Hmsg.
Qed.

#[local] Hint Resolve good_get_solver_multigpu_gpus
  good_get_solver_multigpu_args good_resume_from : good.
#[local] Hint Extern 1 (good any (net_usage_check _ _)) =>
  apply good_net_usage_check; discriminate : good.

(** Handles as the bridge issues them. *)
Lemma setup_handle_run p i vec s :
  setup_handle p i vec s
  = (Returned
       (mxSetField
          (mxSetField vec i "ptr" (mxNumeric mxUINT64_CLASS [1; 1] [p mod 2 ^ 64]))
          i "init_key" (mxCreateDoubleScalar (init_key s))), s).
Proof. reflexivity. Qed.

Lemma setup_handles_spec ptrs s :
  forall done,
    setup_handles ptrs (length done)
      (mxStruct (done ++ replicate (length ptrs)
                           [("ptr"%string, None); ("init_key"%string, None)])) s
    = (Returned
         (mxStruct
            (done ++ map (fun p => handle_fields (p mod 2 ^ 64) (init_key s))
                       ptrs)), s).
Proof.
  induction ptrs as [| p rest IH]; intros done.
  - reflexivity.
  - cbn [setup_handles length replicate map].
    rewrite (bind_run _ _ _ _ _ (setup_handle_run _ _ _ _)).
    set (blank := [("ptr"%string, None); ("init_key"%string, None)]).
    assert (Hat : forall (x : list (string * option mxArray)) tl,
              (done ++ x :: tl) !! length done = Some x).
    { intros x tl. rewrite lookup_app_r by lia.
      rewrite Nat.sub_diag. reflexivity. }
    assert (Hset : forall (x y : list (string * option mxArray)) tl,
              <[length done := y]> (done ++ x :: tl) = done ++ y :: tl).
    { intros x y tl.
      pose proof (insert_app_r done (x :: tl) 0 y) as E.
      rewrite Nat.add_0_r in E. exact E. }
    unfold mxSetField at 2. rewrite Hat, Hset.
    unfold mxSetField. rewrite Hat, Hset.
    specialize (IH (done ++ [handle_fields (p mod 2 ^ 64) (init_key s)])).
    rewrite length_app, Nat.add_1_r, <- !app_assoc in IH. exact IH.
Qed.

Lemma good_ptr_to_handle p : good is_handle (ptr_to_handle p).
Proof.
  intros s. rewrite ptr_to_handle_run. cbn [fst].
  exists (p mod 2 ^ 64), (init_key s). split; [ | reflexivity ].
  apply Z.mod_pos_bound. lia.
Qed.

Lemma good_ptr_vec_to_handle_vec ptrs :
  good is_handle_vec (ptr_vec_to_handle_vec ptrs).
Proof.
  intros s.
  assert (Hrun : ptr_vec_to_handle_vec ptrs s
                 = (Returned
                      (mxStruct
                         (map (fun p => handle_fields (p mod 2 ^ 64)
                                          (init_key s)) ptrs)), s))
    by exact (setup_handles_spec ptrs s []).
  rewrite Hrun. cbn [fst].
  exists (map (fun p => (p mod 2 ^ 64, init_key s)) ptrs). split.
  - apply Forall_forall. intros h Hin.
    apply list_elem_of_fmap in Hin as (p & -> & _). cbn [fst].
    apply Z.mod_pos_bound. lia.
  - rewrite map_map. reflexivity.
Qed.

(** The gather loop sets one cell per replica, each to a marshalled
    array. *)
Lemma gather_loop_shape sync name entries :
  forall i done top' s s',
    length done = i ->
    gather_loop sync entries i name
      (mxCell (map Some done ++ replicate (length entries) None)) s
    = (Returned top', s') ->
    exists new,
      top' = mxCell (map Some (done ++ new)) /\
      length new = length entries /\
      Forall is_marshalled new.
Proof.
  induction entries as [| e rest IH]; intros i done top' s s' Hi Hrun.
  - cbn [gather_loop length replicate] in Hrun. injection Hrun as <- _.
    exists []. rewrite !app_nil_r. auto.
  - cbn [gather_loop] in Hrun.
    apply bind_returned in Hrun as (sv & s1 & _ & Hrun).
    apply bind_returned in Hrun as (nm & s2 & _ & Hrun).
    apply bind_returned in Hrun as (blob & s3 & _ & Hrun).
    apply bind_returned in Hrun as (response & s4 & Hread & Hrun).
    pose proof (good_blob_to_mx_mat blob DATA s3) as Hsingle.
    rewrite Hread in Hsingle. cbn [fst] in Hsingle.
    cbn [length replicate mxSetCell] in Hrun.
    pose proof (insert_app_r (map Some done)
                  (None :: replicate (length rest) None) 0 (Some response))
      as E.
    rewrite Nat.add_0_r, length_map, Hi in E. rewrite E in Hrun.
    cbn [insert list_insert] in Hrun.
    replace (map Some done ++ Some response :: replicate (length rest) None)
      with (map Some (done ++ [response]) ++ replicate (length rest) None)
      in Hrun by (rewrite map_app, <- app_assoc; reflexivity).
    apply IH in Hrun as (new & -> & Hlen & Hall);
      [ | rewrite length_app; cbn; lia ].
    exists (response :: new). rewrite <- app_assoc. cbn [app length].
    split; [ reflexivity | ]. split; [ lia | ].
    apply Forall_cons. split; assumption.
Qed.

Lemma axes_loop_length shape :
  forall todo k m dims, length (axes_loop shape todo k m dims) = length dims.
Proof.
  induction todo as [| t IH]; intros k m dims; cbn [axes_loop].
  - reflexivity.
  - rewrite IH. apply length_insert.
Qed.

(** Settles that a list of results is what a command announces. *)
Ltac declared_result :=
  first
    [ reflexivity
    | eexists; split; [ reflexivity | ];
      first
        [ assumption
        | solve [ unfold is_double_scalar, is_string, mxCreateString; eauto ]
        | solve [ unfold is_solver_attr; do 2 eexists;
                  split; [ | split; [ | reflexivity ] ]; assumption ]
        | solve [ unfold is_net_attr; do 6 eexists;
                  split; [ | split; [ | reflexivity ] ]; assumption ]
        | solve [ unfold is_layer_attr; eexists;
                  split; [ | reflexivity ]; assumption ] ] ].

(** As [good_tac], keeping track of what the results are. *)
Ltac good_results :=
  repeat (first
    [ solve [ auto with good ]
    | lazymatch goal with
      | |- good _ (bind (blob_to_mx_mat _ _) _) =>
          apply (good_bind _ is_marshalled);
          [ apply good_blob_to_mx_mat | intros ? ? ]
      | |- good _ (bind (ptr_to_handle _) _) =>
          apply (good_bind _ is_handle);
          [ apply good_ptr_to_handle | intros ? ? ]
      | |- good _ (bind (ptr_vec_to_handle_vec _) _) =>
          apply (good_bind _ is_handle_vec);
          [ apply good_ptr_vec_to_handle_vec | intros ? ? ]
      end
    | good_step
    | apply good_ret; declared_result ]).

(** Unfolds a handler of the table and settles its results. *)
Ltac good_handler :=
  unfold get_solver, get_solver_multigpu, solver_get_attr, solver_get_iter,
    solver_restore, solver_solve, solver_step, solver_snapshot, get_net,
    net_get_attr, net_forward, net_backward, net_copy_from, net_reshape,
    net_save, layer_get_attr, layer_get_type, blob_reshape, blob_get_data,
    blob_set_data, blob_set_data_multigpu, blob_get_diff, blob_set_diff,
    set_mode_cpu, set_mode_gpu, set_device, get_init_key, reset, read_mean,
    write_mean, init_log, solver_teststep_multigpu, cudaGetDevice;
  good_results.

Lemma good_get_solver E prhs :
  good (one is_handle) (get_solver E prhs).
Proof. good_handler. Qed.

Lemma good_get_solver_multigpu E prhs :
  good (one is_handle) (get_solver_multigpu E prhs).
Proof. good_handler. Qed.

Lemma good_solver_get_attr E prhs :
  good (one is_solver_attr) (solver_get_attr E prhs).
Proof. good_handler. Qed.

Lemma good_solver_get_iter E prhs :
  good (one is_double_scalar) (solver_get_iter E prhs).
Proof. good_handler. Qed.

Lemma good_get_net E prhs : good (one is_handle) (get_net E prhs).
Proof. good_handler. Qed.

Lemma good_net_get_attr E prhs :
  good (one is_net_attr) (net_get_attr E prhs).
Proof. good_handler. Qed.

Lemma good_layer_get_attr E prhs :
  good (one is_layer_attr) (layer_get_attr E prhs).
Proof. good_handler. Qed.

Lemma good_layer_get_type E prhs :
  good (one is_string) (layer_get_type E prhs).
Proof. good_handler. Qed.

Lemma good_blob_get_shape prhs :
  good (one is_shape_row) (blob_get_shape prhs).
Proof.
  unfold blob_get_shape. good_results.
  apply good_ret. eexists. split; [ reflexivity | ].
  eexists. rewrite axes_loop_length, length_replicate. reflexivity.
Qed.

Lemma good_blob_get (w : WhichMemory) prhs :
  good (one is_marshalled) (blob_get w prhs).
Proof. destruct w; cbn [blob_get]; good_handler. Qed.

Lemma good_read_mean E prhs : good (one is_marshalled) (read_mean E prhs).
Proof. good_handler. Qed.

Lemma good_blob_set_data_multigpu prhs :
  good nothing (blob_set_data_multigpu prhs).
Proof. good_handler. Qed.

Lemma good_solver_teststep_multigpu (FP : Net -> M unit) prhs :
  (forall n, good any (FP n)) ->
  good nothing (solver_teststep_multigpu FP prhs).
Proof.
  intros HFP. pose proof (good_teststep_loop FP) as Hloop.
  good_handler.
Qed.

(** The five commands that follow no pointer and call nothing are never
    lost. *)
Lemma sure_set_mode_cpu prhs : sure nothing (set_mode_cpu prhs).
Proof.
  intros s. unfold set_mode_cpu. destruct prhs; cbn;
    [ reflexivity | discriminate ].
Qed.

Lemma sure_set_mode_gpu prhs : sure nothing (set_mode_gpu prhs).
Proof.
  intros s. unfold set_mode_gpu. destruct prhs; cbn;
    [ reflexivity | discriminate ].
Qed.

Lemma sure_get_init_key prhs : sure (one is_double_scalar) (get_init_key prhs).
Proof.
  intros s. unfold get_init_key. destruct prhs; cbn; [ | discriminate ].
  eexists. split; [ reflexivity | ]. unfold is_double_scalar. eauto.
Qed.

Lemma sure_reset prhs : sure nothing (reset prhs).
Proof.
  intros s. unfold reset. destruct prhs; cbn;
    [ reflexivity | discriminate ].
Qed.

Lemma sure_init_log prhs : sure nothing (init_log prhs).
Proof.
  intros s. unfold init_log.
  destruct prhs as [| [c d x | str | cells | elems] [| b rest]]; cbn;
    first [ reflexivity | discriminate ].
Qed.

(** With no solver created, the gather command prints a line and returns
    the scalar -1; it raises no error. *)
Lemma gather_without_solver a s :
  solvers_ s = [] ->
  blob_get_data_byname_multigpu [a] s
  = (Returned [mxCreateDoubleScalar (-1)],
     log_console ("No solver inited!" +:+ LF, []) s).
Proof.
  intros Hnone. unfold blob_get_data_byname_multigpu.
  change (nrhs [a] =? 1) with true. cbv iota.
  rewrite bind_ret_l, bind_gets, Hnone. reflexivity.
Qed.

Lemma good_outcome_ok s cmd (m : M (list mxArray)) :
  good (declared cmd) m -> outcome_ok s cmd (fst (m s)).
Proof.
  intros Hm. specialize (Hm s). unfold outcome_ok, returned_ok.
  destruct (fst (m s)); auto.
Qed.

Lemma sure_outcome_ok s cmd (m : M (list mxArray)) :
  sure (declared cmd) m -> outcome_ok s cmd (fst (m s)).
Proof.
  intros Hm. specialize (Hm s). unfold outcome_ok, returned_ok.
  destruct (fst (m s)); [ auto | auto | contradiction ].
Qed.

(** When the gather command returns in a process that has a solver, it
    returns one cell vector with one marshalled array per replica. *)
Lemma gather_returned prhs plhs s s' :
  solvers_ s <> [] ->
  blob_get_data_byname_multigpu prhs s = (Returned plhs, s') ->
  exists sync arrays,
    sync_ptr s = Some sync /\
    plhs = [mxCell (map Some arrays)] /\
    length arrays = length (get_syncs sync) /\
    Forall is_marshalled arrays.
Proof.
  intros Hsolvers Hrun. unfold blob_get_data_byname_multigpu in Hrun.
  apply bind_returned in Hrun as (u1 & s1 & H1 & Hrun).
  assert (s1 = s) as ->.
  { destruct (nrhs prhs =? 1); [ | discriminate H1 ].
    injection H1 as _ <-. reflexivity. }
  rewrite bind_gets in Hrun.
  destruct (solvers_ s) as [| sv svs]; [ contradiction | ].
  rewrite bind_gets in Hrun.
  destruct (sync_ptr s) as [sync |]; [ | discriminate Hrun ].
  cbn [not_null mxCHECK deref] in Hrun. rewrite !bind_ret_l in Hrun.
  apply bind_returned in Hrun as (a0 & s2 & _ & Hrun).
  cbv zeta in Hrun.
  apply bind_returned in Hrun as (top' & s3 & Hloop & Hrun).
  injection Hrun as <- _.
  apply (gather_loop_shape sync _ _ 0%nat []) in Hloop
    as (arrays & -> & Hlen & Hall); [ | reflexivity ].
  exists sync, arrays. auto.
Qed.

Lemma good_any_blob_to_mx_mat p w : good any (blob_to_mx_mat p w).
Proof.
  apply (good_weaken any is_marshalled);
    [ apply good_blob_to_mx_mat | intros a _; exact I ].
Qed.

#[local] Hint Resolve good_any_blob_to_mx_mat : good.

Lemma good_gather_loop sync entries :
  forall i name top, good any (gather_loop sync entries i name top).
Proof.
  induction entries as [| e rest IH]; intros i name top;
    cbn [gather_loop]; good_tac.
Qed.

Lemma gather_outcome prhs s :
  outcome_ok s gather_cmd (fst (blob_get_data_byname_multigpu prhs s)).
Proof.
  destruct (blob_get_data_byname_multigpu prhs s) as [[plhs | msg |] s']
    eqn:Hrun; cbn [fst outcome_ok].
  - destruct (solvers_ s) as [| sv svs] eqn:Hsolvers.
    + left. split; [ reflexivity | ]. split; [ exact Hsolvers | ].
      unfold blob_get_data_byname_multigpu in Hrun.
      destruct (nrhs prhs =? 1); [ | discriminate Hrun ].
      rewrite bind_ret_l, bind_gets, Hsolvers in Hrun.
      injection Hrun as <- _. reflexivity.
    + right.
      destruct (gather_returned prhs plhs s s') as
        (sync & arrays & _ & -> & _ & Hall);
        [ rewrite Hsolvers; discriminate | exact Hrun | ].
      eexists. split; [ reflexivity | ]. exists arrays. auto.
  - assert (G : good any (blob_get_data_byname_multigpu prhs)).
    { pose proof good_gather_loop as Hloop.
      unfold blob_get_data_byname_multigpu. good_tac. }
    specialize (G s). rewrite Hrun in G. exact G.
  - exact I.
Qed.

(** Settles the outcome of one entry of the table. *)
Ltac outcome_of_entry E :=
  first
    [ apply gather_outcome
    | apply sure_outcome_ok;
      first [ apply sure_set_mode_cpu | apply sure_set_mode_gpu
            | apply sure_get_init_key | apply sure_reset
            | apply sure_init_log ]
    | apply good_outcome_ok;
      first
        [ apply good_get_solver | apply good_get_solver_multigpu
        | apply good_solver_get_attr | apply good_solver_get_iter
        | apply good_get_net | apply good_net_get_attr
        | apply good_layer_get_attr | apply good_layer_get_type
        | apply good_blob_get_shape | apply (good_blob_get DATA)
        | apply (good_blob_get DIFF) | apply good_read_mean
        | apply good_blob_set_data_multigpu
        | apply good_solver_teststep_multigpu; intros n; apply good_engine
        | solve [ lazymatch goal with
                  | |- good _ ?m => change (good nothing m)
                  end;
                  good_handler ] ] ].

Lemma dispatch_outcome E cmd args s :
  outcome_ok s cmd (fst (dispatch (handlers E) cmd args s)).
Proof.
  unfold handlers. cbn [dispatch].
  repeat match goal with
         | |- context [String.eqb ?name cmd] =>
             destruct (String.eqb name cmd) eqn:E0;
             [ apply String.eqb_eq in E0; subst cmd | clear E0 ]
         end;
    try solve [ outcome_of_entry E ].
  all: cbn; unfold unknown_command_msg; discriminate.
Qed.



(* ================================================================== *)
(** * Further properties *)

(** ** Conversions to MATLAB values *)

Lemma fill_doubles_spec int_vec :
  forall done,
    fill_doubles int_vec (length done)
      (done ++ replicate (length int_vec) 0) = done ++ int_vec.
Proof.
  induction int_vec as [| v rest IH]; intros done.
  - reflexivity.
  - cbn [fill_doubles length replicate].
    pose proof (insert_app_r done (0 :: replicate (length rest) 0) 0 v) as E.
    rewrite Nat.add_0_r in E. rewrite E. cbn [insert list_insert].
    specialize (IH (done ++ [v])).
    rewrite length_app, Nat.add_1_r, <- !app_assoc in IH. exact IH.
Qed.

(** X1. [int_vec_to_mx_vec] yields an n-by-1 double matrix that holds the
    elements of the vector in their order, with as many elements as its
    dimensions announce. *)
Theorem int_vec_to_mx_vec_elements (int_vec : list Z) :
  int_vec_to_mx_vec int_vec
  = mxNumeric mxDOUBLE_CLASS [Z.of_nat (length int_vec); 1] int_vec /\
  mx_wf (int_vec_to_mx_vec int_vec) = true.
Proof.
  assert (E : int_vec_to_mx_vec int_vec
              = mxNumeric mxDOUBLE_CLASS [Z.of_nat (length int_vec); 1]
                  int_vec).
  { unfold int_vec_to_mx_vec. cbv zeta. f_equal.
    exact (fill_doubles_spec int_vec []). }
  split; [ exact E | ].
  rewrite E. cbn [mx_wf prod_dims fold_right]. apply Z.eqb_eq. lia.
Qed.

Lemma fill_strcell_spec str_vec :
  forall done,
    fill_strcell str_vec (length done)
      (mxCell (done ++ replicate (length str_vec) None))
    = mxCell (done ++ map (fun str => Some (mxChar str)) str_vec).
Proof.
  induction str_vec as [| str rest IH]; intros done.
  - reflexivity.
  - cbn [fill_strcell length replicate map mxSetCell].
    pose proof (insert_app_r done
                  (None :: replicate (length rest) None) 0
                  (Some (mxChar str))) as E.
    rewrite Nat.add_0_r in E. rewrite E. cbn [insert list_insert].
    specialize (IH (done ++ [Some (mxChar str)])).
    rewrite length_app, Nat.add_1_r, <- !app_assoc in IH. exact IH.
Qed.

(** X2. [str_vec_to_mx_strcell] yields a cell vector with one cell per
    string, in order; every cell is set, none is left NULL. *)
Theorem str_vec_to_mx_strcell_cells (str_vec : list string) :
  str_vec_to_mx_strcell str_vec
  = mxCell (map (fun str => Some (mxChar str)) str_vec) /\
  forall i, (i < length str_vec)%nat ->
            exists str, str_vec !! i = Some str /\
                        mxGetCell (str_vec_to_mx_strcell str_vec) i
                        = Some (mxChar str).
Proof.
  assert (E : str_vec_to_mx_strcell str_vec
              = mxCell (map (fun str => Some (mxChar str)) str_vec))
    by apply (fill_strcell_spec str_vec []).
  split; [ exact E | ].
  intros i Hi. destruct (lookup_lt_is_Some_2 str_vec i Hi) as [str Hstr].
  exists str. split; [ exact Hstr | ].
  rewrite E. cbn [mxGetCell]. rewrite list_lookup_fmap, Hstr. reflexivity.
Qed.

Lemma str_vec_to_mx_strcell_cells_witness :
  exists str, ["data"; "fc"]%string !! 1%nat = Some str /\
              mxGetCell (str_vec_to_mx_strcell ["data"; "fc"]%string) 1
              = Some (mxChar str).
Proof.
  apply (proj2 (str_vec_to_mx_strcell_cells ["data"; "fc"]%string) 1%nat).
  simpl. lia.
Defined.

(** ** Handle vectors and the key *)

(** X3. [ptr_vec_to_handle_vec] issues one handle per pointer, in the
    order of the vector: element [i] of the struct vector, taken alone, is
    the handle [ptr_to_handle] issues for pointer [i], so it resolves to
    that pointer as long as the key stands. *)
Theorem ptr_vec_to_handle_vec_elements (ptr_vec : list Z) (s : State) :
  Forall (fun p => 0 <= p < 2 ^ 64) ptr_vec ->
  exists vec,
    ptr_vec_to_handle_vec ptr_vec s = (Returned vec, s) /\
    forall i p, ptr_vec !! i = Some p ->
      exists h, struct_elem vec i = Some h /\
                ptr_to_handle p s = (Returned h, s) /\
                handle_to_ptr h s = (Returned p, s).
Proof.
  intros Hrange. eexists. split.
  - unfold ptr_vec_to_handle_vec, create_handle_vec, mxCreateStructMatrix.
    cbn [map]. exact (setup_handles_spec ptr_vec s []).
  - intros i p Hp. cbn [app struct_elem].
    rewrite list_lookup_fmap, Hp. cbn [fmap option_fmap option_map].
    eexists. split; [ reflexivity | ].
    assert (Hin : 0 <= p < 2 ^ 64).
    { rewrite Forall_forall in Hrange. apply Hrange.
      apply list_elem_of_lookup. eauto. }
    split.
    + apply ptr_to_handle_run.
    + change (mxStruct [handle_fields (p mod 2 ^ 64) (init_key s)])
        with (handle_of (p mod 2 ^ 64) (init_key s)).
      rewrite handle_to_ptr_run, Z.eqb_refl, Z.mod_small by exact Hin.
      reflexivity.
Qed.

Lemma ptr_vec_to_handle_vec_elements_witness :
  exists vec,
    ptr_vec_to_handle_vec [4096; 8192] fresh_state = (Returned vec, fresh_state) /\
    forall i p, [4096; 8192] !! i = Some p ->
      exists h, struct_elem vec i = Some h /\
                ptr_to_handle p fresh_state = (Returned h, fresh_state) /\
                handle_to_ptr h fresh_state = (Returned p, fresh_state).
Proof.
  apply (ptr_vec_to_handle_vec_elements [4096; 8192] fresh_state).
  repeat constructor; lia.
Defined.

(** X4. A handle is valid exactly when its key is the one
    [get_init_key] reports: a well-formed handle resolves to its address
    if and only if [get_init_key] returns the handle's key. *)
Theorem handle_valid_iff_key_matches (s : State) (p k : Z) :
  fst (handle_to_ptr (handle_of p k) s) = Returned p <->
  fst (get_init_key [] s) = Returned [mxCreateDoubleScalar k].
Proof.
  rewrite handle_to_ptr_run.
  change (fst (get_init_key [] s))
    with (Returned (A:=list mxArray) [mxCreateDoubleScalar (init_key s)]).
  destruct (k =? init_key s) eqn:E.
  - apply Z.eqb_eq in E. subst k. split; reflexivity.
  - apply Z.eqb_neq in E. split; intros H.
    + discriminate H.
    + injection H as H. congruence.
Qed.

Lemma handle_valid_iff_key_matches_witness :
  fst (handle_to_ptr (handle_of 4096 7) fresh_state) = Returned 4096.
Proof.
  apply (proj2 (handle_valid_iff_key_matches fresh_state 4096 7)).
  reflexivity.
Defined.

(** X5. Every command that takes a blob handle rejects a handle whose key
    is not the current one with the stale-handle error, before it reads or
    writes any blob: the state is as it was. *)
Theorem stale_handle_rejected_by_commands (s : State) (p k : Z) (A : mxArray) :
  k <> init_key s ->
  mxIsSingle A = true ->
  blob_get_shape [handle_of p k] s = (MexError stale_handle_msg, s) /\
  blob_get_data [handle_of p k] s = (MexError stale_handle_msg, s) /\
  blob_get_diff [handle_of p k] s = (MexError stale_handle_msg, s) /\
  blob_set_data [handle_of p k; A] s = (MexError stale_handle_msg, s) /\
  blob_set_diff [handle_of p k; A] s = (MexError stale_handle_msg, s).
Proof.
  intros Hk HA.
  assert (Hstale : handle_to_ptr (handle_of p k) s
                   = (MexError stale_handle_msg, s)).
  { rewrite handle_to_ptr_run.
    destruct (k =? init_key s) eqn:E; [ | reflexivity ].
    apply Z.eqb_eq in E. contradiction. }
  unfold blob_get_shape, blob_get_data, blob_get_diff, blob_set_data,
    blob_set_diff.
  change (mxIsStruct (handle_of p k)) with true. rewrite HA.
  cbn [andb mxCHECK]. rewrite !bind_ret_l.
  change (arg [handle_of p k] 0) with (@ret mxArray (handle_of p k)).
  change (arg [handle_of p k; A] 0) with (@ret mxArray (handle_of p k)).
  change (arg [handle_of p k; A] 1) with (@ret mxArray A).
  rewrite !bind_ret_l.
  repeat split; apply bind_err; exact Hstale.
Qed.

Lemma stale_handle_rejected_by_commands_witness :
  blob_get_shape [handle_of 32 8] nchw_state
    = (MexError stale_handle_msg, nchw_state) /\
  blob_get_data [handle_of 32 8] nchw_state
    = (MexError stale_handle_msg, nchw_state) /\
  blob_get_diff [handle_of 32 8] nchw_state
    = (MexError stale_handle_msg, nchw_state) /\
  blob_set_data [handle_of 32 8; mxNumeric mxSINGLE_CLASS [1] [5]] nchw_state
    = (MexError stale_handle_msg, nchw_state) /\
  blob_set_diff [handle_of 32 8; mxNumeric mxSINGLE_CLASS [1] [5]] nchw_state
    = (MexError stale_handle_msg, nchw_state).
Proof.
  apply (stale_handle_rejected_by_commands nchw_state 32 8
           (mxNumeric mxSINGLE_CLASS [1] [5])).
  - simpl. lia.
  - reflexivity.
Defined.

(** ** Blob commands through handles *)

Lemma set_heap_same s : set_heap (heap s) s = s.
Proof. destruct s. reflexivity. Qed.

Lemma set_plane_same w b : set_plane w (plane w b) b = b.
Proof. destruct w, b; reflexivity. Qed.

Lemma blob_get_run w T s :
  blob_get w [handle_of T (init_key s)] s
  = (let* r := blob_to_mx_mat T w in ret [r]) s.
Proof.
  destruct w; unfold blob_get, blob_get_data, blob_get_diff;
    change (mxIsStruct (handle_of T (init_key s))) with true;
    cbn [mxCHECK]; rewrite bind_ret_l;
    change (arg [handle_of T (init_key s)] 0)
      with (@ret mxArray (handle_of T (init_key s)));
    rewrite bind_ret_l;
    rewrite (bind_run _ _ _ T s);
    try reflexivity; rewrite handle_to_ptr_run, Z.eqb_refl; reflexivity.
Qed.

Lemma blob_set_run w T A s :
  mxIsSingle A = true ->
  blob_set w [handle_of T (init_key s); A] s
  = (mx_mat_to_blob A T w ;;; ret []) s.
Proof.
  intros HA.
  destruct w; unfold blob_set, blob_set_data, blob_set_diff;
    change (mxIsStruct (handle_of T (init_key s))) with true;
    rewrite HA; cbn [andb mxCHECK]; rewrite bind_ret_l;
    change (arg [handle_of T (init_key s); A] 0)
      with (@ret mxArray (handle_of T (init_key s)));
    change (arg [handle_of T (init_key s); A] 1) with (@ret mxArray A);
    rewrite !bind_ret_l;
    rewrite (bind_run _ _ _ T s);
    try reflexivity; rewrite handle_to_ptr_run, Z.eqb_refl; reflexivity.
Qed.

(** Reading the plane just written returns what was written and changes
    nothing. *)
Lemma read_after_write s T b data w :
  blob_ok b = true ->
  Z.of_nat (length data) = count b ->
  let s1 := set_heap (<[T := written (Caffe_mode s) w data b]> (heap s)) s in
  blob_to_mx_mat T w s1
  = (Returned (mxNumeric mxSINGLE_CLASS (host_shape (shape_ b)) data), s1).
Proof.
  intros Hok Hlen s1.
  set (b1 := written (Caffe_mode s) w data b).
  assert (Hlive1 : heap s1 !! T = Some b1) by apply lookup_insert_eq.
  assert (Hok1 : blob_ok b1 = true) by (apply blob_ok_written; assumption).
  pose proof (blob_to_mx_mat_run s1 T b1 w Hlive1 Hok1) as Hread.
  cbv zeta in Hread. change (Caffe_mode s1) with (Caffe_mode s) in Hread.
  assert (Hsync : for_read (Caffe_mode s) (plane w b1) = plane w b1).
  { unfold b1, written. rewrite plane_set_plane. apply for_read_written. }
  rewrite Hsync, set_plane_same in Hread.
  rewrite (insert_id (heap s1) T b1 Hlive1), set_heap_same in Hread.
  assert (Hshape : shape_ b1 = shape_ b) by apply shape_set_plane.
  replace (Z.to_nat (count b1)) with (length data) in Hread
    by (unfold count in *; rewrite Hshape; lia).
  unfold b1 at 2, written in Hread.
  rewrite plane_set_plane, mirror_set_mirror, take_app_length, Hshape in Hread.
  exact Hread.
Qed.

(** X6. Through a valid handle, [blob_set_data] (or [blob_set_diff])
    followed by [blob_get_data] (or [blob_get_diff]) on the same plane
    returns the elements written, in order, under the reversed shape of
    the blob; the read itself changes nothing. *)
Theorem blob_set_then_get (s : State) (T : Z) (b : Blob) (dims data : list Z)
  (w : WhichMemory) :
  heap s !! T = Some b ->
  blob_ok b = true ->
  mx_wf (mxNumeric mxSINGLE_CLASS dims data) = true ->
  mxGetNumberOfElements (mxNumeric mxSINGLE_CLASS dims data) = count b ->
  exists s1,
    blob_set w [handle_of T (init_key s); mxNumeric mxSINGLE_CLASS dims data] s
      = (Returned [], s1) /\
    blob_get w [handle_of T (init_key s)] s1
      = (Returned [mxNumeric mxSINGLE_CLASS (host_shape (shape_ b)) data], s1).
Proof.
  intros Hlive Hok Hwf Hcount.
  pose proof (mx_mat_to_blob_run s T b dims data w Hlive Hok Hwf Hcount)
    as Hwrite.
  cbn [mx_wf mxGetNumberOfElements] in Hwf, Hcount. apply Z.eqb_eq in Hwf.
  assert (Hlen : Z.of_nat (length data) = count b) by congruence.
  eexists. split.
  - rewrite blob_set_run by reflexivity.
    rewrite (bind_run _ _ _ _ _ Hwrite). reflexivity.
  - set (s1 := set_heap _ s).
    change (init_key s) with (init_key s1).
    rewrite blob_get_run.
    rewrite (bind_run _ _ _ _ _ (read_after_write s T b data w Hok Hlen)).
    reflexivity.
Qed.

Lemma blob_set_then_get_witness :
  exists s1,
    blob_set DATA
      [handle_of 32 7; mxNumeric mxSINGLE_CLASS [2; 2; 3; 4] (seqZ 1 48)]
      nchw_state = (Returned [], s1) /\
    blob_get DATA [handle_of 32 7] s1
      = (Returned [mxNumeric mxSINGLE_CLASS [2; 2; 3; 4] (seqZ 1 48)], s1).
Proof.
  apply (blob_set_then_get nchw_state 32 nchw_blob [2; 2; 3; 4] (seqZ 1 48)
           DATA); reflexivity.
Defined.

Lemma plane_other_written mode w data b :
  plane (other_plane w) (written mode w data b) = plane (other_plane w) b.
Proof. destruct w; reflexivity. Qed.

(** X7. The two planes are separate: writing one plane of a blob through
    its handle leaves what a read of the other plane returns as it was
    before the write. *)
Theorem write_keeps_other_plane (s : State) (T : Z) (b : Blob)
  (dims data : list Z) (w : WhichMemory) :
  heap s !! T = Some b ->
  blob_ok b = true ->
  mx_wf (mxNumeric mxSINGLE_CLASS dims data) = true ->
  mxGetNumberOfElements (mxNumeric mxSINGLE_CLASS dims data) = count b ->
  exists s1,
    blob_set w [handle_of T (init_key s); mxNumeric mxSINGLE_CLASS dims data] s
      = (Returned [], s1) /\
    fst (blob_get (other_plane w) [handle_of T (init_key s)] s1)
      = fst (blob_get (other_plane w) [handle_of T (init_key s)] s).
Proof.
  intros Hlive Hok Hwf Hcount.
  pose proof (mx_mat_to_blob_run s T b dims data w Hlive Hok Hwf Hcount)
    as Hwrite.
  cbn [mx_wf mxGetNumberOfElements] in Hwf, Hcount. apply Z.eqb_eq in Hwf.
  assert (Hlen : Z.of_nat (length data) = count b) by congruence.
  eexists. split.
  - rewrite blob_set_run by reflexivity.
    rewrite (bind_run _ _ _ _ _ Hwrite). reflexivity.
  - set (b1 := written (Caffe_mode s) w data b).
    set (s1 := set_heap _ s).
    assert (Hlive1 : heap s1 !! T = Some b1) by apply lookup_insert_eq.
    assert (Hok1 : blob_ok b1 = true) by (apply blob_ok_written; assumption).
    change (init_key s) with (init_key s1) at 1.
    rewrite !blob_get_run.
    rewrite (bind_run _ _ _ _ _
               (blob_to_mx_mat_run s1 T b1 (other_plane w) Hlive1 Hok1)).
    rewrite (bind_run _ _ _ _ _
               (blob_to_mx_mat_run s T b (other_plane w) Hlive Hok)).
    change (Caffe_mode s1) with (Caffe_mode s).
    assert (Hshape : shape_ b1 = shape_ b) by apply shape_set_plane.
    unfold count. rewrite Hshape.
    unfold b1. rewrite plane_other_written. reflexivity.
Qed.

Lemma write_keeps_other_plane_witness :
  exists s1,
    blob_set DIFF
      [handle_of 32 7; mxNumeric mxSINGLE_CLASS [2; 2; 3; 4] (seqZ 1 48)]
      nchw_state = (Returned [], s1) /\
    fst (blob_get DATA [handle_of 32 7] s1)
      = fst (blob_get DATA [handle_of 32 7] nchw_state).
Proof.
  apply (write_keeps_other_plane nchw_state 32 nchw_blob [2; 2; 3; 4]
           (seqZ 1 48) DIFF); reflexivity.
Defined.

Lemma blob_get_shape_run s T b :
  heap s !! T = Some b ->
  blob_get_shape [handle_of T (init_key s)] s
  = (Returned [mxNumeric mxDOUBLE_CLASS [1; Z.of_nat (length (shape_ b))]
                 (rev (shape_ b))], s).
Proof.
  intros Hlive. unfold blob_get_shape.
  change (mxIsStruct (handle_of T (init_key s))) with true.
  cbn [mxCHECK]. rewrite bind_ret_l.
  change (arg [handle_of T (init_key s)] 0)
    with (@ret mxArray (handle_of T (init_key s))).
  rewrite bind_ret_l.
  rewrite (bind_run _ _ _ T s)
    by (rewrite handle_to_ptr_run, Z.eqb_refl; reflexivity).
  rewrite (bind_run _ _ _ _ _ (load_blob_run T b s Hlive)).
  cbv zeta. unfold num_axes.
  pose proof (axes_loop_rev (shape_ b) (length (shape_ b)) 0) as H.
  rewrite take_0, app_nil_r, Z.sub_0_r in H. rewrite H by lia.
  reflexivity.
Qed.

(** X8. Through a valid handle [blob_get_shape] returns a 1-by-n double
    row holding the blob's shape in reverse order, and changes nothing; a
    blob without axes gives the empty 1-by-0 row (no dimension is added,
    unlike in [blob_get_data]). *)
Theorem blob_get_shape_reversed (s : State) (T : Z) (b : Blob) :
  heap s !! T = Some b ->
  blob_get_shape [handle_of T (init_key s)] s
  = (Returned [mxNumeric mxDOUBLE_CLASS [1; Z.of_nat (length (shape_ b))]
                 (rev (shape_ b))], s).
Proof. apply blob_get_shape_run. Qed.

Lemma blob_get_shape_reversed_witness :
  blob_get_shape [handle_of 32 7] nchw_state
  = (Returned [mxNumeric mxDOUBLE_CLASS [1; 4] [2; 2; 3; 4]], nchw_state).
Proof. apply (blob_get_shape_reversed nchw_state 32 nchw_blob). reflexivity. Defined.

Lemma reshape_loop_rev shape_mem :
  forall todo k,
    (todo + k = length shape_mem)%nat ->
    reshape_loop shape_mem todo k
      (Z.of_nat (length shape_mem) - 1 - Z.of_nat k)
      (rev (drop (length shape_mem - k) shape_mem) ++ replicate todo 0)
    = Some (rev shape_mem).
Proof.
  induction todo as [| t IH]; intros k Hlen.
  - cbn [reshape_loop replicate]. rewrite app_nil_r.
    replace (length shape_mem - k)%nat with 0%nat by lia. reflexivity.
  - cbn [reshape_loop].
    replace (Z.to_nat (Z.of_nat (length shape_mem) - 1 - Z.of_nat k))
      with t by lia.
    destruct (lookup_lt_is_Some_2 shape_mem t) as [d Hd]; [ lia | ].
    rewrite Hd.
    replace (Z.of_nat (length shape_mem) - 1 - Z.of_nat k - 1)
      with (Z.of_nat (length shape_mem) - 1 - Z.of_nat (S k)) by lia.
    assert (Hk : length (rev (drop (length shape_mem - k) shape_mem)) = k).
    { rewrite length_rev, length_drop. lia. }
    pose proof (insert_app_r (rev (drop (length shape_mem - k) shape_mem))
                  (0 :: replicate t 0) 0 d) as E.
    rewrite Nat.add_0_r, Hk in E. cbn [replicate]. rewrite E.
    cbn [insert list_insert].
    specialize (IH (S k)).
    replace (length shape_mem - S k)%nat with t in IH by lia.
    replace (length shape_mem - k)%nat with (S t) by lia.
    rewrite (drop_S shape_mem d t Hd) in IH. cbn [rev] in IH.
    rewrite <- app_assoc in IH. apply IH. lia.
Qed.

(** X9. [blob_reshape] hands the engine the host's shape in reverse
    order, so that [blob_get_shape] afterwards returns the very shape the
    host gave: host shapes round-trip through reshape and get_shape. *)
Theorem blob_reshape_then_get_shape (Reshape : list Z -> Blob -> option Blob)
  (s : State) (T : Z) (b b' : Blob) (dims data : list Z) :
  heap s !! T = Some b ->
  mx_wf (mxNumeric mxDOUBLE_CLASS dims data) = true ->
  Reshape (rev data) b = Some b' ->
  shape_ b' = rev data ->
  exists s1,
    blob_reshape Reshape
      [handle_of T (init_key s); mxNumeric mxDOUBLE_CLASS dims data] s
      = (Returned [], s1) /\
    blob_get_shape [handle_of T (init_key s)] s1
      = (Returned [mxNumeric mxDOUBLE_CLASS [1; Z.of_nat (length data)] data],
         s1).
Proof.
  intros Hlive Hwf Hengine Hshape.
  cbn [mx_wf] in Hwf. apply Z.eqb_eq in Hwf.
  eexists. split.
  - unfold blob_reshape.
    change (mxIsStruct (handle_of T (init_key s))) with true.
    cbn [mxIsDouble mxIsClass mxClassID_eqb andb mxCHECK].
    rewrite bind_ret_l.
    change (arg [handle_of T (init_key s); mxNumeric mxDOUBLE_CLASS dims data] 0)
      with (@ret mxArray (handle_of T (init_key s))).
    change (arg [handle_of T (init_key s); mxNumeric mxDOUBLE_CLASS dims data] 1)
      with (@ret mxArray (mxNumeric mxDOUBLE_CLASS dims data)).
    rewrite bind_ret_l.
    rewrite (bind_run _ _ _ T s)
      by (rewrite handle_to_ptr_run, Z.eqb_refl; reflexivity).
    rewrite bind_ret_l. cbn [mxGetPr deref]. rewrite bind_ret_l.
    cbv zeta. cbn [mxGetNumberOfElements].
    rewrite <- Hwf, Nat2Z.id.
    pose proof (reshape_loop_rev data (length data) 0) as Hloop.
    rewrite Nat.sub_0_r, drop_all, Z.sub_0_r in Hloop.
    cbn [rev app] in Hloop. rewrite Hloop by lia.
    cbn [deref]. rewrite bind_ret_l.
    rewrite (bind_run _ _ _ _ _ (load_blob_run T b s Hlive)).
    rewrite Hengine. cbn [deref]. rewrite bind_ret_l.
    reflexivity.
  - set (s1 := set_heap _ s). change (init_key s) with (init_key s1).
    rewrite (blob_get_shape_run s1 T b') by apply lookup_insert_eq.
    rewrite Hshape, length_rev, rev_involutive. reflexivity.
Qed.

Lemma blob_reshape_then_get_shape_witness :
  exists s1,
    blob_reshape reshape_keeping_buffers
      [handle_of 32 7; mxNumeric mxDOUBLE_CLASS [1; 2] [6; 8]] nchw_state
      = (Returned [], s1) /\
    blob_get_shape [handle_of 32 7] s1
      = (Returned [mxNumeric mxDOUBLE_CLASS [1; 2] [6; 8]], s1).
Proof.
  apply (blob_reshape_then_get_shape reshape_keeping_buffers nchw_state 32
           nchw_blob (mkBlob [8; 6] (data_ nchw_blob) (diff_ nchw_blob))
           [1; 2] [6; 8]); reflexivity.
Defined.

(** ** The command table *)

(** X10. [dispatch] runs the handler of the first entry of the table that
    bears the command's name, on the remaining arguments. *)
Theorem dispatch_first_match (pre post : list (string * handler))
  (cmd : string) (func : handler) (args : list mxArray) :
  ~ In cmd (map fst pre) ->
  dispatch (pre ++ (cmd, func) :: post) cmd args = func args.
Proof.
  induction pre as [| [name f] pre IH]; intros Hfresh; cbn [app dispatch].
  - rewrite String.eqb_refl. reflexivity.
  - destruct (String.eqb name cmd) eqn:E.
    + apply String.eqb_eq in E. subst name.
      contradiction Hfresh. left. reflexivity.
    + apply IH. intros Hin. apply Hfresh. right. exact Hin.
Qed.

Lemma dispatch_first_match_witness :
  dispatch memory_commands "blob_set_data" [] = blob_set_data [].
Proof.
  apply (dispatch_first_match
           [("blob_get_shape"%string, blob_get_shape);
            ("blob_get_data"%string, blob_get_data);
            ("blob_get_data_byname_multigpu"%string,
             blob_get_data_byname_multigpu)]
           [("blob_set_data_multigpu"%string, blob_set_data_multigpu);
            ("blob_get_diff"%string, blob_get_diff);
            ("blob_set_diff"%string, blob_set_diff);
            ("set_mode_cpu"%string, set_mode_cpu);
            ("set_mode_gpu"%string, set_mode_gpu);
            ("get_init_key"%string, get_init_key);
            ("reset"%string, reset)]
           "blob_set_data" blob_set_data []).
  cbn [map fst In]. intros H.
  repeat (destruct H as [H | H]; [ discriminate H | ]). exact H.
Defined.

(** X11. A command name that no entry of the table bears is answered with
    the error [Unknown command '<name>'], whatever the arguments, and the
    state is as it was. *)
Theorem dispatch_unknown_command (table : list (string * handler))
  (cmd : string) (args : list mxArray) (s : State) :
  ~ In cmd (map fst table) ->
  dispatch table cmd args s = (MexError (unknown_command_msg cmd), s).
Proof.
  induction table as [| [name f] table IH]; intros Hfresh; cbn [dispatch].
  - reflexivity.
  - destruct (String.eqb name cmd) eqn:E.
    + apply String.eqb_eq in E. subst name.
      contradiction Hfresh. left. reflexivity.
    + apply IH. intros Hin. apply Hfresh. right. exact Hin.
Qed.

Lemma dispatch_unknown_command_witness :
  dispatch (handlers idle_engine) "blob_get_dat" [] fresh_state
  = (MexError (unknown_command_msg "blob_get_dat"), fresh_state).
Proof.
  apply (dispatch_unknown_command (handlers idle_engine) "blob_get_dat" []
           fresh_state).
  cbn [handlers map fst In]. intros H.
  repeat (destruct H as [H | H]; [ discriminate H | ]). exact H.
Defined.

(** X12. Called without any argument, [mexFunction] raises its usage
    error and dispatches nothing: the state is as it was. *)
Theorem mexFunction_without_arguments (E : Engine) (s : State) :
  init_key s <> -2 ->
  mexFunction E [] s
  = (MexError "Usage: caffe_(api_command, arg1, arg2, ...)", s).
Proof.
  intros Hkey. unfold mexFunction. rewrite bind_gets.
  destruct (init_key s =? -2) eqn:E0; [ lia | ]. reflexivity.
Qed.

Lemma mexFunction_without_arguments_witness :
  mexFunction idle_engine [] fresh_state
  = (MexError "Usage: caffe_(api_command, arg1, arg2, ...)", fresh_state).
Proof.
  apply (mexFunction_without_arguments idle_engine fresh_state). simpl. lia.
Defined.

(** ** Reset *)

(** X13. [reset] takes no argument: called with any, it raises its usage
    error and neither clears an object nor draws a new key, so earlier
    handles stay valid. *)
Theorem reset_with_arguments (E : Engine) (s : State) (a : mxArray)
  (args : list mxArray) (p : Z) :
  init_key s <> -2 ->
  mexFunction E (mxChar "reset" :: a :: args) s
    = (MexError "Usage: caffe_('reset')", s) /\
  handle_to_ptr (handle_of p (init_key s))
    (snd (mexFunction E (mxChar "reset" :: a :: args) s))
    = (Returned p, s).
Proof.
  intros Hkey.
  assert (Hrun : mexFunction E (mxChar "reset" :: a :: args) s
                 = (MexError "Usage: caffe_('reset')", s)).
  { unfold mexFunction. rewrite bind_gets.
    destruct (init_key s =? -2) eqn:E0; [ lia | ]. reflexivity. }
  split; [ exact Hrun | ].
  rewrite Hrun. cbn [snd]. rewrite handle_to_ptr_run, Z.eqb_refl.
  reflexivity.
Qed.

Lemma reset_with_arguments_witness :
  mexFunction idle_engine [mxChar "reset"; mxChar "all"] pair_state
    = (MexError "Usage: caffe_('reset')", pair_state) /\
  handle_to_ptr (handle_of 100 7)
    (snd (mexFunction idle_engine [mxChar "reset"; mxChar "all"] pair_state))
    = (Returned 100, pair_state).
Proof.
  apply (reset_with_arguments idle_engine pair_state (mxChar "all") [] 100).
  simpl. lia.
Defined.

(** X14. After [reset] the process is as before any solver was built: the
    solver and net vectors are empty and the replica set is gone, so the
    scatter command fails with its multi-GPU error and the gather command
    answers with the scalar -1; mode and device are untouched. *)
Theorem reset_clears_objects (E : Engine) (s : State) :
  init_key s <> -2 ->
  let s' := snd (mexFunction E [mxChar "reset"] s) in
  object_store s' = ([], [], None) /\
  Caffe_mode s' = Caffe_mode s /\
  cuda_device s' = cuda_device s /\
  (forall idx cells,
     mxIsUint32 idx = true -> mxIsCell cells = true ->
     fst (blob_set_data_multigpu [idx; cells] s') = MexError no_multigpu_msg) /\
  (forall name,
     fst (blob_get_data_byname_multigpu [name] s')
     = Returned [mxCreateDoubleScalar (-1)]).
Proof.
  intros Hkey s'. unfold s'. rewrite (mexFunction_reset E s Hkey). cbn [snd].
  split; [ reflexivity | ]. split; [ reflexivity | ].
  split; [ reflexivity | ]. split.
  - intros idx cells Hidx Hcells. unfold blob_set_data_multigpu.
    rewrite Hidx, Hcells. reflexivity.
  - intros name. rewrite gather_without_solver; reflexivity.
Qed.

Lemma reset_clears_objects_witness :
  object_store (snd (mexFunction idle_engine [mxChar "reset"] pair_state))
    = ([], [], None)
  /\ fst (blob_get_data_byname_multigpu [mxChar "fc"]
            (snd (mexFunction idle_engine [mxChar "reset"] pair_state)))
     = Returned [mxCreateDoubleScalar (-1)].
Proof.
  pose proof (reset_clears_objects idle_engine pair_state) as H.
  cbv zeta in H.
  destruct H as (Hstore & _ & _ & _ & Hgather); [ simpl; lia | ].
  split; [ exact Hstore | apply Hgather ].
Defined.

(** ** What the commands leave alone *)

Section KeepsFanout.
Context {X : Type} (f : State -> X).
Hypothesis f_heap : forall h s, f (set_heap h s) = f s.
Hypothesis f_console : forall l s, f (log_console l s) = f s.
Hypothesis f_device : forall d s, f (set_cuda_device d s) = f s.

Lemma keeps_cudaSetDevice d : keeps f (cudaSetDevice d).
Proof.
  unfold cudaSetDevice. apply keeps_bind; [ apply keeps_gets | intros n ].
  destruct ((0 <=? d) && (d <? n)).
  - apply keeps_modify. intros s. apply f_device.
  - apply keeps_crash.
Qed.

Lemma keeps_scatter_loop entries :
  forall i cells blob_index d,
    keeps f (scatter_loop entries i cells blob_index d).
Proof.
  induction entries as [| e rest IH]; intros i cells blob_index d;
    cbn [scatter_loop].
  - apply keeps_ret.
  - repeat (apply keeps_bind;
            [ first [ apply keeps_deref | apply keeps_mxCHECK
                    | apply keeps_cudaSetDevice
                    | apply keeps_mx_mat_to_blob; assumption ]
            | intros ? ]).
    apply IH.
Qed.

Lemma keeps_blob_set_data_multigpu prhs :
  keeps f (blob_set_data_multigpu prhs).
Proof.
  unfold blob_set_data_multigpu, cudaGetDevice.
  repeat first
    [ apply keeps_ret | apply keeps_err | apply keeps_deref
    | apply keeps_mxCHECK | apply keeps_gets | apply keeps_arg
    | apply keeps_scatter_loop
    | apply keeps_mx_mat_to_blob; assumption
    | apply keeps_bind; [ | intros ? ]
    | progress cbv zeta
    | match goal with
      | |- keeps _ (if ?c then _ else _) => destruct c
      end ].
Qed.

Lemma keeps_teststep_loop (FP : Net -> M unit) sync entries :
  (forall n, keeps f (FP n)) ->
  forall i d, keeps f (teststep_loop FP sync entries i d).
Proof.
  intros HFP. induction entries as [| e rest IH]; intros i d;
    cbn [teststep_loop].
  - apply keeps_ret.
  - apply keeps_bind;
      [ destruct (Nat.eqb i 0); [ apply keeps_ret | apply keeps_deref ]
      | intros sv ].
    apply keeps_bind; [ apply keeps_cudaSetDevice | intros _ ].
    apply keeps_bind; [ apply HFP | intros _ ].
    apply keeps_bind; [ apply keeps_cudaSetDevice | intros _ ].
    apply IH.
Qed.
End KeepsFanout.

Lemma keeps_run {X A} (f : State -> X) (m : M A) s o s' :
  keeps f m -> m s = (o, s') -> f s' = f s.
Proof. intros Hm E. specialize (Hm s). rewrite E in Hm. exact Hm. Qed.

(** X15. When [blob_set_data_multigpu] returns, the device that was
    current at the call is current again, and the solvers, the nets, the
    replica set, the key and the mode are as they were: only blob memory
    has changed. *)
Theorem scatter_return_frame (prhs plhs : list mxArray) (s s' : State) :
  blob_set_data_multigpu prhs s = (Returned plhs, s') ->
  plhs = [] /\
  cuda_device s' = cuda_device s /\
  cuda_device_count s' = cuda_device_count s /\
  session s' = session s.
Proof.
  intros Hrun. split; [ | split; [ | split ] ].
  - pose proof (good_blob_set_data_multigpu prhs s) as G.
    rewrite Hrun in G. exact G.
  - exact (scatter_restores_on_return prhs s plhs s' Hrun).
  - eapply (keeps_run cuda_device_count);
      [ apply keeps_blob_set_data_multigpu; reflexivity | exact Hrun ].
  - eapply (keeps_run session);
      [ apply keeps_blob_set_data_multigpu; reflexivity | exact Hrun ].
Qed.

(** X16. However [blob_get_data_byname_multigpu] ends, it has selected no
    device and changed neither the solvers, the nets, the replica set, the
    key nor the mode. *)
Theorem gather_frame (prhs : list mxArray) :
  keeps cuda_device (blob_get_data_byname_multigpu prhs) /\
  keeps cuda_device_count (blob_get_data_byname_multigpu prhs) /\
  keeps session (blob_get_data_byname_multigpu prhs).
Proof.
  repeat split; apply keeps_blob_get_data_byname_multigpu; reflexivity.
Qed.

(** The commands of [memory_commands] are entries of the table, whatever
    the engine. *)
Lemma memory_commands_in_table E entry :
  In entry memory_commands -> In entry (handlers E).
Proof.
  unfold memory_commands, handlers. cbn [In]. intros H.
  repeat (destruct H as [<- | H]; [ tauto | ]). contradiction.
Qed.

(** X17. Of the commands [blob_get_shape], [blob_get_data],
    [blob_get_data_byname_multigpu], [blob_set_data],
    [blob_set_data_multigpu], [blob_get_diff], [blob_set_diff],
    [set_mode_cpu], [set_mode_gpu], [get_init_key] and [reset], however a
    call ends: only [reset] changes the solver vector, the net vector or
    the replica set; only the two mode commands change the mode; and only
    [blob_set_data_multigpu] can leave another device current. *)
Theorem commands_frame :
  table_keeps_except object_store ["reset"%string] memory_commands /\
  table_keeps_except Caffe_mode ["set_mode_cpu"; "set_mode_gpu"]%string
    memory_commands /\
  table_keeps_except cuda_device ["blob_set_data_multigpu"%string]
    memory_commands.
Proof.
  unfold table_keeps_except, memory_commands.
  split; [ | split ];
    repeat (apply Forall_cons; split; [ cbn [fst snd]; intros Hname args | ]);
    try (apply Forall_nil; exact I);
    try (contradiction Hname; cbn [In]; tauto);
    first
      [ apply keeps_blob_get_shape; reflexivity
      | apply keeps_blob_get_data; reflexivity
      | apply keeps_blob_get_data_byname_multigpu; reflexivity
      | apply keeps_blob_set_data; reflexivity
      | apply keeps_blob_set_data_multigpu; reflexivity
      | apply keeps_blob_get_diff; reflexivity
      | apply keeps_blob_set_diff; reflexivity
      | solve [ unfold set_mode_cpu; keeps_tac ]
      | solve [ unfold set_mode_gpu; keeps_tac ]
      | solve [ unfold get_init_key; keeps_tac ]
      | unfold reset; keeps_tac; intros s; reflexivity ].
Qed.

Lemma scatter_return_frame_witness :
  cuda_device (snd (blob_set_data_multigpu even_scatter pair_state))
    = cuda_device pair_state /\
  session (snd (blob_set_data_multigpu even_scatter pair_state))
    = session pair_state.
Proof.
  destruct (scatter_return_frame even_scatter []
              pair_state (snd (blob_set_data_multigpu even_scatter pair_state)))
    as (_ & Hdev & _ & Hsess).
  - reflexivity.
  - split; [ exact Hdev | exact Hsess ].
Defined.

(** X18. Given as many arrays as there are replicas plus or minus some,
    [blob_set_data_multigpu] raises its count error before it writes
    anything: the state is as it was. *)
Theorem scatter_count_mismatch (s : State) (sync : P2PSync) (k : Z)
  (idims : list Z) (cells : list (option mxArray)) :
  sync_ptr s = Some sync ->
  length cells <> length (get_syncs sync) ->
  blob_set_data_multigpu
    [mxNumeric mxUINT32_CLASS idims [k]; mxCell cells] s
  = (MexError scatter_count_msg, s).
Proof.
  intros Hsync Hlen. unfold blob_set_data_multigpu.
  cbn [mxIsUint32 mxIsClass mxClassID_eqb mxIsCell andb mxCHECK].
  rewrite bind_ret_l, bind_gets, Hsync.
  cbn [not_null mxCHECK deref]. rewrite !bind_ret_l.
  change (arg [mxNumeric mxUINT32_CLASS idims [k]; mxCell cells] 0)
    with (@ret mxArray (mxNumeric mxUINT32_CLASS idims [k])).
  change (arg [mxNumeric mxUINT32_CLASS idims [k]; mxCell cells] 1)
    with (@ret mxArray (mxCell cells)).
  rewrite !bind_ret_l. cbn [mxGetScalar deref]. rewrite bind_ret_l.
  cbv zeta. cbn [mxGetNumberOfElements].
  destruct (Z.of_nat (length cells) =? Z.of_nat (length (get_syncs sync)))
    eqn:E.
  - apply Z.eqb_eq in E. lia.
  - reflexivity.
Qed.

Lemma scatter_count_mismatch_witness :
  blob_set_data_multigpu
    [mxNumeric mxUINT32_CLASS [1; 1] [1];
     mxCell [Some (mxNumeric mxSINGLE_CLASS [2] [1; 2])]] pair_state
  = (MexError scatter_count_msg, pair_state).
Proof.
  apply (scatter_count_mismatch pair_state
           (mkP2PSync root_solver [None; Some peer_solver])).
  - reflexivity.
  - simpl. lia.
Defined.

(** ** The test step over the replicas *)

(** X19. [solver_teststep_multigpu] does not test [sync_ptr]: called, as
    its usage asks, without arguments while no replica set exists, it
    dereferences the null pointer, whatever the engine's forward pass is;
    the scatter command in the same state raises an error instead. *)
Theorem teststep_without_replica_set (ForwardPrefilled : Net -> M unit)
  (s : State) :
  sync_ptr s = None ->
  solver_teststep_multigpu ForwardPrefilled [] s = (Crashed, s) /\
  forall prhs, fst (blob_set_data_multigpu prhs s) <> Crashed.
Proof.
  intros Hnull. split.
  - unfold solver_teststep_multigpu.
    change (nrhs [] =? 0) with true. cbn [mxCHECK].
    rewrite bind_ret_l, bind_gets, Hnull. reflexivity.
  - intros prhs. unfold blob_set_data_multigpu.
    destruct (match prhs with
              | [i; c] => mxIsUint32 i && mxIsCell c
              | _ => false
              end); cbn [mxCHECK].
    + rewrite bind_ret_l, bind_gets, Hnull. cbn. discriminate.
    + cbn. discriminate.
Qed.

Lemma teststep_without_replica_set_witness :
  solver_teststep_multigpu forward_nothing [] fresh_state
  = (Crashed, fresh_state).
Proof.
  apply (proj1 (teststep_without_replica_set forward_nothing fresh_state
                  eq_refl)).
Defined.

Lemma teststep_loop_returned (FP : Net -> M unit) sync entries :
  forall i d s s',
    cuda_device s = d ->
    teststep_loop FP sync entries i d s = (Returned tt, s') ->
    cuda_device s' = d.
Proof.
  induction entries as [| e rest IH]; intros i d s s' Hd Hrun.
  - injection Hrun as <-. exact Hd.
  - cbn [teststep_loop] in Hrun.
    apply bind_returned in Hrun as (sv & s1 & _ & Hrun).
    apply bind_returned in Hrun as (u1 & s2 & _ & Hrun).
    apply bind_returned in Hrun as (u2 & s3 & _ & Hrun).
    apply bind_returned in Hrun as ([] & s4 & Hback & Hrun).
    apply cudaSetDevice_returned in Hback.
    exact (IH _ _ _ _ Hback Hrun).
Qed.

(** X20. When [solver_teststep_multigpu] returns, the device that was
    current at the call is current again, whatever the forward passes did
    to the device in between. *)
Theorem teststep_restores_on_return (ForwardPrefilled : Net -> M unit)
  (prhs plhs : list mxArray) (s s' : State) :
  solver_teststep_multigpu ForwardPrefilled prhs s = (Returned plhs, s') ->
  cuda_device s' = cuda_device s /\ plhs = [].
Proof.
  unfold solver_teststep_multigpu. intros Hrun.
  apply bind_returned in Hrun as (u1 & s1 & H1 & Hrun).
  apply bind_returned in Hrun as (sp & s2 & H2 & Hrun).
  apply bind_returned in Hrun as (sync & s3 & H3 & Hrun).
  cbv zeta in Hrun.
  apply bind_returned in Hrun as (d & s4 & H4 & Hrun).
  apply bind_returned in Hrun as ([] & s5 & H5 & Hrun).
  injection Hrun as <- <-.
  injection H4 as <- <-.
  split; [ | reflexivity ].
  rewrite (teststep_loop_returned _ _ _ _ _ _ _ eq_refl H5).
  rewrite (keeps_run cuda_device _ _ _ _ (keeps_deref _ _) H3).
  rewrite (keeps_run cuda_device _ _ _ _ (keeps_gets _ _) H2).
  rewrite (keeps_run cuda_device _ _ _ _ (keeps_mxCHECK _ _ _) H1).
  reflexivity.
Qed.

Lemma teststep_restores_on_return_witness :
  cuda_device (snd (solver_teststep_multigpu forward_nothing [] pair_state))
    = cuda_device pair_state /\
  fst (solver_teststep_multigpu forward_nothing [] pair_state) = Returned [].
Proof.
  destruct (teststep_restores_on_return forward_nothing [] []
              pair_state
              (snd (solver_teststep_multigpu forward_nothing [] pair_state)))
    as [Hdev _].
  - reflexivity.
  - split; [ exact Hdev | reflexivity ].
Defined.

(** ** Device lists of the multi-GPU build *)

Lemma cudaSetDevice_run d s :
  0 <= d < cuda_device_count s ->
  cudaSetDevice d s = (Returned tt, set_cuda_device d s).
Proof.
  intros [Hlo Hhi]. unfold cudaSetDevice. rewrite bind_gets.
  replace (0 <=? d) with true by (symmetry; apply Z.leb_le; lia).
  replace (d <? cuda_device_count s) with true
    by (symmetry; apply Z.ltb_lt; lia).
  reflexivity.
Qed.

(** X21. [get_solver_multigpu] on its device list: an empty list stops it
    with the error [No GPU found!!!] and a line feed; an id at or above
    the device count and within the range of [int], anywhere in the list,
    stops it with the invalid-device error; in both cases nothing has been
    selected or switched.  When every id lies in the range of [int] and
    below the count, and the first one names a device, the set-up returns
    the list as given, selects the first device and switches to GPU mode,
    leaving the solvers, nets, replica set and key alone. *)
Theorem device_list_outcomes (ids : list Z) (s : State) :
  (ids = [] ->
   get_solver_multigpu_gpus ids s
   = (MexError (String.append "No GPU found!!!" LF), s)) /\
  (Exists (fun d => cuda_device_count s <= d < 2 ^ 31) ids ->
   get_solver_multigpu_gpus ids s = (MexError bad_device_msg, s)) /\
  (forall g0 rest,
     ids = g0 :: rest ->
     Forall (fun d => - 2 ^ 31 <= d < 2 ^ 31 /\ d < cuda_device_count s) ids ->
     0 <= g0 ->
     exists s',
       get_solver_multigpu_gpus ids s = (Returned ids, s') /\
       cuda_device s' = g0 /\ Caffe_mode s' = GPU /\
       object_store s' = object_store s /\ init_key s' = init_key s).
Proof.
  split; [ intros ->; reflexivity | split ].
  - apply device_above_count_rejected.
  - intros g0 rest -> Hall Hpos.
    unfold get_solver_multigpu_gpus. rewrite bind_gets.
    rewrite (bind_run _ _ _ _ _ (device_below_count_accepted _ s Hall)).
    cbv beta iota. unfold mexPrintf. rewrite bind_modify.
    apply Forall_cons in Hall as [[_ Hg0] _].
    set (s1 := log_console _ s).
    assert (Hsel : cudaSetDevice g0 s1 = (Returned tt, set_cuda_device g0 s1))
      by (apply cudaSetDevice_run; split; [ exact Hpos | exact Hg0 ]).
    rewrite (bind_run _ _ _ _ _ Hsel).
    eexists. split; [ reflexivity | ].
    repeat split.
Qed.

Lemma device_list_outcomes_witness :
  get_solver_multigpu_gpus [] pair_state
    = (MexError (String.append "No GPU found!!!" LF), pair_state) /\
  get_solver_multigpu_gpus [0; 2] pair_state
    = (MexError bad_device_msg, pair_state) /\
  exists s',
    get_solver_multigpu_gpus [1; 0] pair_state = (Returned [1; 0], s') /\
    cuda_device s' = 1 /\ Caffe_mode s' = GPU /\
    object_store s' = object_store pair_state /\
    init_key s' = init_key pair_state.
Proof.
  split; [ | split ].
  - apply (proj1 (device_list_outcomes [] pair_state) eq_refl).
  - apply (proj1 (proj2 (device_list_outcomes [0; 2] pair_state))).
    apply Exists_cons_tl, Exists_cons_hd. simpl. lia.
  - apply (proj2 (proj2 (device_list_outcomes [1; 0] pair_state)) 1 [0]
             eq_refl).
    + repeat constructor; simpl; lia.
    + lia.
Defined.

(** ** Scatter, then gather *)

(** X22. When [blob_get_data_byname_multigpu] returns in a process that
    has a solver, the result is one cell vector with exactly one single
    array per replica, every cell set. *)
Theorem gather_one_array_per_replica (prhs plhs : list mxArray)
  (s s' : State) :
  solvers_ s <> [] ->
  blob_get_data_byname_multigpu prhs s = (Returned plhs, s') ->
  exists sync arrays,
    sync_ptr s = Some sync /\
    plhs = [mxCell (map Some arrays)] /\
    length arrays = length (get_syncs sync) /\
    Forall is_single_array arrays.
Proof.
  intros Hsolvers Hrun.
  destruct (gather_returned prhs plhs s s' Hsolvers Hrun)
    as (sync & arrays & Hsync & Hplhs & Hlen & Hall).
  exists sync, arrays. repeat split; try assumption.
  eapply Forall_impl; [ exact Hall | ].
  intros r Hr. apply is_marshalled_single. exact Hr.
Qed.

Lemma gather_one_array_per_replica_witness :
  exists sync arrays,
    sync_ptr pair_state = Some sync /\
    fst (blob_get_data_byname_multigpu [mxChar "fc"] pair_state)
      = Returned [mxCell (map Some arrays)] /\
    length arrays = length (get_syncs sync) /\
    Forall is_single_array arrays.
Proof.
  destruct (gather_one_array_per_replica [mxChar "fc"]
              [mxCell [ Some (mxNumeric mxSINGLE_CLASS [2] [0; 0]);
                        Some (mxNumeric mxSINGLE_CLASS [2] [0; 0]) ]]
              pair_state
              (snd (blob_get_data_byname_multigpu [mxChar "fc"] pair_state)))
    as (sync & arrays & Hsync & Hplhs & Hlen & Hall).
  - discriminate.
  - reflexivity.
  - exists sync, arrays. rewrite <- Hplhs. auto.
Defined.

Lemma replicas_from_S sync entries :
  forall i, replicas_from sync (S i) entries = entries.
Proof.
  induction entries as [| e rest IH]; intros i; cbn [replicas_from].
  - reflexivity.
  - rewrite IH. reflexivity.
Qed.

Lemma lane_ok_frame s t j name l :
  lane_ok s j name l ->
  heap t !! lane_ptr l = heap s !! lane_ptr l ->
  cuda_device_count t = cuda_device_count s ->
  lane_ok t j name l.
Proof.
  unfold lane_ok. intros (H1 & H2 & H3 & H4 & H5 & H6 & H7) Hheap Hcount.
  rewrite Hheap, Hcount. auto 10.
Qed.

(** A blob that holds what a write left reads back as written, and the
    read changes nothing. *)
Lemma read_written s T b data w :
  heap s !! T = Some (written (Caffe_mode s) w data b) ->
  blob_ok b = true ->
  Z.of_nat (length data) = count b ->
  blob_to_mx_mat T w s
  = (Returned (mxNumeric mxSINGLE_CLASS (host_shape (shape_ b)) data), s).
Proof.
  intros Hlive Hok Hlen.
  pose proof (read_after_write s T b data w Hok Hlen) as Hread.
  cbv zeta in Hread.
  rewrite (insert_id (heap s) T _ Hlive), set_heap_same in Hread.
  exact Hread.
Qed.

(** The loop over the peers writes every peer's array and comes back to
    the device it started from. *)
Lemma scatter_loop_lanes cells j d name :
  forall ls i t,
    (forall n l, ls !! n = Some l ->
                 cells !! (i + n)%nat = Some (Some (lane_array l))) ->
    Forall (lane_ok t j name) ls ->
    NoDup (map lane_ptr ls) ->
    cuda_device t = d ->
    0 <= d < cuda_device_count t ->
    exists t',
      scatter_loop (map (fun l => Some (lane_solver l)) ls) i (mxCell cells)
        (Z.of_nat j) d t = (Returned tt, t') /\
      cuda_device t' = d /\
      cuda_device_count t' = cuda_device_count t /\
      session t' = session t /\
      Forall (fun l => heap t' !! lane_ptr l
                       = Some (written (Caffe_mode t) DATA (lane_data l)
                                 (lane_blob l))) ls /\
      (forall q, ~ In q (map lane_ptr ls) -> heap t' !! q = heap t !! q).
Proof.
  induction ls as [| l rest IH]; intros i t Hcells Hok Hdup Hd Hvalid.
  - exists t. cbn [map scatter_loop]. repeat split; auto.
  - apply Forall_cons in Hok as [Hl Hrest].
    pose proof Hl as (Hblob & _ & Hlive & Hbok & Hwf & Hfit & Hdev).
    cbn [map] in Hdup. apply NoDup_cons in Hdup as [Hfresh Hdup].
    cbn [map scatter_loop deref]. rewrite bind_ret_l.
    rewrite Nat2Z.id, Hblob. cbn [deref]. rewrite bind_ret_l.
    pose proof (Hcells 0%nat l eq_refl) as Hcell.
    rewrite Nat.add_0_r in Hcell.
    cbn [mxGetCell]. rewrite Hcell.
    change (deref (mjoin (Some (Some (lane_array l)))))
      with (@ret mxArray (lane_array l)).
    rewrite bind_ret_l.
    change (mxIsSingle (lane_array l)) with true. cbn [mxCHECK].
    rewrite bind_ret_l.
    rewrite (bind_run _ _ _ _ _ (cudaSetDevice_run _ t Hdev)).
    set (ta := set_cuda_device (param_device_id (lane_solver l)) t).
    pose proof (mx_mat_to_blob_run ta (lane_ptr l) (lane_blob l)
                  (lane_dims l) (lane_data l) DATA Hlive Hbok Hwf Hfit)
      as Hwrite.
    fold (lane_array l) in Hwrite.
    rewrite (bind_run _ _ _ _ _ Hwrite).
    set (tb := set_heap _ ta).
    assert (Hback : cudaSetDevice d tb = (Returned tt, set_cuda_device d tb))
      by (apply cudaSetDevice_run; exact Hvalid).
    rewrite (bind_run _ _ _ _ _ Hback).
    set (t1 := set_cuda_device d tb).
    assert (Hheap1 : heap t1
                     = <[lane_ptr l := written (Caffe_mode t) DATA
                                         (lane_data l) (lane_blob l)]>
                         (heap t)) by reflexivity.
    destruct (IH (S i) t1) as (t' & Hrun & Hd' & Hc' & Hs' & Hw' & Hf').
    + intros n l' Hn. rewrite Nat.add_succ_comm. apply Hcells. exact Hn.
    + rewrite Forall_forall in *. intros l' Hin.
      apply (lane_ok_frame t); [ apply Hrest; exact Hin | | reflexivity ].
      rewrite Hheap1. apply lookup_insert_ne. intros Heq.
      apply Hfresh. rewrite Heq. apply list_elem_of_fmap_2.
      exact Hin.
    + exact Hdup.
    + reflexivity.
    + exact Hvalid.
    + exists t'. split; [ exact Hrun | ].
      split; [ exact Hd' | ]. split; [ rewrite Hc'; reflexivity | ].
      split; [ rewrite Hs'; reflexivity | ]. split.
      * apply Forall_cons. split; [ | exact Hw' ].
        rewrite Hf' by (rewrite <- list_elem_of_In; exact Hfresh).
        rewrite Hheap1. apply lookup_insert_eq.
      * intros q Hq. cbn [map In] in Hq.
        rewrite Hf' by tauto.
        rewrite Hheap1. apply lookup_insert_ne. tauto.
Qed.

(** The gather loop over replicas whose blobs hold what the scatter wrote
    returns the arrays written and changes nothing. *)
Lemma gather_loop_lanes sync name j :
  forall entries ls i done t,
    replicas_from sync i entries = map (fun l => Some (lane_solver l)) ls ->
    Forall (fun l =>
              index_of name (blob_names (net (lane_solver l))) = Some j /\
              blobs (net (lane_solver l)) !! j = Some (lane_ptr l) /\
              heap t !! lane_ptr l
              = Some (written (Caffe_mode t) DATA (lane_data l) (lane_blob l)) /\
              blob_ok (lane_blob l) = true /\
              Z.of_nat (length (lane_data l)) = count (lane_blob l)) ls ->
    length done = i ->
    gather_loop sync entries i (Some name)
      (mxCell (done ++ replicate (length entries) None)) t
    = (Returned (mxCell (done ++ map (fun l => Some (lane_result l)) ls)), t).
Proof.
  induction entries as [| e rest IH]; intros ls i done t Hreps Hall Hi.
  - destruct ls; [ reflexivity | discriminate Hreps ].
  - destruct ls as [| l ls]; [ discriminate Hreps | ].
    cbn [replicas_from map] in Hreps. injection Hreps as Hhead Hreps.
    apply Forall_cons in Hall as [(Hname & Hblob & Hlive & Hbok & Hlen) Hall].
    cbn [gather_loop].
    assert (Hsv : (if Nat.eqb i 0 then ret (solver sync) else deref e)
                  = @ret Solver (lane_solver l)).
    { destruct (Nat.eqb i 0).
      - injection Hhead as ->. reflexivity.
      - rewrite Hhead. reflexivity. }
    rewrite Hsv, bind_ret_l. cbn [deref]. rewrite bind_ret_l.
    unfold blob_by_name. rewrite Hname, Hblob. cbn [deref].
    rewrite bind_ret_l.
    rewrite (bind_run _ _ _ _ _
               (read_written t (lane_ptr l) (lane_blob l) (lane_data l) DATA
                  Hlive Hbok Hlen)).
    fold (lane_result l).
    cbn [length replicate mxSetCell].
    pose proof (insert_app_r done (None :: replicate (length rest) None) 0
                  (Some (lane_result l))) as E.
    rewrite Nat.add_0_r, Hi in E. rewrite E. cbn [insert list_insert].
    specialize (IH ls (S i) (done ++ [Some (lane_result l)]) t Hreps Hall).
    rewrite length_app, Nat.add_1_r, <- !app_assoc in IH.
    cbn [map]. apply IH. lia.
Qed.

(** X23. Scatter, then gather: when the replica set is sound, the arrays
    fit and the replicas' blobs are distinct, [blob_set_data_multigpu]
    with host index [k] returns, and [blob_get_data_byname_multigpu]
    immediately afterwards, for the name of blob [k], returns for every
    replica, in order, the elements the host supplied for it, under the
    reversed shape of the replica's blob. *)
Theorem scatter_then_gather (s : State) (sync : P2PSync) (k : Z)
  (idims : list Z) (name : string) (lanes : list lane) :
  solvers_ s <> [] ->
  sync_ptr s = Some sync ->
  1 <= k < 2 ^ 32 ->
  lanes <> [] ->
  replicas sync = map (fun l => Some (lane_solver l)) lanes ->
  Forall (lane_ok s (Z.to_nat (k - 1)) name) lanes ->
  NoDup (map lane_ptr lanes) ->
  0 <= cuda_device s < cuda_device_count s ->
  exists s1,
    blob_set_data_multigpu
      [mxNumeric mxUINT32_CLASS idims [k];
       mxCell (map (fun l => Some (lane_array l)) lanes)] s
    = (Returned [], s1) /\
    blob_get_data_byname_multigpu [mxChar name] s1
    = (Returned [mxCell (map (fun l => Some (lane_result l)) lanes)], s1).
Proof.
  intros Hsolvers Hsync Hk Hne Hreps Hok Hdup Hdev.
  destruct lanes as [| l0 ls]; [ contradiction | ].
  set (j := Z.to_nat (k - 1)) in *.
  set (cells := map (fun l => Some (lane_array l)) (l0 :: ls)).
  unfold replicas in Hreps.
  destruct (get_syncs sync) as [| e0 es] eqn:Hvec; [ discriminate Hreps | ].
  cbn [replicas_from map Nat.eqb] in Hreps. injection Hreps as Hroot Hpeers.
  rewrite replicas_from_S in Hpeers.
  pose proof Hok as Hok0. apply Forall_cons in Hok0 as [Hl0 Hrest].
  pose proof Hl0 as (Hblob0 & _ & Hlive0 & Hbok0 & Hwf0 & Hfit0 & _).
  cbn [map] in Hdup. pose proof Hdup as Hdup0.
  apply NoDup_cons in Hdup0 as [Hfresh0 Hdupr].
  (* the scatter *)
  pose proof (mx_mat_to_blob_run s (lane_ptr l0) (lane_blob l0)
                (lane_dims l0) (lane_data l0) DATA Hlive0 Hbok0 Hwf0 Hfit0)
    as Hwrite0.
  fold (lane_array l0) in Hwrite0.
  set (t0 := set_heap _ s) in Hwrite0.
  assert (Hheap0 : heap t0
                   = <[lane_ptr l0 := written (Caffe_mode s) DATA
                                        (lane_data l0) (lane_blob l0)]>
                       (heap s)) by reflexivity.
  destruct (scatter_loop_lanes cells j (cuda_device s) name ls 1%nat t0)
    as (s1 & Hloop & Hd1 & Hc1 & Hs1 & Hw1 & Hf1).
  { intros n l Hn. unfold cells. cbn [map Nat.add lookup list_lookup].
    change ((map (fun l => Some (lane_array l)) ls) !! n
            = Some (Some (lane_array l))).
    rewrite list_lookup_fmap, Hn. reflexivity. }
  { rewrite Forall_forall in *. intros l Hin.
    apply (lane_ok_frame s); [ apply Hrest; exact Hin | | reflexivity ].
    rewrite Hheap0. apply lookup_insert_ne. intros Heq.
    apply Hfresh0. rewrite Heq. apply list_elem_of_fmap_2. exact Hin. }
  { exact Hdupr. }
  { reflexivity. }
  { exact Hdev. }
  assert (Hscatter :
            blob_set_data_multigpu
              [mxNumeric mxUINT32_CLASS idims [k]; mxCell cells] s
            = (Returned [], s1)).
  { unfold blob_set_data_multigpu.
    cbn [mxIsUint32 mxIsClass mxClassID_eqb mxIsCell andb mxCHECK].
    rewrite bind_ret_l, bind_gets, Hsync.
    cbn [not_null mxCHECK deref]. rewrite !bind_ret_l.
    change (arg [mxNumeric mxUINT32_CLASS idims [k]; mxCell cells] 0)
      with (@ret mxArray (mxNumeric mxUINT32_CLASS idims [k])).
    change (arg [mxNumeric mxUINT32_CLASS idims [k]; mxCell cells] 1)
      with (@ret mxArray (mxCell cells)).
    rewrite !bind_ret_l. cbn [mxGetScalar deref]. rewrite bind_ret_l.
    cbv zeta. cbn [mxGetNumberOfElements].
    assert (Hlen : length cells = length (get_syncs sync)).
    { unfold cells. rewrite Hvec, Hpeers. cbn [map length].
      rewrite !length_map. reflexivity. }
    rewrite Hlen, Z.eqb_refl, bind_ret_l.
    change (deref (mxGetCell (mxCell cells) 0))
      with (@ret mxArray (lane_array l0)).
    rewrite bind_ret_l.
    change (mxIsSingle (lane_array l0)) with true. cbn [mxCHECK].
    rewrite bind_ret_l.
    rewrite (Z.mod_small (k - 1) (2 ^ 32)) by lia. fold j.
    rewrite Hroot, Hblob0. cbn [deref].
    rewrite bind_ret_l.
    rewrite (bind_run _ _ _ _ _ Hwrite0).
    unfold cudaGetDevice. rewrite bind_gets.
    change (cuda_device t0) with (cuda_device s).
    rewrite Hvec. cbn [drop]. rewrite Hpeers.
    replace (Z.of_nat j) with (k - 1) in Hloop by (unfold j; lia).
    rewrite (bind_run _ _ _ _ _ Hloop). reflexivity. }
  exists s1. split; [ exact Hscatter | ].
  (* the gather *)
  assert (Hsess : session s1 = session s) by exact Hs1.
  unfold session in Hsess. injection Hsess as Hsv1 _ Hsp1 _ Hmode1.
  unfold blob_get_data_byname_multigpu.
  change (nrhs [mxChar name] =? 1) with true. cbv iota.
  rewrite bind_ret_l, bind_gets, Hsv1.
  destruct (solvers_ s) as [| sv0 svs]; [ contradiction | ].
  rewrite bind_gets, Hsp1, Hsync. cbn [not_null mxCHECK deref].
  rewrite !bind_ret_l. cbv zeta.
  change (arg [mxChar name] 0) with (@ret mxArray (mxChar name)).
  rewrite bind_ret_l. cbn [mxArrayToString].
  assert (Hr : replicas_from sync 0 (get_syncs sync)
               = map (fun l => Some (lane_solver l)) (l0 :: ls)).
  { rewrite Hvec. cbn [replicas_from map Nat.eqb].
    rewrite replicas_from_S, Hroot, Hpeers. reflexivity. }
  assert (Hfacts : forall l, In l (l0 :: ls) ->
            index_of name (blob_names (net (lane_solver l))) = Some j /\
            blobs (net (lane_solver l)) !! j = Some (lane_ptr l) /\
            blob_ok (lane_blob l) = true /\
            Z.of_nat (length (lane_data l)) = count (lane_blob l)).
  { intros l Hin. rewrite Forall_forall in Hok.
    destruct (Hok l) as (Hb & Hn & _ & Hbok & Hwf & Hfit & _).
    { apply list_elem_of_In. exact Hin. }
    cbn [lane_array mx_wf mxGetNumberOfElements] in Hwf, Hfit.
    apply Z.eqb_eq in Hwf. repeat split; auto. congruence. }
  assert (Hall : Forall (fun l =>
            index_of name (blob_names (net (lane_solver l))) = Some j /\
            blobs (net (lane_solver l)) !! j = Some (lane_ptr l) /\
            heap s1 !! lane_ptr l
            = Some (written (Caffe_mode s1) DATA (lane_data l) (lane_blob l)) /\
            blob_ok (lane_blob l) = true /\
            Z.of_nat (length (lane_data l)) = count (lane_blob l))
            (l0 :: ls)).
  { rewrite Hmode1. apply Forall_cons. split.
    - destruct (Hfacts l0 (or_introl eq_refl)) as (Hn & Hb & Hbok & Hlen).
      repeat split; auto.
      rewrite Hf1 by (rewrite <- list_elem_of_In; exact Hfresh0).
      rewrite Hheap0. apply lookup_insert_eq.
    - rewrite Forall_forall in *. intros l Hin.
      destruct (Hfacts l) as (Hn & Hb & Hbok & Hlen).
      { right. apply list_elem_of_In. exact Hin. }
      repeat split; auto; exact (Hw1 l Hin). }
  pose proof (gather_loop_lanes sync name j (get_syncs sync) (l0 :: ls)
                0%nat [] s1 Hr Hall eq_refl) as Hgather.
  cbn [app] in Hgather. unfold mxCreateCellMatrix.
  rewrite (bind_run _ _ _ _ _ Hgather). reflexivity.
Qed.

Lemma scatter_then_gather_witness :
  exists s1,
    blob_set_data_multigpu even_scatter pair_state = (Returned [], s1) /\
    blob_get_data_byname_multigpu [mxChar "fc"] s1
    = (Returned [mxCell [ Some (mxNumeric mxSINGLE_CLASS [2] [1; 2]);
                          Some (mxNumeric mxSINGLE_CLASS [2] [3; 4]) ]], s1).
Proof.
  apply (scatter_then_gather pair_state
           (mkP2PSync root_solver [None; Some peer_solver]) 1 [1; 1] "fc"
           pair_lanes).
  - discriminate.
  - reflexivity.
  - lia.
  - discriminate.
  - reflexivity.
  - repeat (apply Forall_cons; split; [ | try apply Forall_nil ]);
      try exact I; unfold lane_ok; cbn; repeat split; try reflexivity; lia.
  - cbn [pair_lanes map lane_ptr].
    apply NoDup_cons. split.
    + intros Hin. apply list_elem_of_In in Hin.
      cbn [In] in Hin. destruct Hin as [Hin | []]. discriminate Hin.
    + apply NoDup_cons. split; [ | apply NoDup_nil; exact I ].
      intros Hin. apply list_elem_of_In in Hin. destruct Hin.
  - simpl. lia.
Defined.

(** ** Failure in the middle of a scatter *)

Lemma mx_mat_to_blob_mismatch s T b A w :
  heap s !! T = Some b ->
  mxGetNumberOfElements A <> count b ->
  mx_mat_to_blob A T w s = (MexError size_mismatch_msg, s).
Proof.
  intros Hlive Hcount. unfold mx_mat_to_blob.
  rewrite (bind_run _ _ _ _ _ (load_blob_run T b s Hlive)).
  destruct (count b =? mxGetNumberOfElements A) eqn:E.
  - apply Z.eqb_eq in E. congruence.
  - reflexivity.
Qed.

(** X24. A scatter is not all-or-nothing: when the root's array fits and
    the first peer's array does not, the call ends with the size-mismatch
    error after the root's blob has been overwritten with the new
    elements, and with the peer's device current. *)
Theorem scatter_failure_is_partial (s : State) (sync : P2PSync) (k : Z)
  (idims d0 x0 : list Z) (A1 : mxArray) (cs : list (option mxArray))
  (e0 : option Solver) (sv1 : Solver) (es : list (option Solver))
  (p0 p1 : Z) (b0 b1 : Blob) :
  sync_ptr s = Some sync ->
  1 <= k < 2 ^ 32 ->
  get_syncs sync = e0 :: Some sv1 :: es ->
  length cs = length es ->
  blobs (net (solver sync)) !! Z.to_nat (k - 1) = Some p0 ->
  heap s !! p0 = Some b0 ->
  blob_ok b0 = true ->
  mx_wf (mxNumeric mxSINGLE_CLASS d0 x0) = true ->
  mxGetNumberOfElements (mxNumeric mxSINGLE_CLASS d0 x0) = count b0 ->
  blobs (net sv1) !! Z.to_nat (k - 1) = Some p1 ->
  p1 <> p0 ->
  heap s !! p1 = Some b1 ->
  mxIsSingle A1 = true ->
  mxGetNumberOfElements A1 <> count b1 ->
  0 <= param_device_id sv1 < cuda_device_count s ->
  exists s',
    blob_set_data_multigpu
      [mxNumeric mxUINT32_CLASS idims [k];
       mxCell (Some (mxNumeric mxSINGLE_CLASS d0 x0) :: Some A1 :: cs)] s
    = (MexError size_mismatch_msg, s') /\
    heap s' !! p0 = Some (written (Caffe_mode s) DATA x0 b0) /\
    cuda_device s' = param_device_id sv1.
Proof.
  intros Hsync Hk Hvec Hlen Hblob0 Hlive0 Hbok0 Hwf0 Hfit0 Hblob1 Hne Hlive1
    Hsingle1 Hmis1 Hdev1.
  set (A0 := mxNumeric mxSINGLE_CLASS d0 x0) in *.
  set (cells := Some A0 :: Some A1 :: cs).
  pose proof (mx_mat_to_blob_run s p0 b0 d0 x0 DATA Hlive0 Hbok0 Hwf0 Hfit0)
    as Hwrite0.
  fold A0 in Hwrite0. set (t0 := set_heap _ s) in Hwrite0.
  set (t1 := set_cuda_device (param_device_id sv1) t0).
  assert (Hsel : cudaSetDevice (param_device_id sv1) t0 = (Returned tt, t1))
    by (apply cudaSetDevice_run; exact Hdev1).
  assert (Hlive1' : heap t1 !! p1 = Some b1).
  { change (heap t1) with (<[p0 := written (Caffe_mode s) DATA x0 b0]> (heap s)).
    rewrite lookup_insert_ne by congruence. exact Hlive1. }
  pose proof (mx_mat_to_blob_mismatch t1 p1 b1 A1 DATA Hlive1' Hmis1) as Hfail.
  exists t1. split; [ | split ].
  - unfold blob_set_data_multigpu.
    cbn [mxIsUint32 mxIsClass mxClassID_eqb mxIsCell andb mxCHECK].
    rewrite bind_ret_l, bind_gets, Hsync.
    cbn [not_null mxCHECK deref]. rewrite !bind_ret_l.
    change (arg [mxNumeric mxUINT32_CLASS idims [k]; mxCell cells] 0)
      with (@ret mxArray (mxNumeric mxUINT32_CLASS idims [k])).
    change (arg [mxNumeric mxUINT32_CLASS idims [k]; mxCell cells] 1)
      with (@ret mxArray (mxCell cells)).
    rewrite !bind_ret_l. cbn [mxGetScalar deref]. rewrite bind_ret_l.
    cbv zeta. cbn [mxGetNumberOfElements].
    assert (Hcount : length cells = length (get_syncs sync))
      by (unfold cells; rewrite Hvec; cbn [length]; lia).
    rewrite Hcount, Z.eqb_refl, bind_ret_l.
    change (deref (mxGetCell (mxCell cells) 0)) with (@ret mxArray A0).
    rewrite bind_ret_l.
    change (mxIsSingle A0) with true. cbn [mxCHECK]. rewrite bind_ret_l.
    rewrite (Z.mod_small (k - 1) (2 ^ 32)) by lia.
    rewrite Hblob0. cbn [deref]. rewrite bind_ret_l.
    rewrite (bind_run _ _ _ _ _ Hwrite0).
    unfold cudaGetDevice. rewrite bind_gets.
    rewrite Hvec. cbn [drop scatter_loop deref].
    apply bind_err. rewrite bind_ret_l, Hblob1. cbn [deref].
    rewrite bind_ret_l.
    change (deref (mxGetCell (mxCell cells) 1)) with (@ret mxArray A1).
    rewrite bind_ret_l, Hsingle1. cbn [mxCHECK]. rewrite bind_ret_l.
    rewrite (bind_run _ _ _ _ _ Hsel).
    apply bind_err. exact Hfail.
  - apply lookup_insert_eq.
  - reflexivity.
Qed.

Lemma scatter_failure_is_partial_witness :
  exists s',
    blob_set_data_multigpu
      [mxNumeric mxUINT32_CLASS [1; 1] [1];
       mxCell [ Some (mxNumeric mxSINGLE_CLASS [2] [1; 2]);
                Some (mxNumeric mxSINGLE_CLASS [3] [1; 2; 3]) ]] pair_state
    = (MexError size_mismatch_msg, s') /\
    heap s' !! 100 = Some (written GPU DATA [1; 2] pair_blob) /\
    cuda_device s' = 1.
Proof.
  apply (scatter_failure_is_partial pair_state
           (mkP2PSync root_solver [None; Some peer_solver]) 1 [1; 1] [2]
           [1; 2] (mxNumeric mxSINGLE_CLASS [3] [1; 2; 3]) [] None
           peer_solver [] 100 200 pair_blob pair_blob);
    try reflexivity; try lia; try discriminate.
  simpl. lia.
Defined.

(** ** Guards of the gather command and the key *)

(** X25. Without a replica set the gather command never dereferences the
    null [sync_ptr]: with a solver stored and one argument it raises the
    multi-GPU error and leaves the state as it was, and in no case does it
    crash. *)
Theorem gather_without_replica_set (s : State) :
  sync_ptr s = None ->
  (forall prhs, fst (blob_get_data_byname_multigpu prhs s) <> Crashed) /\
  (forall a, solvers_ s <> [] ->
             blob_get_data_byname_multigpu [a] s
             = (MexError no_multigpu_msg, s)).
Proof.
  intros Hnull. split.
  - intros prhs. unfold blob_get_data_byname_multigpu.
    destruct (nrhs prhs =? 1); [ | cbn; discriminate ].
    rewrite bind_ret_l, bind_gets.
    destruct (solvers_ s); [ cbn; discriminate | ].
    rewrite bind_gets, Hnull. cbn. discriminate.
  - intros a Hsolvers. unfold blob_get_data_byname_multigpu.
    change (nrhs [a] =? 1) with true. cbv iota.
    rewrite bind_ret_l, bind_gets.
    destruct (solvers_ s); [ contradiction | ].
    rewrite bind_gets, Hnull. reflexivity.
Qed.

Lemma gather_without_replica_set_witness :
  fst (blob_get_data_byname_multigpu [mxChar "fc"] fresh_state) <> Crashed.
Proof.
  apply (proj1 (gather_without_replica_set fresh_state eq_refl)).
Defined.

(** X26. The key is always an unsigned 32-bit value: if it is one before
    a call of [mexFunction], it is one after, whatever the call; so it is
    never the [-2] that [mexFunction] tests for. *)
Theorem key_stays_unsigned (E : Engine) (prhs : list mxArray) (s : State) :
  0 <= init_key s < 2 ^ 32 ->
  0 <= init_key (snd (mexFunction E prhs s)) < 2 ^ 32 /\
  init_key (snd (mexFunction E prhs s)) <> -2.
Proof.
  intros Hrange.
  assert (Hkey : init_key s <> -2) by lia.
  assert (Hgoal : 0 <= init_key (snd (mexFunction E prhs s)) < 2 ^ 32);
    [ | split; [ exact Hgoal | lia ] ].
  destruct (is_reset prhs) eqn:Hreset.
  - destruct prhs as [| [c d x | cmd | cells | elems] [| a args]];
      try discriminate Hreset.
    cbn [is_reset] in Hreset. apply String.eqb_eq in Hreset. subst cmd.
    rewrite (mexFunction_reset E s Hkey). cbn [snd].
    rewrite after_reset_key. apply Z.mod_pos_bound. lia.
  - rewrite (mexFunction_keeps_key E prhs s Hkey Hreset). exact Hrange.
Qed.

Lemma key_stays_unsigned_witness :
  0 <= init_key (snd (mexFunction idle_engine [mxChar "reset"] fresh_state))
    < 2 ^ 32 /\
  init_key (snd (mexFunction idle_engine [mxChar "reset"] fresh_state)) <> -2.
Proof.
  apply (key_stays_unsigned idle_engine [mxChar "reset"] fresh_state).
  simpl. lia.
Defined.

(** ** Sound calls are not lost *)

Section Sure.
Context {A : Type} (Q : A -> Prop).

Lemma sure_ret a : Q a -> sure Q (ret a).
Proof. intros H s. exact H. Qed.

Lemma sure_err msg : msg <> ""%string -> sure Q (mexErrMsgTxt msg).
Proof. intros H s. exact H. Qed.

Lemma sure_gets (g : State -> A) : (forall s, Q (g s)) -> sure Q (gets g).
Proof. intros H s. apply H. Qed.

Lemma sure_bind {B} (R : B -> Prop) (m : M B) (k : B -> M A) :
  sure R m -> (forall b, R b -> sure Q (k b)) -> sure Q (bind m k).
Proof.
  intros Hm Hk s. unfold bind. specialize (Hm s).
  destruct (m s) as [[b | msg |] s1]; cbn in *.
  - apply Hk. exact Hm.
  - exact Hm.
  - contradiction.
Qed.

Lemma sure_weaken (P : A -> Prop) m :
  sure P m -> (forall a, P a -> Q a) -> sure Q m.
Proof.
  intros Hm HPQ s. specialize (Hm s).
  destruct (fst (m s)); auto.
Qed.
End Sure.

Lemma sure_any {A} (Q : A -> Prop) m : sure Q m -> sure any m.
Proof. intros H. apply (sure_weaken any Q); [ exact H | intros a _; exact I ]. Qed.

(** A check that passes tells the rest of the handler so. *)
Lemma sure_mxCHECK expr msg :
  msg <> ""%string -> sure (fun _ => expr = true) (mxCHECK expr msg).
Proof. intros H. destruct expr; intros s; cbn; [ reflexivity | exact H ]. Qed.

Lemma sure_modify g : sure any (modify g).
Proof. intros s. exact I. Qed.

Lemma sure_any_gets {A} (g : State -> A) : sure any (gets g).
Proof. apply sure_gets. intros s. exact I. Qed.

Lemma sure_any_ret {A} (a : A) : sure any (ret a).
Proof. apply sure_ret. exact I. Qed.

Lemma sure_then {A B} (Q : A -> Prop) (m : M B) (k : B -> M A) :
  sure any m -> (forall b, sure Q (k b)) -> sure Q (bind m k).
Proof. intros Hm Hk. apply (sure_bind Q any); auto. Qed.

Lemma sure_engine {A} (op : EngineOp A) : returns op -> sure any (engine op).
Proof.
  intros Hop s. unfold engine. destruct (Hop (engine_view s)) as [a Ha].
  destruct (op (engine_view s)) as [[a' | |] e]; cbn in Ha;
    [ exact I | discriminate Ha | discriminate Ha ].
Qed.

Lemma returns_comes_back {A} (op : EngineOp A) :
  returns op -> returns_or_throws op.
Proof. intros Hop e. destruct (Hop e) as [a Ha]. rewrite Ha. discriminate. Qed.

Lemma sure_engine_try {A} msg (op : EngineOp A) :
  msg <> ""%string -> returns_or_throws op -> sure any (engine_try msg op).
Proof.
  intros Hmsg Hop s. unfold engine_try. specialize (Hop (engine_view s)).
  destruct (op (engine_view s)) as [[a' | |] e]; cbn in Hop;
    [ exact I | exact Hmsg | contradiction ].
Qed.

Lemma sure_mxCHECK_FILE_EXIST E file : sure any (mxCHECK_FILE_EXIST E file).
Proof.
  unfold mxCHECK_FILE_EXIST. destruct (file_good E file).
  - apply sure_any_ret.
  - apply sure_err. discriminate.
Qed.

Lemma sure_ptr_to_handle p : sure any (ptr_to_handle p).
Proof. intros s. rewrite ptr_to_handle_run. exact I. Qed.

Lemma sure_ptr_vec_to_handle_vec ptrs : sure any (ptr_vec_to_handle_vec ptrs).
Proof.
  intros s.
  assert (Hrun : ptr_vec_to_handle_vec ptrs s
                 = (Returned
                      (mxStruct
                         (map (fun p => handle_fields (p mod 2 ^ 64)
                                          (init_key s)) ptrs)), s))
    by exact (setup_handles_spec ptrs s []).
  rewrite Hrun. exact I.
Qed.

(** A handle as the bridge issues them is read without fault: it yields
    its address or the error for a key out of force. *)
Lemma sure_handle_to_ptr h :
  (exists p k, h = handle_of p k) -> sure any (handle_to_ptr h).
Proof.
  intros (p & k & ->) s. rewrite handle_to_ptr_run.
  destruct (k =? init_key s); cbn; [ exact I | discriminate ].
Qed.

Lemma arg_here a rest : arg (a :: rest) 0 = ret a.
Proof. reflexivity. Qed.

Lemma arg_next a rest i : arg (a :: rest) (S i) = arg rest i.
Proof. reflexivity. Qed.

Create HintDb sure.

#[local] Hint Resolve sure_modify sure_any_gets sure_any_ret
  sure_mxCHECK_FILE_EXIST sure_ptr_to_handle sure_ptr_vec_to_handle_vec
  sure_handle_to_ptr : sure.
#[local] Hint Extern 1 (sure any (mxCHECK _ _)) =>
  eapply sure_any; apply sure_mxCHECK; discriminate : sure.
#[local] Hint Extern 1 (sure _ (mexErrMsgTxt _)) =>
  apply sure_err; discriminate : sure.
#[local] Hint Extern 1 (sure _ (mxERROR _)) =>
  apply sure_err; discriminate : sure.
#[local] Hint Extern 1 (sure any (mexPrintf _ _)) => apply sure_modify : sure.
#[local] Hint Extern 1 (sure any (store_blob _ _)) => apply sure_modify : sure.
#[local] Hint Extern 1 (sure any (free_blob _)) => apply sure_modify : sure.
#[local] Hint Extern 1 (sure any (engine _)) =>
  apply sure_engine; solve [ auto ] : sure.
#[local] Hint Extern 1 (sure any (engine_try _ _)) =>
  apply sure_engine_try;
  [ discriminate
  | first [ solve [ auto ] | apply returns_comes_back; solve [ auto ] ] ]
  : sure.

Lemma sure_scalar args a :
  scalars_present args -> In a args -> mxIsDouble a = true ->
  sure any (deref (mxGetScalar a)).
Proof.
  intros Hall Hin Hd. unfold scalars_present in Hall.
  rewrite Forall_forall in Hall.
  assert (Hs : mxGetScalar a <> None)
    by (apply Hall; [ apply list_elem_of_In; exact Hin | exact Hd ]).
  destruct (mxGetScalar a); [ apply sure_any_ret | contradiction ].
Qed.

Ltac split_checks :=
  repeat match goal with
         | H : _ && _ = true |- _ => apply andb_prop in H; destruct H
         end.

#[local] Hint Extern 1 (sure any (deref (mxGetScalar _))) =>
  eapply sure_scalar;
  [ eassumption | cbn; tauto | split_checks; assumption ] : sure.

(** Reads the shape of the arguments off a usage check that passed. *)
Ltac usage_passed H :=
  repeat first
    [ discriminate H
    | match type of H with
      | (_ && _) = true =>
          let H1 := fresh "Hck" in
          apply andb_prop in H; destruct H as [H1 H];
          try (cbn in H1); try (cbn in H)
      | context [match ?l with [] => _ | _ :: _ => _ end] =>
          is_var l; destruct l; cbn in H
      end ].

Ltac arrays_known :=
  repeat match goal with
         | H : mxIsStruct ?a = true |- _ =>
             is_var a; destruct a; [ discriminate H | discriminate H
                                   | discriminate H | ]
         | H : mxIsChar ?a = true |- _ =>
             is_var a; destruct a; [ discriminate H | | discriminate H
                                   | discriminate H ]
         | H : mxIsCell ?a = true |- _ =>
             is_var a; destruct a; [ discriminate H | discriminate H |
                                   | discriminate H ]
         | H : mxIsDouble ?a = true |- _ =>
             is_var a; destruct a; [ | discriminate H | discriminate H
                                   | discriminate H ]
         | H : mxIsSingle ?a = true |- _ =>
             is_var a; destruct a; [ | discriminate H | discriminate H
                                   | discriminate H ]
         | H : mxIsUint32 ?a = true |- _ =>
             is_var a; destruct a; [ | discriminate H | discriminate H
                                   | discriminate H ]
         end.

Ltac handle_known :=
  match goal with
  | Hh : mxIsStruct ?h = true -> _, H : mxIsStruct ?h = true |- _ =>
      specialize (Hh H)
  end.

Ltac sure_step :=
  lazymatch goal with
  | |- sure _ (bind (ret _) _) => rewrite bind_ret_l
  | |- sure _ (bind (arg (_ :: _) 0) _) => rewrite arg_here
  | |- sure _ (bind (arg (_ :: _) (S _)) _) => rewrite arg_next
  | |- sure _ (bind (deref (Some _)) _) => cbn [deref]
  | |- sure _ (bind (deref (mxArrayToString (mxChar _))) _) =>
      cbn [deref mxArrayToString]
  | |- sure _ (bind (deref (mxGetPr (mxNumeric _ _ _))) _) =>
      cbn [deref mxGetPr]
  | |- sure _ (bind (mxCHECK ?c _) _) =>
      let H := fresh "Hck" in
      apply (sure_bind _ (fun _ => c = true));
      [ apply sure_mxCHECK; discriminate | intros _ H ]
  | |- sure _ (bind _ _) => apply sure_then; [ | intros ? ]
  | |- sure _ (if ?c then _ else _) => destruct c eqn:?
  | |- sure _ (match ?x with _ => _ end) => destruct x eqn:?
  | |- sure _ (let _ := _ in _) => cbv zeta
  end.

Ltac sure_tac := repeat (first [ solve [ auto with sure ] | sure_step ]).

Section SureEngine.
Variable E : Engine.
Hypothesis Htame : tame E.

Lemma sure_get_solver prhs : sure any (get_solver E prhs).
Proof.
  destruct Htame. unfold get_solver. sure_step.
  usage_passed Hck. arrays_known. sure_tac.
Qed.

Lemma sure_solver_get_attr prhs :
  handle_first prhs -> sure any (solver_get_attr E prhs).
Proof.
  destruct Htame. intros Hh. unfold solver_get_attr. sure_step.
  usage_passed Hck. cbn [handle_first] in Hh. handle_known.
  sure_tac.
Qed.

Lemma sure_solver_get_iter prhs :
  handle_first prhs -> sure any (solver_get_iter E prhs).
Proof.
  destruct Htame. intros Hh. unfold solver_get_iter. sure_step.
  usage_passed Hck. cbn [handle_first] in Hh. handle_known.
  sure_tac.
Qed.

Lemma sure_solver_restore prhs :
  handle_first prhs -> sure any (solver_restore E prhs).
Proof.
  destruct Htame. intros Hh. unfold solver_restore. sure_step.
  usage_passed Hck. cbn [handle_first] in Hh. handle_known.
  arrays_known. sure_tac.
Qed.

Lemma sure_solver_solve prhs :
  handle_first prhs -> sure any (solver_solve E prhs).
Proof.
  destruct Htame. intros Hh. unfold solver_solve. sure_step.
  usage_passed Hck. cbn [handle_first] in Hh. handle_known.
  sure_tac.
Qed.

Lemma sure_solver_step prhs :
  handle_first prhs -> scalars_present prhs ->
  sure any (solver_step E prhs).
Proof.
  destruct Htame. intros Hh Hs. unfold solver_step. sure_step.
  usage_passed Hck. cbn [handle_first] in Hh. handle_known.
  sure_tac.
Qed.

Lemma sure_solver_snapshot prhs :
  handle_first prhs -> sure any (solver_snapshot E prhs).
Proof.
  destruct Htame. intros Hh. unfold solver_snapshot. sure_step.
  usage_passed Hck. cbn [handle_first] in Hh. handle_known.
  arrays_known. sure_tac.
Qed.

Lemma sure_get_net prhs : sure any (get_net E prhs).
Proof.
  destruct Htame. unfold get_net. sure_step.
  usage_passed Hck. arrays_known. sure_tac.
Qed.

Lemma sure_net_get_attr prhs :
  handle_first prhs -> sure any (net_get_attr E prhs).
Proof.
  destruct Htame. intros Hh. unfold net_get_attr. sure_step.
  usage_passed Hck. cbn [handle_first] in Hh. handle_known.
  sure_tac.
Qed.

Lemma sure_net_usage_check a0 rest msg :
  msg <> ""%string ->
  sure (fun _ => mxIsStruct a0 = true) (net_usage_check (a0 :: rest) msg).
Proof.
  intros Hmsg. unfold net_usage_check.
  destruct (nrhs (a0 :: rest) <=? 3).
  - rewrite arg_here, bind_ret_l. apply sure_mxCHECK. exact Hmsg.
  - intros s. exact Hmsg.
Qed.

Lemma sure_net_forward prhs :
  prhs <> [] -> handle_first prhs -> scalars_present prhs ->
  sure any (net_forward E prhs).
Proof.
  destruct Htame. intros Hne Hh Hs. unfold net_forward.
  destruct prhs as [| a0 rest]; [ contradiction | ].
  cbn [handle_first] in Hh.
  apply (sure_bind _ (fun _ => mxIsStruct a0 = true));
    [ apply sure_net_usage_check; discriminate | intros _ Hck ].
  handle_known. sure_tac.
Qed.

Lemma sure_net_backward prhs :
  prhs <> [] -> handle_first prhs -> scalars_present prhs ->
  sure any (net_backward E prhs).
Proof.
  destruct Htame. intros Hne Hh Hs. unfold net_backward.
  destruct prhs as [| a0 rest]; [ contradiction | ].
  cbn [handle_first] in Hh.
  apply (sure_bind _ (fun _ => mxIsStruct a0 = true));
    [ apply sure_net_usage_check; discriminate | intros _ Hck ].
  handle_known. sure_tac.
Qed.

Lemma sure_net_copy_from prhs :
  handle_first prhs -> sure any (net_copy_from E prhs).
Proof.
  destruct Htame. intros Hh. unfold net_copy_from. sure_step.
  usage_passed Hck. cbn [handle_first] in Hh. handle_known.
  arrays_known. sure_tac.
Qed.

Lemma sure_net_reshape prhs :
  handle_first prhs -> sure any (net_reshape E prhs).
Proof.
  destruct Htame. intros Hh. unfold net_reshape. sure_step.
  usage_passed Hck. cbn [handle_first] in Hh. handle_known.
  sure_tac.
Qed.

Lemma sure_net_save prhs :
  handle_first prhs -> sure any (net_save E prhs).
Proof.
  destruct Htame. intros Hh. unfold net_save. sure_step.
  usage_passed Hck. cbn [handle_first] in Hh. handle_known.
  arrays_known. sure_tac.
Qed.

Lemma sure_layer_get_attr prhs :
  handle_first prhs -> sure any (layer_get_attr E prhs).
Proof.
  destruct Htame. intros Hh. unfold layer_get_attr. sure_step.
  usage_passed Hck. cbn [handle_first] in Hh. handle_known.
  sure_tac.
Qed.

Lemma sure_layer_get_type prhs :
  handle_first prhs -> sure any (layer_get_type E prhs).
Proof.
  destruct Htame. intros Hh. unfold layer_get_type. sure_step.
  usage_passed Hck. cbn [handle_first] in Hh. handle_known.
  sure_tac.
Qed.

End SureEngine.

(** *** Commands whose safety depends on the state *)

Lemma sure_safe {A} (Q : A -> Prop) (m : M A) s : sure Q m -> safe m s.
Proof.
  intros H. specialize (H s). unfold safe.
  destruct (fst (m s)); [ discriminate | discriminate | contradiction ].
Qed.

Lemma safe_bind {A B} (m : M A) (k : A -> M B) s :
  safe m s ->
  (forall a s1, m s = (Returned a, s1) -> safe (k a) s1) ->
  safe (bind m k) s.
Proof.
  unfold safe, bind. intros Hm Hk.
  destruct (m s) as [[a | msg |] s1]; cbn in *.
  - apply (Hk a s1). reflexivity.
  - discriminate.
  - contradiction.
Qed.

Lemma safe_run {A} (m : M A) s a s1 : m s = (Returned a, s1) -> safe m s.
Proof. unfold safe. intros ->. discriminate. Qed.

Lemma safe_error {A} (m : M A) s msg s1 : m s = (MexError msg, s1) -> safe m s.
Proof. unfold safe. intros ->. discriminate. Qed.

Lemma safe_step {A B} (m : M A) (k : A -> M B) s a s1 :
  m s = (Returned a, s1) -> safe (k a) s1 -> safe (bind m k) s.
Proof. intros Hrun H. unfold safe. rewrite (bind_run _ _ _ _ _ Hrun). exact H. Qed.

Lemma safe_gets {A B} (g : State -> A) (k : A -> M B) s :
  safe (k (g s)) s -> safe (bind (gets g) k) s.
Proof. intros H. exact H. Qed.

Lemma safe_ret {A} (a : A) s : safe (ret a) s.
Proof. unfold safe. cbn. discriminate. Qed.

(** A usage check that fails ends the handler with its error. *)
Lemma safe_usage {A} (c : bool) msg (k : unit -> M A) s :
  (c = true -> safe (k tt) s) -> safe (bind (mxCHECK c msg) k) s.
Proof.
  intros H. destruct c.
  - cbn [mxCHECK]. rewrite bind_ret_l. apply H. reflexivity.
  - unfold safe. cbn. discriminate.
Qed.

(** Past the key test the handler runs on the address of the handle. *)
Lemma safe_after_handle {A} p k (body : Z -> M A) s :
  (k = init_key s -> safe (body p) s) ->
  safe (bind (handle_to_ptr (handle_of p k)) body) s.
Proof.
  intros H. unfold safe, bind. rewrite handle_to_ptr_run.
  destruct (k =? init_key s) eqn:Hk.
  - apply Z.eqb_eq in Hk. apply H. exact Hk.
  - cbn. discriminate.
Qed.

Lemma blob_live_ok_inv h p :
  blob_live_ok h p = true -> exists b, h !! p = Some b /\ blob_ok b = true.
Proof.
  unfold blob_live_ok. destruct (h !! p) as [b |]; [ eauto | discriminate ].
Qed.

Lemma safe_blob_to_mx_mat p w s :
  blob_live_ok (heap s) p = true -> safe (blob_to_mx_mat p w) s.
Proof.
  intros H. apply blob_live_ok_inv in H as (b & Hp & Hok).
  pose proof (blob_to_mx_mat_run s p b w Hp Hok) as Hrun. cbv zeta in Hrun.
  exact (safe_run _ _ _ _ Hrun).
Qed.

(** Writing a sound single array to a sound blob either fits, and leaves
    a sound blob at the address, or is refused for its size. *)
Lemma mx_mat_to_blob_cases A p w s :
  blob_live_ok (heap s) p = true -> mxIsSingle A = true -> mx_wf A = true ->
  (exists b', blob_ok b' = true /\
              mx_mat_to_blob A p w s
              = (Returned tt, set_heap (<[p := b']> (heap s)) s))
  \/ mx_mat_to_blob A p w s = (MexError size_mismatch_msg, s).
Proof.
  intros H Hsingle Hwf. apply blob_live_ok_inv in H as (b & Hp & Hok).
  destruct A as [c dims data | | |]; try discriminate Hsingle.
  destruct c; try discriminate Hsingle.
  destruct (Z.eq_dec (mxGetNumberOfElements (mxNumeric mxSINGLE_CLASS dims data))
              (count b)) as [Heq | Hne].
  - left. exists (written (Caffe_mode s) w data b). split.
    + apply blob_ok_written; [ exact Hok | ].
      cbn [mx_wf mxGetNumberOfElements] in Hwf, Heq.
      apply Z.eqb_eq in Hwf. lia.
    + apply mx_mat_to_blob_run; assumption.
  - right. apply (mx_mat_to_blob_mismatch s p b); assumption.
Qed.

Lemma safe_mx_mat_to_blob A p w s :
  blob_live_ok (heap s) p = true -> mxIsSingle A = true -> mx_wf A = true ->
  safe (mx_mat_to_blob A p w) s.
Proof.
  intros H Hsingle Hwf.
  destruct (mx_mat_to_blob_cases A p w s H Hsingle Hwf)
    as [(b' & _ & Hrun) | Herr].
  - exact (safe_run _ _ _ _ Hrun).
  - exact (safe_error _ _ _ _ Herr).
Qed.

Ltac usage_check :=
  lazymatch goal with
  | |- safe (bind (mxCHECK _ _) _) _ =>
      let H := fresh "Hck" in apply safe_usage; intros H
  end.

(** Opens the handle that comes first in a blob command. *)
Ltac blob_handle Hb :=
  let Hh := fresh "Hh" in
  let Ha := fresh "Ha" in
  destruct Hb as [Hh Ha]; cbn [handle_first address_first] in Hh, Ha;
  match goal with
  | H : mxIsStruct _ = true |- _ =>
      let p := fresh "p" in
      let k := fresh "k" in
      destruct (Hh H) as (p & k & ->); clear Hh
  end.

Lemma safe_blob_get_shape prhs s :
  live_blob_first s prhs -> safe (blob_get_shape prhs) s.
Proof.
  intros Hb. unfold blob_get_shape. usage_check. usage_passed Hck.
  blob_handle Hb.
  rewrite arg_here, bind_ret_l. apply safe_after_handle. intros ->.
  specialize (Ha p eq_refl).
  destruct (heap s !! p) as [b |] eqn:Hp; [ | contradiction ].
  apply (safe_step _ _ _ _ _ (load_blob_run p b s Hp)). apply safe_ret.
Qed.

Lemma safe_blob_get w prhs s :
  blob_first s prhs -> safe (blob_get w prhs) s.
Proof.
  intros Hb.
  destruct w; cbn [blob_get]; unfold blob_get_data, blob_get_diff;
    usage_check; usage_passed Hck; blob_handle Hb;
    rewrite arg_here, bind_ret_l; apply safe_after_handle; intros ->;
    specialize (Ha p eq_refl);
    (apply safe_bind;
     [ apply safe_blob_to_mx_mat; exact Ha
     | intros r s1 _; apply safe_ret ]).
Qed.

Lemma safe_blob_set w prhs s :
  blob_first s prhs -> arrays_sound prhs -> safe (blob_set w prhs) s.
Proof.
  intros Hb Hwf.
  destruct w; cbn [blob_set]; unfold blob_set_data, blob_set_diff;
    usage_check; usage_passed Hck; blob_handle Hb;
    rewrite arg_here, bind_ret_l, arg_next, arg_here, bind_ret_l;
    apply safe_after_handle; intros ->; specialize (Ha p eq_refl);
    unfold arrays_sound in Hwf;
    apply Forall_cons in Hwf as [_ Hwf]; apply Forall_cons in Hwf as [Hwf _];
    (apply safe_bind;
     [ apply safe_mx_mat_to_blob; assumption
     | intros r s1 _; apply safe_ret ]).
Qed.

Lemma safe_set_device prhs s :
  device_sound s prhs -> safe (set_device prhs) s.
Proof.
  intros Hd. unfold set_device. usage_check. usage_passed Hck.
  cbn [device_sound] in Hd. destruct (Hd Hck) as (v & Hv & Hdev).
  rewrite arg_here, bind_ret_l, Hv. cbn [deref]. rewrite bind_ret_l.
  cbv zeta. unfold safe.
  rewrite (bind_run _ _ _ _ _ (cudaSetDevice_run _ s Hdev)).
  cbn. discriminate.
Qed.

Lemma reshape_loop_total shape_mem :
  forall todo k mat_axis blob_shape,
    Z.of_nat todo = mat_axis + 1 -> (todo <= length shape_mem)%nat ->
    reshape_loop shape_mem todo k mat_axis blob_shape <> None.
Proof.
  induction todo as [| t IH]; intros k mat_axis blob_shape Hm Hlen;
    cbn [reshape_loop].
  - discriminate.
  - destruct (shape_mem !! Z.to_nat mat_axis) as [d |] eqn:Hd.
    + apply IH; lia.
    + apply lookup_ge_None in Hd. lia.
Qed.

Lemma safe_blob_reshape (Reshape : list Z -> Blob -> option Blob) prhs s :
  (forall shape b, Reshape shape b <> None) ->
  live_blob_first s prhs -> arrays_sound prhs ->
  safe (blob_reshape Reshape prhs) s.
Proof.
  intros Hre Hb Hwf. unfold blob_reshape. usage_check. usage_passed Hck.
  blob_handle Hb. arrays_known.
  unfold arrays_sound in Hwf.
  apply Forall_cons in Hwf as [_ Hwf]. apply Forall_cons in Hwf as [Hwf _].
  cbn [mx_wf] in Hwf. apply Z.eqb_eq in Hwf.
  rewrite arg_here, bind_ret_l. apply safe_after_handle. intros ->.
  specialize (Ha p eq_refl).
  rewrite arg_next, arg_here, bind_ret_l. cbn [mxGetPr deref].
  rewrite bind_ret_l. cbv zeta. cbn [mxGetNumberOfElements].
  match goal with
  | |- safe (bind (deref ?loop) _) _ => destruct loop as [shape |] eqn:Hloop
  end.
  - cbn [deref]. rewrite bind_ret_l.
    destruct (heap s !! p) as [b |] eqn:Hp; [ | contradiction ].
    apply (safe_step _ _ _ _ _ (load_blob_run p b s Hp)).
    specialize (Hre shape b).
    destruct (Reshape shape b); [ | contradiction ].
    unfold safe. cbn. discriminate.
  - exfalso. revert Hloop. apply reshape_loop_total; lia.
Qed.

Lemma engine_returned {A} (op : EngineOp A) s a s1 :
  engine op s = (Returned a, s1) ->
  exists e, op (engine_view s) = (Done a, e) /\ s1 = engine_update e s.
Proof.
  unfold engine. destruct (op (engine_view s)) as [[a' | |] e]; intros H;
    [ | discriminate H | discriminate H ].
  injection H as <- <-. eauto.
Qed.

Lemma engine_leaves_blob {A} (addr : A -> Z) (op : EngineOp A) s a s1 :
  leaves_blob addr op -> engine op s = (Returned a, s1) ->
  blob_live_ok (heap s1) (addr a) = true.
Proof.
  intros Hop Hrun. apply engine_returned in Hrun as (e & Hop' & ->).
  exact (Hop _ _ _ Hop').
Qed.

Lemma safe_read_mean E prhs s : tame E -> safe (read_mean E prhs) s.
Proof.
  intros Htame. pose proof Htame as Hcalls. destruct Hcalls.
  unfold read_mean. usage_check. usage_passed Hck. arrays_known.
  rewrite arg_here, bind_ret_l. cbn [mxArrayToString deref].
  rewrite bind_ret_l.
  apply safe_bind; [ apply (sure_safe any); auto with sure | intros _ s1 _ ].
  apply safe_bind; [ apply (sure_safe any); auto with sure | intros p s2 _ ].
  apply safe_bind;
    [ apply (sure_safe any); auto with sure | intros result s3 _ ].
  usage_check. destruct result as [proto |]; [ | discriminate Hck0 ].
  cbn [deref]. rewrite bind_ret_l.
  apply safe_bind; [ apply (sure_safe any); auto with sure | intros u s4 Hrun ].
  apply (engine_leaves_blob (fun _ => p)) in Hrun; [ | auto ].
  apply safe_bind; [ apply safe_blob_to_mx_mat; exact Hrun | intros r s5 _ ].
  unfold safe. cbn. discriminate.
Qed.

Lemma safe_write_mean E prhs s :
  tame E -> arrays_sound prhs -> safe (write_mean E prhs) s.
Proof.
  intros Htame Hwf. pose proof Htame as Hcalls. destruct Hcalls.
  unfold write_mean. usage_check. usage_passed Hck.
  match goal with
  | H : mxIsChar ?f = true |- _ =>
      destruct f; [ discriminate H | | discriminate H | discriminate H ]
  end.
  unfold arrays_sound in Hwf. apply Forall_cons in Hwf as [Hwf _].
  rewrite arg_here, bind_ret_l, arg_next, arg_here, bind_ret_l.
  cbn [mxArrayToString deref]. rewrite bind_ret_l. cbv zeta.
  usage_check.
  match goal with
  | H : mxIsSingle ?d = true |- _ =>
      destruct d as [c dims data | | |];
      [ | discriminate H | discriminate H | discriminate H ]
  end.
  unfold mxGetNumberOfDimensions in *. cbn [mxGetDimensions] in *.
  assert (Hdims : exists w h rest, dims = w :: h :: rest
                                   /\ (length rest <= 1)%nat).
  { apply andb_prop in Hck1 as [Hlo Hhi].
    apply Z.leb_le in Hlo, Hhi.
    destruct dims as [| w [| h rest]]; cbn [length] in Hlo, Hhi; try lia.
    exists w, h, rest. split; [ reflexivity | ]. cbn [length] in Hhi. lia. }
  destruct Hdims as (w & h & rest & -> & Hrest).
  cbn [lookup list_lookup fmap option_fmap option_map deref].
  rewrite !bind_ret_l.
  apply safe_bind.
  { destruct rest as [| c0 rest']; cbn [length].
    - unfold safe. cbn. discriminate.
    - destruct rest'; [ | cbn [length] in Hrest; lia ].
      unfold safe. cbn. discriminate. }
  intros channels s1 _.
  apply safe_bind; [ apply (sure_safe any); auto with sure | intros p s2 Hrun ].
  apply (engine_leaves_blob (fun p => p)) in Hrun; [ | auto ].
  apply safe_bind; [ apply safe_mx_mat_to_blob; assumption | intros u s3 _ ].
  apply (sure_safe any). sure_tac.
Qed.

(** The engine has no hand on the number of devices. *)
Lemma engine_keeps_count {A} (op : EngineOp A) s a s1 :
  engine op s = (Returned a, s1) -> cuda_device_count s1 = cuda_device_count s.
Proof.
  intros Hrun. apply engine_returned in Hrun as (e & _ & ->). reflexivity.
Qed.

Lemma safe_teststep_loop E sync :
  tame E ->
  forall entries i d s,
    each_replica (fun sv => device_exists s (param_device_id sv))
      (replicas_from sync i entries) ->
    (entries <> [] -> device_exists s d) ->
    safe (teststep_loop (fun n => engine (Replica_ForwardPrefilled E n))
            sync entries i d) s.
Proof.
  intros Htame. induction entries as [| e rest IH]; intros i d s Hall Hd;
    cbn [teststep_loop].
  - apply safe_ret.
  - cbn [replicas_from] in Hall. unfold each_replica in Hall.
    apply Forall_cons in Hall as [(sv & Hsv & Hdev) Hall].
    specialize (Hd ltac:(discriminate)).
    assert (Hread : (if Nat.eqb i 0 then ret (solver sync) else deref e)
                    = ret sv).
    { destruct (Nat.eqb i 0); [ | subst e; reflexivity ].
      injection Hsv as <-. reflexivity. }
    rewrite Hread, bind_ret_l.
    apply (safe_step _ _ _ _ _ (cudaSetDevice_run _ s Hdev)).
    apply safe_bind.
    { apply (sure_safe any). apply sure_engine.
      apply (tame_Replica_ForwardPrefilled E Htame). }
    intros u s1 Hrun. apply engine_keeps_count in Hrun.
    cbn [set_cuda_device cuda_device_count] in Hrun.
    assert (Hd1 : device_exists s1 d)
      by (unfold device_exists in *; rewrite Hrun; exact Hd).
    apply (safe_step _ _ _ _ _ (cudaSetDevice_run _ s1 Hd1)).
    apply IH.
    + eapply Forall_impl; [ exact Hall | ].
      intros e' (sv' & -> & Hdev'). exists sv'. split; [ reflexivity | ].
      unfold device_exists in *. cbn [set_cuda_device cuda_device_count].
      rewrite Hrun. exact Hdev'.
    + intros _. unfold device_exists in *.
      cbn [set_cuda_device cuda_device_count]. rewrite Hrun. exact Hd.
Qed.

Lemma safe_solver_teststep_multigpu E prhs s :
  tame E -> teststep_sound s prhs ->
  safe (solver_teststep_multigpu
          (fun n => engine (Replica_ForwardPrefilled E n)) prhs) s.
Proof.
  intros Htame Hs. unfold solver_teststep_multigpu. usage_check.
  destruct prhs as [| a rest]; [ | discriminate Hck ].
  cbn [teststep_sound] in Hs. destruct Hs as (sync & Hsync & Hall & Hd).
  apply safe_gets. rewrite Hsync. cbn [deref]. rewrite bind_ret_l.
  cbv zeta. unfold cudaGetDevice. apply safe_gets.
  apply safe_bind.
  - apply safe_teststep_loop; assumption.
  - intros u s1 _. apply safe_ret.
Qed.

(** The device loop of the multi-GPU set-up stops with an error or
    yields the ids converted, each below the device count. *)
Lemma gpus_loop_cases count ids :
  forall gpus s,
    (gpus_loop count ids gpus s
     = (Returned (gpus ++ map int_of_double ids), s) /\
     Forall (fun d => int_of_double d < count) ids)
    \/ gpus_loop count ids gpus s = (MexError bad_device_msg, s).
Proof.
  induction ids as [| d rest IH]; intros gpus s; cbn [gpus_loop map].
  - left. rewrite app_nil_r. split; [ reflexivity | constructor ].
  - cbv zeta. destruct (count <=? int_of_double d) eqn:Hd.
    + right. reflexivity.
    + rewrite bind_ret_l. apply Z.leb_gt in Hd.
      destruct (IH (gpus ++ [int_of_double d]) s) as [[Hrun Hall] | Herr].
      * left. rewrite <- app_assoc in Hrun. split; [ exact Hrun | ].
        constructor; assumption.
      * right. exact Herr.
Qed.

Lemma safe_get_solver_multigpu_gpus ids s :
  match ids with
  | d :: _ => 0 <= int_of_double d
  | [] => True
  end ->
  safe (get_solver_multigpu_gpus ids) s.
Proof.
  intros Hfirst. unfold get_solver_multigpu_gpus, safe. rewrite bind_gets.
  destruct (gpus_loop_cases (cuda_device_count s) ids [] s)
    as [[Hrun Hall] | Herr].
  - rewrite (bind_run _ _ _ _ _ Hrun). cbn [app].
    destruct ids as [| d rest]; cbn [map].
    + cbn. discriminate.
    + apply Forall_cons in Hall as [Hd _].
      unfold mexPrintf. rewrite bind_modify.
      assert (Hdev : 0 <= int_of_double d
                     < cuda_device_count
                         (log_console ("Using GPUs %s" +:+ LF,
                                       int_of_double d
                                       :: map int_of_double rest) s))
        by (cbn [log_console cuda_device_count]; lia).
      rewrite (bind_run _ _ _ _ _ (cudaSetDevice_run _ _ Hdev)).
      cbn. discriminate.
  - rewrite (bind_err _ _ _ _ _ Herr). discriminate.
Qed.

Section SureMultigpu.
Variable E : Engine.
Hypothesis Htame : tame E.

Lemma sure_resume_from solver file : sure any (resume_from E solver file).
Proof. destruct Htame. unfold resume_from. sure_tac. Qed.

(** The argument branches hand on the id array when it comes last. *)
Lemma sure_get_solver_multigpu_args a0 pre dims data :
  sure (fun parsed => snd parsed = Some (mxNumeric mxDOUBLE_CLASS dims data))
    (get_solver_multigpu_args E
       (a0 :: pre ++ [mxNumeric mxDOUBLE_CLASS dims data])).
Proof.
  unfold get_solver_multigpu_args.
  destruct pre as [| a1 [| a2 rest]]; cbn [app].
  - cbn [mxIsChar mxIsDouble mxIsClass mxClassID_eqb].
    apply sure_ret. reflexivity.
  - cbn [mxIsDouble mxIsClass mxClassID_eqb]. rewrite andb_true_r.
    destruct a1 as [c d x | str | cells | elems]; cbn [mxIsChar];
      try (intros s; cbn; discriminate).
    rewrite bind_ret_l. cbn [mxArrayToString deref]. rewrite bind_ret_l.
    apply sure_then; [ auto with sure | intros _ ].
    apply sure_ret. reflexivity.
  - destruct rest; cbn [app]; intros s; cbn; discriminate.
Qed.

Lemma safe_get_solver_multigpu prhs s :
  ids_sound prhs -> safe (get_solver_multigpu E prhs) s.
Proof.
  intros (pre & dims & data & -> & Hpre & Hwf & Hfirst).
  destruct pre as [| a0 pre]; [ contradiction | ]. cbn [app].
  pose proof Htame as Hcalls. destruct Hcalls.
  unfold get_solver_multigpu.
  apply safe_bind; [ apply (sure_safe any); auto with sure | intros _ s1 _ ].
  rewrite arg_here, bind_ret_l. usage_check.
  destruct a0 as [c d x | file | cells | elems]; try discriminate Hck.
  cbn [mxArrayToString deref]. rewrite bind_ret_l.
  apply safe_bind; [ apply (sure_safe any); auto with sure | intros _ s2 _ ].
  apply safe_bind;
    [ eapply sure_safe; apply sure_get_solver_multigpu_args
    | intros parsed s3 Hparsed ].
  pose proof (sure_get_solver_multigpu_args (mxChar file) pre dims data s2)
    as Hids.
  rewrite Hparsed in Hids. cbn [fst] in Hids. cbv zeta.
  apply safe_bind; [ apply (sure_safe any); auto with sure | intros sp s4 _ ].
  rewrite Hids. cbn [device_ids mxGetPr mxGetNumberOfElements].
  replace (Z.to_nat (prod_dims dims) <=? length data)%nat with true
    by (symmetry; apply Nat.leb_le; lia).
  cbn [deref]. rewrite bind_ret_l.
  replace (take (Z.to_nat (prod_dims dims)) data) with data
    by (symmetry; apply take_ge; lia).
  apply safe_bind; [ apply safe_get_solver_multigpu_gpus; exact Hfirst | ].
  intros gpus s5 _. apply (sure_safe any).
  pose proof sure_resume_from as Hresume.
  sure_tac.
Qed.

End SureMultigpu.

(** Writing a sound blob at an address leaves every sound blob sound. *)
Lemma blob_at_insert s s' p b j n :
  blob_ok b = true -> heap s' = <[p := b]> (heap s) ->
  blob_at s j n -> blob_at s' j n.
Proof.
  intros Hok Hheap (q & Hq & Hlive). exists q. split; [ exact Hq | ].
  rewrite Hheap. apply blob_live_ok_insert; assumption.
Qed.

Lemma safe_scatter_loop (j : Z) (d : Z) cells :
  forall entries i s,
    each_replica
      (fun sv => blob_at s (Z.to_nat j) (net sv) /\
                 device_exists s (param_device_id sv)) entries ->
    Forall (fun c => exists a, c = Some a /\ mx_wf a = true) cells ->
    (i + length entries <= length cells)%nat ->
    (entries <> [] -> device_exists s d) ->
    safe (scatter_loop entries i (mxCell cells) j d) s.
Proof.
  induction entries as [| e rest IH]; intros i s Hall Hcells Hlen Hd;
    cbn [scatter_loop].
  - apply safe_ret.
  - unfold each_replica in Hall.
    apply Forall_cons in Hall as [(sv & -> & (p & Hp & Hlive) & Hdev) Hall].
    specialize (Hd ltac:(discriminate)).
    cbn [deref]. rewrite bind_ret_l, Hp. cbn [deref]. rewrite bind_ret_l.
    cbn [length] in Hlen.
    destruct (cells !! i) as [c |] eqn:Hc;
      [ | apply lookup_ge_None in Hc; lia ].
    pose proof Hcells as Hcell. rewrite Forall_forall in Hcell.
    destruct (Hcell c) as (a & -> & Hwf);
      [ apply list_elem_of_lookup; eauto | ].
    cbn [mxGetCell]. rewrite Hc. cbn [mjoin option_join deref].
    rewrite bind_ret_l. usage_check.
    apply (safe_step _ _ _ _ _ (cudaSetDevice_run _ s Hdev)).
    destruct (mx_mat_to_blob_cases a p DATA
                (set_cuda_device (param_device_id sv) s))
      as [(b' & Hok & Hrun) | Herr]; try assumption.
    + apply (safe_step _ _ _ _ _ Hrun).
      set (s2 := set_heap _ _).
      assert (Hd2 : device_exists s2 d) by exact Hd.
      apply (safe_step _ _ _ _ _ (cudaSetDevice_run _ s2 Hd2)).
      apply IH; [ | exact Hcells | lia | intros _; exact Hd ].
      eapply Forall_impl; [ exact Hall | ].
      intros e' (sv' & -> & Hat & Hdev'). exists sv'.
      split; [ reflexivity | ]. split; [ | exact Hdev' ].
      apply (blob_at_insert s _ p b'); [ exact Hok | reflexivity | exact Hat ].
    + apply safe_bind; [ exact (safe_error _ _ _ _ Herr) | ].
      intros u s1 Hrun. rewrite Herr in Hrun. discriminate Hrun.
Qed.

Lemma safe_blob_set_data_multigpu prhs s :
  scatter_sound s prhs -> safe (blob_set_data_multigpu prhs) s.
Proof.
  intros Hs. unfold blob_set_data_multigpu. usage_check. usage_passed Hck.
  arrays_known. cbn [scatter_sound] in Hs.
  match goal with
  | H : mxIsUint32 _ = true |- _ => specialize (Hs H)
  end.
  apply safe_gets. usage_check.
  destruct (sync_ptr s) as [sync |] eqn:Hsync; [ | discriminate Hck1 ].
  destruct (Hs sync eq_refl)
    as (raw & Hraw & Hsome & (p & Hp & Hlive) & Hall & Hcells & Hd).
  cbn [deref]. rewrite bind_ret_l, arg_here, bind_ret_l.
  rewrite arg_next, arg_here, bind_ret_l, Hraw.
  cbn [deref]. rewrite bind_ret_l. cbv zeta. cbn [mxGetNumberOfElements].
  destruct (Z.of_nat (length cells) =? Z.of_nat (length (get_syncs sync)))
    eqn:Hcount; [ | unfold safe; cbn; discriminate ].
  rewrite bind_ret_l. apply Z.eqb_eq in Hcount.
  destruct (get_syncs sync) as [| e0 entries]; [ contradiction | ].
  cbn [drop] in *. rewrite drop_0 in *.
  destruct cells as [| c0 cells']; [ cbn [length] in Hcount; lia | ].
  pose proof Hcells as Hcell0.
  apply Forall_cons in Hcell0 as [(a & -> & Hwf) _].
  cbn [mxGetCell lookup list_lookup mjoin option_join deref].
  rewrite bind_ret_l. usage_check. rewrite Hp. cbn [deref].
  rewrite bind_ret_l.
  destruct (mx_mat_to_blob_cases a p DATA s) as [(b' & Hok & Hrun) | Herr];
    try assumption.
  - apply (safe_step _ _ _ _ _ Hrun). unfold cudaGetDevice.
    apply safe_gets. apply safe_bind; [ | intros u s1 _; apply safe_ret ].
    apply safe_scatter_loop.
    + eapply Forall_impl; [ exact Hall | ].
      intros e' (sv' & -> & Hat & Hdev'). exists sv'.
      split; [ reflexivity | ]. split; [ | exact Hdev' ].
      apply (blob_at_insert s _ p b'); [ exact Hok | reflexivity | exact Hat ].
    + exact Hcells.
    + cbn [length] in *. lia.
    + exact Hd.
  - apply safe_bind; [ exact (safe_error _ _ _ _ Herr) | ].
    intros u s1 Hrun. rewrite Herr in Hrun. discriminate Hrun.
Qed.

Lemma safe_gather_loop sync name :
  forall entries i top s,
    each_replica (fun sv => named_blob_at s name (net sv))
      (replicas_from sync i entries) ->
    safe (gather_loop sync entries i (Some name) top) s.
Proof.
  induction entries as [| e rest IH]; intros i top s Hall;
    cbn [gather_loop].
  - apply safe_ret.
  - cbn [replicas_from] in Hall. unfold each_replica in Hall.
    apply Forall_cons in Hall as [(sv & Hsv & Hnamed) Hall].
    assert (Hread : (if Nat.eqb i 0 then ret (solver sync) else deref e)
                    = ret sv).
    { destruct (Nat.eqb i 0); [ | subst e; reflexivity ].
      injection Hsv as <-. reflexivity. }
    rewrite Hread, bind_ret_l. cbn [deref]. rewrite bind_ret_l.
    unfold blob_by_name.
    destruct (index_of name (blob_names (net sv))) as [j |] eqn:Hj;
      [ | unfold safe; cbn; discriminate ].
    destruct (Hnamed j Hj) as (p & Hp & Hlive).
    rewrite Hp. cbn [deref]. rewrite bind_ret_l.
    apply blob_live_ok_inv in Hlive as (b & Hb & Hok).
    pose proof (blob_to_mx_mat_run s p b DATA Hb Hok) as Hrun.
    cbv zeta in Hrun. apply (safe_step _ _ _ _ _ Hrun).
    apply IH.
    eapply Forall_impl; [ exact Hall | ].
    intros e' (sv' & -> & Hnamed'). exists sv'. split; [ reflexivity | ].
    intros j' Hj'.
    apply (blob_at_insert s _ p
             (set_plane DATA (for_read (Caffe_mode s) (plane DATA b)) b));
      [ apply blob_ok_for_read; exact Hok | reflexivity | auto ].
Qed.

Lemma safe_blob_get_data_byname_multigpu prhs s :
  gather_sound s prhs -> safe (blob_get_data_byname_multigpu prhs) s.
Proof.
  intros Hs. unfold blob_get_data_byname_multigpu.
  destruct (nrhs prhs =? 1) eqn:Hn; [ | unfold safe; cbn; discriminate ].
  rewrite bind_ret_l. apply safe_gets.
  destruct (solvers_ s) as [| sv svs] eqn:Hsolvers;
    [ unfold safe; cbn; discriminate | ].
  apply safe_gets. usage_check.
  destruct (sync_ptr s) as [sync |] eqn:Hsync; [ | discriminate Hck ].
  unfold nrhs in Hn. apply Z.eqb_eq in Hn.
  destruct prhs as [| a [| a' rest]]; cbn [length] in Hn; try lia.
  cbn [gather_sound] in Hs.
  assert (Hany : solvers_ s <> []) by (rewrite Hsolvers; discriminate).
  destruct (Hs Hany sync Hsync) as (name & -> & Hall).
  cbn [deref]. rewrite bind_ret_l, arg_here, bind_ret_l. cbv zeta.
  cbn [mxArrayToString].
  apply safe_bind; [ | intros top' s1 _; apply safe_ret ].
  apply safe_gather_loop. exact Hall.
Qed.

(** Looks a command up in the table of demands. *)
Ltac demand_of H :=
  unfold demands in H; cbn [announced_by] in H;
  repeat match type of H with
         | context [String.eqb ?a ?b] =>
             let v := eval vm_compute in (String.eqb a b) in
             change (String.eqb a b) with v in H
         end;
  cbv beta iota in H.

Ltac safe_entry E :=
  first
    [ apply (sure_safe any);
      first
        [ apply sure_get_solver | apply sure_solver_get_attr
        | apply sure_solver_get_iter | apply sure_solver_restore
        | apply sure_solver_solve | apply sure_solver_step
        | apply sure_solver_snapshot | apply sure_get_net
        | apply sure_net_get_attr | apply sure_net_forward
        | apply sure_net_backward | apply sure_net_copy_from
        | apply sure_net_reshape | apply sure_net_save
        | apply sure_layer_get_attr | apply sure_layer_get_type ];
      tauto
    | apply (sure_safe nothing);
      first [ apply sure_set_mode_cpu | apply sure_set_mode_gpu
            | apply sure_reset | apply sure_init_log ]
    | apply (sure_safe (one is_double_scalar)); apply sure_get_init_key
    | first
        [ apply safe_solver_teststep_multigpu
        | apply safe_get_solver_multigpu
        | apply safe_blob_get_shape
        | apply safe_blob_reshape
        | apply (safe_blob_get DATA)
        | apply (safe_blob_get DIFF)
        | apply (safe_blob_set DATA)
        | apply (safe_blob_set DIFF)
        | apply safe_blob_get_data_byname_multigpu
        | apply safe_blob_set_data_multigpu
        | apply safe_set_device
        | apply safe_read_mean
        | apply safe_write_mean ];
      tauto ].

(** A command that finds what it takes for granted is not lost. *)
Lemma dispatch_safe E cmd args s :
  match announced_by (demands E s) cmd with
  | Some P => P args
  | None => True
  end ->
  safe (dispatch (handlers E) cmd args) s.
Proof.
  intros H. unfold handlers. cbn [dispatch].
  repeat match goal with
         | |- context [String.eqb ?name cmd] =>
             destruct (String.eqb name cmd) eqn:E0;
             [ apply String.eqb_eq in E0; subst cmd; demand_of H
             | clear E0 ]
         end;
    try solve [ safe_entry E ].
  unfold safe. cbn. discriminate.
Qed.


(** [mexFunction] runs the command in the state [entered]. *)
Lemma mexFunction_entered E prhs s :
  mexFunction E prhs s
  = (mxCHECK (0 <? nrhs prhs) "Usage: caffe_(api_command, arg1, arg2, ...)" ;;;
     let* a0 := arg prhs 0 in
     let* cmd := deref (mxArrayToString a0) in
     dispatch (handlers E) cmd (tail prhs)) (entered s).
Proof.
  unfold mexFunction, entered. rewrite bind_gets.
  destruct (init_key s =? -2); reflexivity.
Qed.

Lemma entered_solvers s : solvers_ (entered s) = solvers_ s.
Proof. unfold entered. destruct (init_key s =? -2); reflexivity. Qed.

Lemma quiet_engine_tame : tame quiet_engine.
Proof.
  constructor; intros;
    first
      [ intros e; eexists; reflexivity
      | intros e; cbn; discriminate
      | intros e a e' [= <- <-]; cbn [put_blob engine_heap];
        unfold blob_live_ok; rewrite lookup_insert_eq; reflexivity ].
Qed.

(** Sound calls exist, with and without the engine: a scatter over the
    two replicas of [pair_state], and the iteration count asked of a
    solver handle on an engine that answers.  The test step asked for
    before a replica set exists is not one. *)
Example sound_calls :
  sound_call idle_engine (mxChar "blob_set_data_multigpu" :: even_scatter)
    pair_state /\
  sound_call quiet_engine [mxChar "solver_get_iter"; handle_of 4096 7]
    fresh_state /\
  ~ sound_call idle_engine teststep_too_early fresh_state.
Proof.
  split; [ | split ].
  - intros _ sync [= <-]. exists 1.
    split; [ reflexivity | ]. split; [ discriminate | ].
    split; [ exists 100; split; reflexivity | ].
    split; [ | split ].
    + repeat constructor.
      exists peer_solver. split; [ reflexivity | ].
      split; [ exists 200; split; reflexivity | ].
      unfold device_exists. cbn. lia.
    + repeat constructor; eexists; split; reflexivity.
    + intros _. unfold device_exists. cbn. lia.
  - split; [ exact quiet_engine_tame | ].
    intros _. exists 4096, 7. reflexivity.
  - intros [_ (sync & Hsync & _)]. discriminate Hsync.
Qed.


